(** * Identity normalisation, reconciliation and validation

    A shallow embedding of the two migration scripts

      - [IG_Migration/code-blocks/final.py]       (training / agreement merge)
      - [IG_Migration/code-blocks/gptstudies.py]  (study / asset / contract import)

    Python [str] values are modelled by [string], read as sequences of code
    points in the range 0..255; on that range [str.strip], [str.lower] and
    the ordinal comparison of strings are as defined in [PyStr].  A [dict]
    is an association list kept in insertion order, which is the order a
    Python dict iterates in.  The CSV reader is outside the model: every
    loader takes the rows [csv.DictReader] yields, in file order. *)

From Stdlib Require Import Strings.String Strings.Ascii Lists.List.
From Stdlib Require Import Arith.PeanoNat NArith.BinNat ZArith.ZArith Bool.Bool Lia.
From Stdlib Require Import Sorting.Sorted Sorting.Permutation.
From Stdlib Require Import Numbers.DecimalString.
From Stdlib Require Numbers.DecimalNat Numbers.DecimalFacts.
Import ListNotations.

Local Open Scope list_scope.
Local Open Scope string_scope.
Local Open Scope nat_scope.

(** ** Python string primitives *)

Module PyStr.

(** [str.isspace] for one character (code points below 256). *)
Definition isspace (c : ascii) : bool :=
  let n := nat_of_ascii c in
  ((9 <=? n) && (n <=? 13)) || ((28 <=? n) && (n <=? 32))
  || (n =? 133) || (n =? 160).

Fixpoint lstrip (s : string) : string :=
  match s with
  | EmptyString => EmptyString
  | String c r => if isspace c then lstrip r else s
  end.

Fixpoint rstrip (s : string) : string :=
  match s with
  | EmptyString => EmptyString
  | String c r =>
      match rstrip r with
      | EmptyString => if isspace c then EmptyString else String c EmptyString
      | r' => String c r'
      end
  end.

(** [s.strip()] *)
Definition strip (s : string) : string := rstrip (lstrip s).

Definition lower_char (c : ascii) : ascii :=
  let n := nat_of_ascii c in
  if ((65 <=? n) && (n <=? 90))
     || ((192 <=? n) && (n <=? 222) && negb (n =? 215))
  then ascii_of_nat (n + 32) else c.

(** [s.lower()] *)
Fixpoint lower (s : string) : string :=
  match s with
  | EmptyString => EmptyString
  | String c r => String (lower_char c) (lower r)
  end.

(** [c in s] for a one-character string [c]. *)
Fixpoint contains (c : ascii) (s : string) : bool :=
  match s with
  | EmptyString => false
  | String d r => Ascii.eqb d c || contains c r
  end.

(** [s.replace(a, b)] for one-character strings [a] and [b]. *)
Fixpoint replace (a b : ascii) (s : string) : string :=
  match s with
  | EmptyString => EmptyString
  | String d r => String (if Ascii.eqb d a then b else d) (replace a b r)
  end.

(** Truth value of a string: non-empty. *)
Definition truthy (s : string) : bool :=
  match s with EmptyString => false | _ => true end.

(** [x or ""] for [x : Optional[str]]. *)
Definition or_empty (x : option string) : string :=
  match x with Some s => s | None => EmptyString end.

(** Truth value of an [Optional[str]]: neither [None] nor empty. *)
Definition truthy_opt (x : option string) : bool := truthy (or_empty x).

(** [s or None] *)
Definition or_none (s : string) : option string :=
  if truthy s then Some s else None.

(** [str(n)] for a non-negative integer. *)
Definition of_nat (n : nat) : string :=
  NilEmpty.string_of_uint (Nat.to_uint n).

Definition is_digit (c : ascii) : bool :=
  let n := nat_of_ascii c in (48 <=? n) && (n <=? 57).

Definition digit_val (c : ascii) : nat := nat_of_ascii c - 48.

End PyStr.

(** ** Python dicts, insertion ordered *)

Section Dict.
Context {V : Type}.

Definition dict := list (string * V).

Fixpoint dict_get (d : dict) (k : string) : option V :=
  match d with
  | [] => None
  | (k', v) :: r => if String.eqb k' k then Some v else dict_get r k
  end.

(** [d[k] = v]: an existing key keeps its place, a new one goes last. *)
Fixpoint dict_set (d : dict) (k : string) (v : V) : dict :=
  match d with
  | [] => [(k, v)]
  | (k', v') :: r =>
      if String.eqb k' k then (k', v) :: r else (k', v') :: dict_set r k v
  end.

Definition dict_keys (d : dict) : list string := map fst d.

(** [d.get(k, default)] *)
Definition dict_get_default (d : dict) (k : string) (default : V) : V :=
  match dict_get d k with Some v => v | None => default end.
End Dict.
Arguments dict V : clear implicits.

(** A row of [csv.DictReader]: header name to cell text. *)
Definition Row := dict string.
Definition row_get (row : Row) (k : string) : option string := dict_get row k.

(** ** Sorting: [list.sort(key=...)] and [sorted], which are stable *)

Section Sort.
Context {A K : Type}.
Variable kleb : K -> K -> bool.
Variable key : A -> K.

Fixpoint insert_by (x : A) (l : list A) : list A :=
  match l with
  | [] => [x]
  | y :: r => if kleb (key x) (key y) then x :: l else y :: insert_by x r
  end.

Fixpoint sort_by (l : list A) : list A :=
  match l with
  | [] => []
  | x :: r => insert_by x (sort_by r)
  end.
End Sort.

(** [sorted(l)] on strings: ordinal comparison of code points. *)
Definition sorted_str (l : list string) : list string :=
  sort_by String.leb (fun s => s) l.

(** Tuple comparison on pairs of strings, as [(a, b) <= (c, d)]. *)
Definition pair_leb (p q : string * string) : bool :=
  match String.compare (fst p) (fst q) with
  | Lt => true
  | Gt => false
  | Eq => String.leb (snd p) (snd q)
  end.

(** ** [datetime.strptime] and [strftime] for the two formats in use *)

Module PyDate.
Import PyStr.
Local Open Scope Z_scope.

Record date := { year : Z; month : Z; day : Z }.

Definition is_leap (y : Z) : bool :=
  ((y mod 4 =? 0) && negb (y mod 100 =? 0)) || (y mod 400 =? 0).

Definition days_in_month (y m : Z) : Z :=
  match m with
  | 1 | 3 | 5 | 7 | 8 | 10 | 12 => 31
  | 4 | 6 | 9 | 11 => 30
  | 2 => if is_leap y then 29 else 28
  | _ => 0
  end.

(** The date constructor: [ValueError] outside the calendar. *)
Definition make_date (y m d : Z) : option date :=
  if (1 <=? y) && (y <=? 9999) && (1 <=? m) && (m <=? 12)
     && (1 <=? d) && (d <=? days_in_month y m)
  then Some {| year := y; month := m; day := d |} else None.

(** The regular expressions [strptime] compiles the directives into.
    A matcher returns every way to match at the head of the text, in the
    order a backtracking matcher tries them: the value read and the rest. *)
Definition matcher := string -> list (Z * string).

Definition in_range (lo hi : nat) (c : ascii) : bool :=
  let n := nat_of_ascii c in ((lo <=? n) && (n <=? hi))%nat.

Definition dval (c : ascii) : Z := Z.of_nat (digit_val c).

(** Two characters: the first in [lo1..hi1], the second in [lo2..hi2]. *)
Definition two (lo1 hi1 lo2 hi2 : nat) : matcher := fun s =>
  match s with
  | String a (String b r) =>
      if in_range lo1 hi1 a && in_range lo2 hi2 b
      then [(10 * dval a + dval b, r)] else []
  | _ => []
  end.

Definition one (lo hi : nat) : matcher := fun s =>
  match s with
  | String a r => if in_range lo hi a then [(dval a, r)] else []
  | _ => []
  end.

(** A space, then one character in [lo..hi]. *)
Definition space_one (lo hi : nat) : matcher := fun s =>
  match s with
  | String a (String b r) =>
      if Ascii.eqb a " " && in_range lo hi b then [(dval b, r)] else []
  | _ => []
  end.

(** [%d]: [3[0-1]|[1-2]\d|0[1-9]|[1-9]| [1-9]] *)
Definition re_d : matcher := fun s =>
  (two 51 51 48 49 s ++ two 49 50 48 57 s ++ two 48 48 49 57 s
   ++ one 49 57 s ++ space_one 49 57 s)%list.

(** [%m]: [1[0-2]|0[1-9]|[1-9]] *)
Definition re_m : matcher := fun s =>
  (two 49 49 48 50 s ++ two 48 48 49 57 s ++ one 49 57 s)%list.

(** [%Y]: [\d\d\d\d] *)
Definition re_Y : matcher := fun s =>
  match s with
  | String a (String b (String c (String d r))) =>
      if is_digit a && is_digit b && is_digit c && is_digit d
      then [(1000 * dval a + 100 * dval b + 10 * dval c + dval d, r)]
      else []
  | _ => []
  end.

(** A literal character of the format. *)
Definition lit (c : ascii) (s : string) : list string :=
  match s with
  | String a r => if Ascii.eqb a c then [r] else []
  | _ => []
  end.

(** Sequencing of matchers: all the ways, first alternatives first. *)
Definition bind {X Y : Type} (l : list X) (f : X -> list Y) : list Y :=
  flat_map f l.

(** The first match decides; text left over is "unconverted data". *)
Definition finish (ms : list (Z * Z * Z * string)) : option date :=
  match ms with
  | (y, m, d, rest) :: _ =>
      match rest with
      | EmptyString => make_date y m d
      | _ => None
      end
  | [] => None
  end.

(** [datetime.strptime(s, "%d/%m/%Y")], [None] for [ValueError]. *)
Definition strptime_dmy (s : string) : option date :=
  finish
    (bind (re_d s) (fun '(d, s1) =>
     bind (lit "/" s1) (fun s2 =>
     bind (re_m s2) (fun '(m, s3) =>
     bind (lit "/" s3) (fun s4 =>
     bind (re_Y s4) (fun '(y, s5) => [(y, m, d, s5)])))))).

(** [datetime.strptime(s, "%Y-%m-%d")], [None] for [ValueError]. *)
Definition strptime_ymd (s : string) : option date :=
  finish
    (bind (re_Y s) (fun '(y, s1) =>
     bind (lit "-" s1) (fun s2 =>
     bind (re_m s2) (fun '(m, s3) =>
     bind (lit "-" s3) (fun s4 =>
     bind (re_d s4) (fun '(d, s5) => [(y, m, d, s5)])))))).

Definition digit_char (n : Z) : ascii :=
  ascii_of_nat (48 + Z.to_nat (n mod 10)).

Definition pad2 (n : Z) : string :=
  String (digit_char (n / 10)) (String (digit_char n) EmptyString).

Definition pad4 (n : Z) : string :=
  String (digit_char (n / 1000)) (String (digit_char (n / 100))
    (String (digit_char (n / 10)) (String (digit_char n) EmptyString))).

(** [dt.strftime("%Y-%m-%d")].  The interpreter hands the format to the
    C library; glibc writes the year as a plain decimal number, so a year
    below 1000 has fewer than four digits. *)
Definition strftime_ymd (dt : date) : string :=
  of_nat (Z.to_nat (year dt)) ++ "-" ++ pad2 (month dt) ++ "-"
  ++ pad2 (day dt).

End PyDate.

(** ** final.py *)

Module Final.
Import PyStr PyDate.

Record Record_ := {
  username : string;
  has_signed_agreement : bool;
  nhsd_training_completed_at : option date
}.

Definition normalise_username (value : string) : string :=
  let value := lower (strip value) in
  if contains "@" value
  then replace "@" "_" value ++ "#EXT#@liveuclac.onmicrosoft.com"
  else value ++ "@ucl.ac.uk".

(** One iteration of the loop of [load_training]. *)
Definition load_training_row (training : dict (option date)) (row : Row)
  : dict (option date) :=
  let other_email := strip (or_empty (row_get row "Other email")) in
  let userid := strip (or_empty (row_get row "UserID")) in
  let file user :=
    let date_str := strip (or_empty (row_get row "LastTrained")) in
    let training_date :=
      if truthy date_str then strptime_dmy date_str else None in
    dict_set training user training_date in
  if truthy other_email then file (normalise_username other_email)
  else if truthy userid then file (normalise_username userid)
  else training.

Definition load_training (rows : list Row) : dict (option date) :=
  fold_left load_training_row rows [].

(** One iteration of the loop of [load_agreements]. *)
Definition load_agreements_row (agreements : dict bool) (row : Row)
  : dict bool :=
  if negb (truthy_opt (row_get row "UserID"))
     || negb (truthy_opt (row_get row "Approved"))
  then agreements
  else
    let user := normalise_username (or_empty (row_get row "UserID")) in
    let has_signed :=
      String.eqb (lower (strip (or_empty (row_get row "Approved")))) "true" in
    dict_set agreements user has_signed.

Definition load_agreements (rows : list Row) : dict bool :=
  fold_left load_agreements_row rows [].

(** [sorted(set(training) | set(agreements))]: the keys of both dicts,
    each once, sorted.  The order of the strings is total, so the order in
    which the set is enumerated has no effect on the result. *)
Definition all_users (training : dict (option date)) (agreements : dict bool)
  : list string :=
  sorted_str (nodup string_dec (dict_keys training ++ dict_keys agreements)%list).

(** The body of [merge_records], after the two loads. *)
Definition merge (training : dict (option date)) (agreements : dict bool)
  : list Record_ :=
  map (fun user =>
         {| username := user;
            has_signed_agreement := dict_get_default agreements user false;
            nhsd_training_completed_at :=
              dict_get_default training user None |})
      (all_users training agreements).

Definition merge_records (training_rows agreement_rows : list Row)
  : list Record_ :=
  merge (load_training training_rows) (load_agreements agreement_rows).

End Final.

(** ** gptstudies.py *)

Module Asset.
Record t := {
  creator_userID : string;
  caseref : string;
  asset_sp_id : string;
  title : string;
  description : string;
  classification_impact : string;
  tier : Z;
  protection : string;
  legal_basis : string;
  format : string;
  expires_at : option string;
  requires_contract : bool;
  has_dspt : bool;
  stored_outside_uk_eea : bool;
  status : string;
  locations : option string
}.
End Asset.

Module Contract.
Record t := {
  creator_userID : string;
  caseref : string;
  contract_sp_id : string;
  filename : string;
  status : string;
  start_date : option string;
  expiry_date : option string;
  organisation_signatory : option string;
  third_party_name : option string;
  creator_username : option string
}.
End Contract.

Module Study.
Record t := {
  caseref : string;
  owner_user_id : string;
  admin_user_id : string;
  title : string;
  approval_status : string;
  description : option string;
  data_controller_organisation : string;
  involves_ucl_sponsorship : bool;
  involves_cag : bool;
  cag_reference : option string;
  involves_ethics_approval : bool;
  involves_hra_approval : bool;
  iras_id : option string;
  is_nhs_associated : bool;
  involves_nhs_england : bool;
  nhs_england_reference : option string;
  involves_mnca : bool;
  requires_dspt : bool;
  requires_dbs : bool;
  is_data_protection_office_registered : option bool;
  data_protection_number : option string;
  involves_third_party : bool;
  involves_external_users : bool;
  involves_participant_consent : bool;
  involves_indirect_data_collection : bool;
  involves_data_processing_outside_uk_eea : bool;
  dsh_active : bool;
  last_signoff : option string;
  feedback : option string;
  contracts : list Contract.t;
  assets : list Asset.t
}.

(** [study["contracts"] = cs; study["assets"] = az] *)
Definition with_children (s : t) (cs : list Contract.t) (az : list Asset.t)
  : t :=
  {| caseref := caseref s;
     owner_user_id := owner_user_id s;
     admin_user_id := admin_user_id s;
     title := title s;
     approval_status := approval_status s;
     description := description s;
     data_controller_organisation := data_controller_organisation s;
     involves_ucl_sponsorship := involves_ucl_sponsorship s;
     involves_cag := involves_cag s;
     cag_reference := cag_reference s;
     involves_ethics_approval := involves_ethics_approval s;
     involves_hra_approval := involves_hra_approval s;
     iras_id := iras_id s;
     is_nhs_associated := is_nhs_associated s;
     involves_nhs_england := involves_nhs_england s;
     nhs_england_reference := nhs_england_reference s;
     involves_mnca := involves_mnca s;
     requires_dspt := requires_dspt s;
     requires_dbs := requires_dbs s;
     is_data_protection_office_registered :=
       is_data_protection_office_registered s;
     data_protection_number := data_protection_number s;
     involves_third_party := involves_third_party s;
     involves_external_users := involves_external_users s;
     involves_participant_consent := involves_participant_consent s;
     involves_indirect_data_collection := involves_indirect_data_collection s;
     involves_data_processing_outside_uk_eea :=
       involves_data_processing_outside_uk_eea s;
     dsh_active := dsh_active s;
     last_signoff := last_signoff s;
     feedback := feedback s;
     contracts := cs;
     assets := az |}.
End Study.

Module GptStudies.
Import PyStr PyDate.

Definition VALIDATE_DATES : bool := true.

(** The [ValueError]s the readers raise: a row without CaseRef, a date
    that is not DD/MM/YYYY, and the two [int] raises. *)
Inductive ValueError :=
| MissingCaseRef (source : string) (line : nat)
| InvalidDate (file : string) (line : nat) (raw : string)
| InvalidInt (raw : string)
| IntTooLong (digits : nat).

(** The most digits [int] converts: the default of
    [sys.int_max_str_digits]. *)
Definition MAX_STR_DIGITS : nat := 4300.

Definition hex_digit (n : nat) : ascii :=
  if (n <? 10)%nat then ascii_of_nat (48 + n) else ascii_of_nat (87 + n).

(** Characters [repr] writes as they are. *)
Definition isprintable (c : ascii) : bool :=
  let n := nat_of_ascii c in
  ((32 <=? n) && (n <? 127) || (161 <=? n) && negb (n =? 173))%nat.

Definition repr_char (quote : ascii) (c : ascii) : string :=
  let n := nat_of_ascii c in
  if Ascii.eqb c quote || Ascii.eqb c "\" then String "\" (String c "")
  else if (n =? 9)%nat then "\t"
  else if (n =? 10)%nat then "\n"
  else if (n =? 13)%nat then "\r"
  else if isprintable c then String c ""
  else String "\" (String "x" (String (hex_digit (n / 16))
         (String (hex_digit (n mod 16)) ""))).

Fixpoint repr_body (quote : ascii) (s : string) : string :=
  match s with
  | EmptyString => EmptyString
  | String c r => repr_char quote c ++ repr_body quote r
  end.

(** [repr(s)], as [{s!r}] writes it. *)
Definition repr (s : string) : string :=
  let double_quote := ascii_of_nat 34 in
  let quote : ascii :=
    if contains "'" s && negb (contains double_quote s) then double_quote
    else "'"%char in
  String quote (repr_body quote s ++ String quote "").

(** The text of an error. *)
Definition message (e : ValueError) : string :=
  match e with
  | MissingCaseRef source line =>
      source ++ " row missing CaseRef (line " ++ of_nat line ++ ")"
  | InvalidDate file line raw =>
      "Invalid date format (expected DD/MM/YYYY) in " ++ file ++ " line "
      ++ of_nat line ++ ": " ++ repr raw
  | InvalidInt raw =>
      "invalid literal for int() with base 10: "
      ++ substring 0 200 (repr raw)
  | IntTooLong digits =>
      "Exceeds the limit (" ++ of_nat MAX_STR_DIGITS
      ++ " digits) for integer string conversion: value has "
      ++ of_nat digits
      ++ " digits; use sys.set_int_max_str_digits() to increase the limit"
  end.

Inductive result (A : Type) :=
| Ok (a : A)
| Raise (e : ValueError).
Arguments Ok {A} a.
Arguments Raise {A} e.

Definition bind_result {A B} (r : result A) (f : A -> result B) : result B :=
  match r with
  | Ok a => f a
  | Raise e => Raise e
  end.

Notation "x <- r ;; k" := (bind_result r (fun x => k))
  (at level 61, r at next level, right associativity).

Definition to_bool (s : option string) : bool :=
  let t := lower (strip (or_empty s)) in
  String.eqb t "true" || String.eqb t "1"
  || String.eqb t "yes" || String.eqb t "y".

Definition parse_date (date_str : option string) : option string :=
  let ds := strip (or_empty date_str) in
  if negb (truthy ds) then None
  else match strptime_dmy ds with
       | Some dt => Some (strftime_ymd dt)
       | None => None
       end.

Definition validate_json_date (date_str : string) : option date :=
  let ds := strip date_str in
  if negb (truthy ds) then None else strptime_ymd ds.

(** The whitespace [int] skips at both ends: the whitespace of the C
    locale, and the next-line and no-break space characters, which the
    conversion first replaces by a blank.  The separators 28 to 31, which
    [str.strip] removes, are not among them. *)
Definition int_space (c : ascii) : bool :=
  let n := nat_of_ascii c in
  ((9 <=? n) && (n <=? 13)) || (n =? 32) || (n =? 133) || (n =? 160).

Fixpoint int_skip (s : string) : string :=
  match s with
  | EmptyString => EmptyString
  | String c r => if int_space c then int_skip r else s
  end.

(** The run of digits at the head of a text: its value, the number of its
    digits and the text after it.  Single underscores are allowed between
    digits; [None] when the run is empty, or an underscore starts it, ends
    it or follows another. *)
Fixpoint int_digits (acc : Z) (count : nat) (after_digit : bool)
  (s : string) : option (Z * nat * string) :=
  match s with
  | EmptyString => if after_digit then Some (acc, count, s) else None
  | String c r =>
      if is_digit c
      then int_digits (10 * acc + Z.of_nat (digit_val c))%Z (S count) true r
      else if Ascii.eqb c "_"
      then if after_digit then int_digits acc count false r else None
      else if after_digit then Some (acc, count, s) else None
  end.

(** What the conversion of a text to an integer comes to. *)
Inductive int_outcome :=
| IntValue (v : Z)
| IntInvalid
| IntExceeds (digits : nat).

(** The conversion in base 10: whitespace, a sign, the digits, whitespace.
    The cap on the number of digits is checked when the digits have been
    scanned, before what follows them is looked at. *)
Definition int_literal (s : string) : int_outcome :=
  let t := int_skip s in
  let '(negative, u) :=
    match t with
    | String "+" r => (false, r)
    | String "-" r => (true, r)
    | _ => (false, t)
    end in
  match int_digits 0 0 false u with
  | None => IntInvalid
  | Some (v, count, rest) =>
      if (MAX_STR_DIGITS <? count)%nat then IntExceeds count
      else match int_skip rest with
           | EmptyString => IntValue (if negative then (- v)%Z else v)
           | _ => IntInvalid
           end
  end.

(** [int(s)]; the error for a text that is no integer quotes the text. *)
Definition py_int (s : string) : result Z :=
  match int_literal s with
  | IntValue v => Ok v
  | IntInvalid => Raise (InvalidInt s)
  | IntExceeds digits => Raise (IntTooLong digits)
  end.

(** [(row.get(k) or "").strip()] *)
Definition field (row : Row) (k : string) : string :=
  strip (or_empty (row_get row k)).

(** [((row.get(k) or "").strip() or None)] *)
Definition opt_field (row : Row) (k : string) : option string :=
  or_none (field row k).

(** The dict literal of [read_studies]. *)
Definition study_of_row (case_ref : string) (row : Row) : Study.t :=
  let signoff_raw := row_get row "IAOSignoff" in
  let last_signoff := parse_date signoff_raw in
  {| Study.caseref := case_ref;
     Study.owner_user_id := field row "OwnerUserID";
     Study.admin_user_id := field row "AdminUserID";
     Study.title := field row "Title";
     Study.approval_status := field row "ApprovalStatus";
     Study.description := opt_field row "Description";
     Study.data_controller_organisation :=
       field row "DataControllerOrganisation";
     Study.involves_ucl_sponsorship :=
       to_bool (row_get row "InvolvesUclSponsorship");
     Study.involves_cag := to_bool (row_get row "InvolvesCag");
     Study.cag_reference := opt_field row "CagReference";
     Study.involves_ethics_approval :=
       to_bool (row_get row "InvolvesEthicsApproval");
     Study.involves_hra_approval :=
       to_bool (row_get row "InvolvesHraApproval");
     Study.iras_id := opt_field row "IrasId";
     Study.is_nhs_associated := to_bool (row_get row "IsNhsAssociated");
     Study.involves_nhs_england :=
       to_bool (row_get row "InvolvesNhsEngland");
     Study.nhs_england_reference := opt_field row "NhsEnglandReference";
     Study.involves_mnca := to_bool (row_get row "InvolvesMnca");
     Study.requires_dspt := to_bool (row_get row "RequiresDspt");
     Study.requires_dbs := to_bool (row_get row "RequiresDbs");
     Study.is_data_protection_office_registered :=
       if truthy (field row "DataProtectionNumber") then Some true else None;
     Study.data_protection_number := opt_field row "DataProtectionNumber";
     Study.involves_third_party :=
       to_bool (row_get row "InvolvesThirdParty");
     Study.involves_external_users :=
       to_bool (row_get row "InvolvesExternalUsers");
     Study.involves_participant_consent :=
       to_bool (row_get row "InvolvesParticipantConsent");
     Study.involves_indirect_data_collection :=
       to_bool (row_get row "InvolvesIndirectDataCollection");
     Study.involves_data_processing_outside_uk_eea :=
       to_bool (row_get row "InvolvesDataProcessingOutsideUkEea");
     Study.dsh_active := to_bool (row_get row "DSHActive");
     Study.last_signoff := last_signoff;
     Study.feedback := opt_field row "Feedback";
     Study.contracts := [];
     Study.assets := [] |}.

(** The loop of [read_studies]; [i] is the line number of the first row. *)
Fixpoint read_studies_from (i : nat) (rows : list Row)
  (studies : dict Study.t) : result (dict Study.t) :=
  match rows with
  | [] => Ok studies
  | row :: rest =>
      let case_ref := field row "CaseRef" in
      if negb (truthy case_ref) then Raise (MissingCaseRef "Study" i)
      else read_studies_from (S i) rest
             (dict_set studies case_ref (study_of_row case_ref row))
  end.

Definition read_studies (rows : list Row) : result (dict Study.t) :=
  read_studies_from 2 rows [].

(** [grouped.setdefault(k, []).append(x)] *)
Fixpoint setdefault_append {A} (grouped : dict (list A)) (k : string) (x : A)
  : dict (list A) :=
  match grouped with
  | [] => [(k, [x])]
  | (k', l) :: r =>
      if String.eqb k' k then (k', (l ++ [x])%list) :: r
      else (k', l) :: setdefault_append r k x
  end.

(** One iteration of the loop of [read_assets_by_case]. *)
Definition asset_of_row (i : nat) (row : Row) : result Asset.t :=
  let case_ref := field row "CaseRef" in
  if negb (truthy case_ref) then Raise (MissingCaseRef "Asset" i)
  else
    let expires_raw := row_get row "Next Scheduled Review" in
    let expires_at := parse_date expires_raw in
    if VALIDATE_DATES && truthy (strip (or_empty expires_raw))
       && match expires_at with None => true | Some _ => false end
    then Raise (InvalidDate "assets.csv" i (or_empty expires_raw))
    else
      let tier_raw :=
        if truthy_opt (row_get row "Tier")
        then or_empty (row_get row "Tier") else "0" in
      match py_int tier_raw with
      | Raise e => Raise e
      | Ok tier =>
          Ok {| Asset.creator_userID := field row "Created By";
                Asset.caseref := case_ref;
                Asset.asset_sp_id := field row "ID";
                Asset.title := field row "Description";
                Asset.description := field row "Description";
                Asset.classification_impact := field row "Classification";
                Asset.tier := tier;
                Asset.protection := field row "Impact Mitigation";
                Asset.legal_basis := field row "Legal Basis";
                Asset.format := field row "Format";
                Asset.expires_at := expires_at;
                Asset.requires_contract :=
                  to_bool (row_get row "RequiresContract");
                Asset.has_dspt := to_bool (row_get row "DSP Toolkit");
                Asset.stored_outside_uk_eea :=
                  to_bool (row_get row "Outside EEA");
                Asset.status := field row "STATUS";
                Asset.locations := row_get row "Current Location" |}
      end.

Fixpoint read_assets_from (i : nat) (rows : list Row)
  (grouped : dict (list Asset.t)) : result (dict (list Asset.t)) :=
  match rows with
  | [] => Ok grouped
  | row :: rest =>
      asset <- asset_of_row i row ;;
      read_assets_from (S i) rest
        (setdefault_append grouped (Asset.caseref asset) asset)
  end.

Definition read_assets_by_case (rows : list Row)
  : result (dict (list Asset.t)) :=
  read_assets_from 2 rows [].

(** One iteration of the loop of [read_study_contracts]. *)
Definition contract_of_row (i : nat) (row : Row) : result Contract.t :=
  let case_ref := field row "CaseRef" in
  if negb (truthy case_ref) then Raise (MissingCaseRef "Contract" i)
  else
    let start_raw := row_get row "Agreement date" in
    let start_date := parse_date start_raw in
    if VALIDATE_DATES && truthy (strip (or_empty start_raw))
       && match start_date with None => true | Some _ => false end
    then Raise (InvalidDate "contracts.csv" i (or_empty start_raw))
    else
      let end_raw := row_get row "Contract expiry or review date" in
      let end_date := parse_date end_raw in
      if VALIDATE_DATES && truthy (strip (or_empty end_raw))
         && match end_date with None => true | Some _ => false end
      then Raise (InvalidDate "contracts.csv" i (or_empty end_raw))
      else
        Ok {| Contract.creator_userID := field row "Created By";
              Contract.caseref := case_ref;
              Contract.contract_sp_id := field row "ID";
              Contract.filename := field row "Agreement Reference";
              Contract.status := field row "STATUS";
              Contract.start_date := start_date;
              Contract.expiry_date := end_date;
              Contract.organisation_signatory :=
                opt_field row "UCL signatory";
              Contract.third_party_name := opt_field row "Third party";
              Contract.creator_username := opt_field row "CreatorUsername" |}.

Fixpoint read_contracts_from (i : nat) (rows : list Row)
  (grouped : dict (list Contract.t)) : result (dict (list Contract.t)) :=
  match rows with
  | [] => Ok grouped
  | row :: rest =>
      contract <- contract_of_row i row ;;
      read_contracts_from (S i) rest
        (setdefault_append grouped (Contract.caseref contract) contract)
  end.

Definition read_study_contracts (rows : list Row)
  : result (dict (list Contract.t)) :=
  read_contracts_from 2 rows [].

(** The sort key of an asset: [(asset_sp_id, title)]. *)
Definition asset_key (a : Asset.t) : string * string :=
  (Asset.asset_sp_id a, Asset.title a).

(** The body of the loop of [build_import_json] for one study. *)
Definition attach (assets_by_case : dict (list Asset.t))
  (study_contracts_by_case : dict (list Contract.t))
  (item : string * Study.t) : Study.t :=
  let (case_ref, study) := item in
  let contracts := dict_get_default study_contracts_by_case case_ref [] in
  let assets := dict_get_default assets_by_case case_ref [] in
  let assets := sort_by pair_leb asset_key assets in
  Study.with_children study contracts assets.

Definition build_import_json (studies : dict Study.t)
  (assets_by_case : dict (list Asset.t))
  (study_contracts_by_case : dict (list Contract.t)) : list Study.t :=
  sort_by String.leb Study.caseref
    (map (attach assets_by_case study_contracts_by_case) studies).

(** The mutable state of [validate]: the issue list and the three sets. *)
Record vstate := {
  errors : list string;
  seen_case : list string;
  seen_asset : list string;
  seen_contract : list string
}.

(** [x in seen] *)
Definition mem (x : string) (seen : list string) : bool :=
  existsb (String.eqb x) seen.

Definition add_error (st : vstate) (msg : string) : vstate :=
  {| errors := (errors st ++ [msg])%list;
     seen_case := seen_case st;
     seen_asset := seen_asset st;
     seen_contract := seen_contract st |}.

Definition add_case (st : vstate) (cr : string) : vstate :=
  {| errors := errors st;
     seen_case := cr :: seen_case st;
     seen_asset := seen_asset st;
     seen_contract := seen_contract st |}.

Definition add_asset (st : vstate) (aref : string) : vstate :=
  {| errors := errors st;
     seen_case := seen_case st;
     seen_asset := aref :: seen_asset st;
     seen_contract := seen_contract st |}.

Definition add_contract (st : vstate) (cref : string) : vstate :=
  {| errors := errors st;
     seen_case := seen_case st;
     seen_asset := seen_asset st;
     seen_contract := cref :: seen_contract st |}.

(** [if d and not validate_json_date(d): errors.append(msg)] *)
Definition check_date (d : string) (msg : string) (st : vstate) : vstate :=
  if truthy d
     && match validate_json_date d with None => true | Some _ => false end
  then add_error st msg else st.

(** The body of [for c in s.get("contracts", [])]. *)
Definition validate_contract (validate_dates : bool) (cr : string)
  (st : vstate) (c : Contract.t) : vstate :=
  let cref := Contract.contract_sp_id c in
  let st :=
    if negb (truthy cref)
    then add_error st ("Study " ++ cr ++ ": contract missing contract_sp_id")
    else if mem cref (seen_contract st)
    then add_error st ("Duplicate contract_sp_id: " ++ cref)
    else add_contract st cref in
  if validate_dates then
    let sd := or_empty (Contract.start_date c) in
    let ed := or_empty (Contract.expiry_date c) in
    let st := check_date sd
      ("Study " ++ cr ++ ": contract " ++ cref ++ " invalid start_date: "
       ++ sd) st in
    check_date ed
      ("Study " ++ cr ++ ": contract " ++ cref ++ " invalid expiry_date: "
       ++ ed) st
  else st.

(** The body of [for a in s.get("assets", [])]. *)
Definition validate_asset (validate_dates : bool) (cr : string)
  (st : vstate) (a : Asset.t) : vstate :=
  let aref := Asset.asset_sp_id a in
  let st :=
    if truthy aref then
      if mem aref (seen_asset st)
      then add_error st ("Duplicate asset_sp_id: " ++ aref)
      else add_asset st aref
    else st in
  if validate_dates then
    let ex := or_empty (Asset.expires_at a) in
    check_date ex
      ("Study " ++ cr ++ ": asset " ++ aref ++ " invalid expires_at: " ++ ex)
      st
  else st.

(** The body of [for s in import_data]. *)
Definition validate_study (validate_dates : bool) (st : vstate)
  (s : Study.t) : vstate :=
  let cr := Study.caseref s in
  let st :=
    if negb (truthy cr) then add_error st "Study missing CaseRef"
    else if mem cr (seen_case st)
    then add_error st ("Duplicate CaseRef in merged data: " ++ cr)
    else add_case st cr in
  let st :=
    fold_left (validate_contract validate_dates cr) (Study.contracts s) st in
  fold_left (validate_asset validate_dates cr) (Study.assets s) st.

Definition validate_init : vstate :=
  {| errors := []; seen_case := []; seen_asset := []; seen_contract := [] |}.

Definition validate (import_data : list Study.t) (validate_dates : bool)
  : list string :=
  errors (fold_left (validate_study validate_dates) import_data validate_init).

(** [main], up to the point where the output file is written: the issues
    printed and the data dumped, or the error that ended the run. *)
Definition main (studies_rows assets_rows contracts_rows : list Row)
  : result (list string * list Study.t) :=
  studies <- read_studies studies_rows ;;
  assets_by_case <- read_assets_by_case assets_rows ;;
  study_contracts_by_case <- read_study_contracts contracts_rows ;;
  let import_data :=
    build_import_json studies assets_by_case study_contracts_by_case in
  let errs := validate import_data VALIDATE_DATES in
  Ok (errs, import_data).

End GptStudies.

Import PyStr.

(** ** Vocabulary of the statements *)

Import GptStudies.

(** The two suffixes of a canonical identity. *)
Definition EXT_SUFFIX : string := "#EXT#@liveuclac.onmicrosoft.com".

Definition LOCAL_SUFFIX : string := "@ucl.ac.uk".

(** Sorted by key: [x] may stand before [y]. *)
Definition key_le {A K : Type} (kleb : K -> K -> bool) (key : A -> K)
  (x y : A) : Prop :=
  kleb (key x) (key y) = true.

(** Blank cell: absent, empty, or nothing but whitespace. *)
Fixpoint all_space (s : string) : bool :=
  match s with
  | EmptyString => true
  | String c r => isspace c && all_space r
  end.

Definition blank (x : option string) : bool :=
  match x with
  | None => true
  | Some s => all_space s
  end.

(** The records a reader makes of its rows, in file order, the first row
    being on line [i]; or the first error. *)
Fixpoint rows_from {A} (f : nat -> Row -> result A) (i : nat)
  (rows : list Row) : result (list A) :=
  match rows with
  | [] => Ok []
  | row :: rest =>
      a <- f i row ;;
      az <- rows_from f (S i) rest ;;
      Ok (a :: az)
  end.

(** Filing records under their foreign key, one after the other. *)
Definition group_by {A} (key : A -> string) (xs : list A)
  (grouped : dict (list A)) : dict (list A) :=
  fold_left (fun g x => setdefault_append g (key x) x) xs grouped.

(** Filing study rows under their CaseRef, one after the other. *)
Definition file_studies (rows : list Row) (studies : dict Study.t)
  : dict Study.t :=
  fold_left
    (fun d row =>
       dict_set d (field row "CaseRef")
         (study_of_row (field row "CaseRef") row))
    rows studies.

(** The children of the records [xs] that carry the foreign key [k]. *)
Definition children_of {A} (key : A -> string) (k : string) (xs : list A)
  : list A :=
  filter (fun x => String.eqb (key x) k) xs.

(** The last row of a studies file that carries the CaseRef [c]. *)
Definition last_row_with (c : string) (rows : list Row) : option Row :=
  find (fun row => String.eqb (field row "CaseRef") c) (rev rows).

(** The orders the output is sorted by. *)
Definition str_le (s t : string) : Prop := String.leb s t = true.

Definition study_le (s t : Study.t) : Prop :=
  str_le (Study.caseref s) (Study.caseref t).

Definition asset_le (a b : Asset.t) : Prop :=
  pair_leb (asset_key a) (asset_key b) = true.

Definition contract_ids (s : Study.t) : list string :=
  map Contract.contract_sp_id (Study.contracts s).

(** The data a run writes, if it has output. *)
Definition output_data (r : result (list string * list Study.t))
  : list Study.t :=
  match r with
  | Ok (_, data) => data
  | Raise _ => []
  end.

(** The contract identities of each study of a run, if it has output. *)
Definition output_contract_ids (r : result (list string * list Study.t))
  : option (list (list string)) :=
  match r with
  | Ok (_, data) => Some (map contract_ids data)
  | Raise _ => None
  end.

(** The three uniqueness issues of the validator. *)
Definition duplicate_case (x : string) : string :=
  "Duplicate CaseRef in merged data: " ++ x.

Definition duplicate_contract (x : string) : string :=
  "Duplicate contract_sp_id: " ++ x.

Definition duplicate_asset (x : string) : string :=
  "Duplicate asset_sp_id: " ++ x.

(** How many contracts, and assets, of the merged data have identity [x]. *)
Definition count_contracts (x : string) (data : list Study.t) : nat :=
  count_occ string_dec
    (map Contract.contract_sp_id (flat_map Study.contracts data)) x.

Definition count_assets (x : string) (data : list Study.t) : nat :=
  count_occ string_dec
    (map Asset.asset_sp_id (flat_map Study.assets data)) x.

(** How often the issue [m] is in the list so far. *)
Definition count_msg (m : string) (st : vstate) : nat :=
  count_occ string_dec (errors st) m.

(** Issues that [n] more records with one identity give: all of them when
    the identity was seen before, all but the first when it was not. *)
Definition dups (n : nat) (was_seen : bool) : nat :=
  if was_seen then n else pred n.

(** A record with identity [y] counts for the identity [x] when [x] is not
    empty and [y] is [x]. *)
Definition hit (x y : string) : nat :=
  if truthy x && String.eqb y x then 1 else 0.

(** The effect on the issue [m] and on the set [seen] of going from [st] to
    [st'] over [n] records that count for [x]. *)
Definition effect (m x : string) (seen : vstate -> list string) (n : nat)
  (st st' : vstate) : Prop :=
  count_msg m st' = count_msg m st + dups n (mem x (seen st))
  /\ mem x (seen st') = mem x (seen st) || (0 <? n).

(** Texts of dates.  A day or a month is written with two digits, or with
    one when it is below ten; a year with four digits. *)
Definition numeral (hi n : Z) (t : string) : Prop :=
  (1 <= n <= hi)%Z
  /\ (t = PyDate.pad2 n \/ ((n <= 9)%Z /\ t = of_nat (Z.to_nat n))).

Definition dmy_text (s : string) (y m d : Z) : Prop :=
  exists dt mt,
    numeral 31 d dt /\ numeral 12 m mt /\ (0 <= y <= 9999)%Z
    /\ s = dt ++ "/" ++ mt ++ "/" ++ PyDate.pad4 y.

(** A date of the calendar. *)
Definition real_date (y m d : Z) : Prop :=
  (1 <= y <= 9999 /\ 1 <= m <= 12 /\ 1 <= d <= PyDate.days_in_month y m)%Z.

(** The ISO text of a date. *)
Definition iso (y m d : Z) : string :=
  PyDate.pad4 y ++ "-" ++ PyDate.pad2 m ++ "-" ++ PyDate.pad2 d.

(** The matches of a number that the separator [sep] follows, with the
    text after the separator. *)
Definition then_sep (sep : ascii) (ms : list (Z * string))
  : list (Z * string) :=
  flat_map (fun '(v, s1) => map (pair v) (PyDate.lit sep s1)) ms.

(** A day at the end of a text may also be a space and one digit. *)
Definition day_numeral (d : Z) (t : string) : Prop :=
  numeral 31 d t
  \/ ((1 <= d <= 9)%Z /\ t = String " " (of_nat (Z.to_nat d))).

(** Texts that [strptime] reads with the year first. *)
Definition ymd_text (s : string) (y m d : Z) : Prop :=
  exists mt dt,
    numeral 12 m mt /\ day_numeral d dt /\ (0 <= y <= 9999)%Z
    /\ s = PyDate.pad4 y ++ "-" ++ mt ++ "-" ++ dt.

(** A date field the strict check of the validator lets pass. *)
Definition date_ok (o : option string) : Prop :=
  forall r, o = Some r -> r = EmptyString \/ validate_json_date r <> None.

Definition dates_ok (s : Study.t) : Prop :=
  (forall c, In c (Study.contracts s) ->
             date_ok (Contract.start_date c)
             /\ date_ok (Contract.expiry_date c))
  /\ (forall a, In a (Study.assets s) -> date_ok (Asset.expires_at a)).

(** A date cell whose year, when the cell parses, is 1000 or later. *)
Definition four_digit_year (raw : option string) : Prop :=
  forall dt,
    PyDate.strptime_dmy (strip (or_empty raw)) = Some dt ->
    (1000 <= PyDate.year dt)%Z.

Definition four_digit_years (ar cr : list Row) : Prop :=
  (forall row, In row ar ->
     four_digit_year (row_get row "Next Scheduled Review"))
  /\ (forall row, In row cr ->
        four_digit_year (row_get row "Agreement date")
        /\ four_digit_year (row_get row "Contract expiry or review date")).

(** A date field as the flexible parser leaves it: absent, or what
    [strftime] writes for a date of the calendar. *)
Definition date_written (o : option string) : Prop :=
  forall r,
    o = Some r ->
    exists dt,
      real_date (PyDate.year dt) (PyDate.month dt) (PyDate.day dt)
      /\ r = PyDate.strftime_ymd dt.

Definition dates_written (s : Study.t) : Prop :=
  (forall c, In c (Study.contracts s) ->
             date_written (Contract.start_date c)
             /\ date_written (Contract.expiry_date c))
  /\ (forall a, In a (Study.assets s) -> date_written (Asset.expires_at a)).

(** A date field that holds what [strftime] writes for a date of the
    calendar before the year 1000. *)
Definition early (o : option string) (d : string) : Prop :=
  o = Some d
  /\ exists dt,
       real_date (PyDate.year dt) (PyDate.month dt) (PyDate.day dt)
       /\ (PyDate.year dt < 1000)%Z /\ d = PyDate.strftime_ymd dt.

(** The date issues of the validator. *)
Definition invalid_start_date (cr cref d : string) : string :=
  "Study " ++ cr ++ ": contract " ++ cref ++ " invalid start_date: " ++ d.

Definition invalid_expiry_date (cr cref d : string) : string :=
  "Study " ++ cr ++ ": contract " ++ cref ++ " invalid expiry_date: " ++ d.

Definition invalid_expires_at (cr aref d : string) : string :=
  "Study " ++ cr ++ ": asset " ++ aref ++ " invalid expires_at: " ++ d.

Definition missing_contract_id (cr : string) : string :=
  "Study " ++ cr ++ ": contract missing contract_sp_id".

(** The kinds of issue a run can report. *)
Definition issue_kind (data : list Study.t) (e : string) : Prop :=
  (exists s c, In s data /\ In c (Study.contracts s)
               /\ Contract.contract_sp_id c = EmptyString
               /\ e = missing_contract_id (Study.caseref s))
  \/ (exists x, e = duplicate_contract x)
  \/ (exists x, e = duplicate_asset x).

(** The date issues a run can report: about a date of a year before
    1000. *)
Definition date_issue (data : list Study.t) (e : string) : Prop :=
  (exists s c d,
     In s data /\ In c (Study.contracts s)
     /\ ((early (Contract.start_date c) d
          /\ e = invalid_start_date (Study.caseref s)
                   (Contract.contract_sp_id c) d)
         \/ (early (Contract.expiry_date c) d
             /\ e = invalid_expiry_date (Study.caseref s)
                      (Contract.contract_sp_id c) d)))
  \/ (exists s a d,
        In s data /\ In a (Study.assets s)
        /\ early (Asset.expires_at a) d
        /\ e = invalid_expires_at (Study.caseref s) (Asset.asset_sp_id a) d).

(** ** Sample data *)

Definition sample_training : dict (option PyDate.date) :=
  [("a@ucl.ac.uk", None)].

Definition sample_agreements : dict bool := [("b@ucl.ac.uk", true)].

Definition sample_record : Final.Record_ :=
  {| Final.username := "a@ucl.ac.uk";
     Final.has_signed_agreement := false;
     Final.nhsd_training_completed_at := None |}.

(** A contracts file whose second row, on line 3, has a blank CaseRef. *)
Definition sample_contract_row : Row := [("CaseRef", "S1"); ("ID", "C1")].

Definition sample_blank_row : Row := [("CaseRef", "   "); ("ID", "C2")].

Definition sample_contract_rows : list Row :=
  [sample_contract_row; sample_blank_row].

(** One study, S1, and two contracts of it, B on line 2 and A on line 3. *)
Definition sample_study_rows : list Row := [[("CaseRef", "S1")]].

Definition sample_unsorted_contract_rows : list Row :=
  [[("CaseRef", "S1"); ("ID", "B")]; [("CaseRef", "S1"); ("ID", "A")]].

(** Rows out of order: the study S2 before S1; for S1 the assets B, then
    A with the description z, then A with the description a; for S2 the
    assets D, then C.  Identities out of order for the flat merge. *)
Definition sample_unsorted_study_rows : list Row :=
  [[("CaseRef", "S2")]; [("CaseRef", "S1")]].

Definition sample_unsorted_asset_rows : list Row :=
  [[("CaseRef", "S1"); ("ID", "B"); ("Description", "x")];
   [("CaseRef", "S2"); ("ID", "D")];
   [("CaseRef", "S1"); ("ID", "A"); ("Description", "z")];
   [("CaseRef", "S2"); ("ID", "C")];
   [("CaseRef", "S1"); ("ID", "A"); ("Description", "a")]].

Definition sample_unsorted_training : dict (option PyDate.date) :=
  [("c@ucl.ac.uk", None); ("a@ucl.ac.uk", None)].

(** An asset of a study S2 that the studies file does not have. *)
Definition sample_orphan_rows : list Row :=
  [[("CaseRef", "S2"); ("ID", "A1")]].

Definition sample_study : Study.t :=
  attach [] [] ("S1", study_of_row "S1" [("CaseRef", "S1")]).

(** Two contract rows with the same identity, C1. *)
Definition sample_duplicate_contract_rows : list Row :=
  [[("CaseRef", "S1"); ("ID", "C1")]; [("CaseRef", "S1"); ("ID", "C1")]].

Definition sample_duplicate_data : list Study.t :=
  output_data (main sample_study_rows [] sample_duplicate_contract_rows).

(** Two study rows with the same CaseRef, S1. *)
Definition sample_duplicate_study_rows : list Row :=
  [[("CaseRef", "S1"); ("Title", "first")];
   [("CaseRef", "S1"); ("Title", "second")]].

(** An assets file whose only row, on line 2, has an ISO date. *)
Definition sample_asset_row : Row :=
  [("CaseRef", "S1"); ("ID", "A1"); ("Next Scheduled Review", "2024-03-05")].

(** Agreement rows: approved with another token than true; a UserID of
    nothing but spaces. *)
Definition sample_yes_row : Row := [("UserID", "u1"); ("Approved", "yes")].

Definition sample_space_row : Row := [("UserID", "  "); ("Approved", "true")].

(** An assets file whose only row has a review date, 5 March 2024. *)
Definition sample_dated_asset_rows : list Row :=
  [[("CaseRef", "S1"); ("ID", "A1");
    ("Next Scheduled Review", "05/03/2024")]].

(** An asset row with a review date in the year 999. *)
Definition sample_early_asset_rows : list Row :=
  [[("CaseRef", "S1"); ("ID", "A1");
    ("Next Scheduled Review", "01/01/0999")]].

(** Merged data with a contract whose start date is not an ISO date. *)
Definition sample_bad_date_contract : Contract.t :=
  {| Contract.creator_userID := "";
     Contract.caseref := "S1";
     Contract.contract_sp_id := "C1";
     Contract.filename := "";
     Contract.status := "";
     Contract.start_date := Some "05/03/2024";
     Contract.expiry_date := None;
     Contract.organisation_signatory := None;
     Contract.third_party_name := None;
     Contract.creator_username := None |}.

Definition sample_bad_date_study : Study.t :=
  Study.with_children sample_study [sample_bad_date_contract] [].

(** Two study rows and a contract without identity, filed twice, for the
    second. *)
Definition sample_two_study_rows : list Row :=
  [[("CaseRef", "S1")]; [("CaseRef", "S2")]].

Definition sample_no_id_contract_rows : list Row :=
  [[("CaseRef", "S2")]; [("CaseRef", "S2"); ("ID", " ")]].

(** ** final.py: the rows written *)

(** [str(b)] for a bool. *)
Definition str_bool (b : bool) : string := if b then "True" else "False".

(** The list [write_output] hands to the CSV writer for one record. *)
Definition output_row (r : Final.Record_) : list string :=
  [Final.username r;
   lower (str_bool (Final.has_signed_agreement r));
   match Final.nhsd_training_completed_at r with
   | Some dt => PyDate.strftime_ymd dt
   | None => EmptyString
   end].

Definition write_output (records : list Final.Record_) : list (list string) :=
  map output_row records.

(** ** Vocabulary of the loaders *)

(** The identity a training row is filed under, if any, and its date. *)
Definition training_identity (row : Row) : option string :=
  let other_email := strip (or_empty (row_get row "Other email")) in
  let userid := strip (or_empty (row_get row "UserID")) in
  if truthy other_email then Some (Final.normalise_username other_email)
  else if truthy userid then Some (Final.normalise_username userid)
  else None.

Definition training_date (row : Row) : option PyDate.date :=
  let date_str := strip (or_empty (row_get row "LastTrained")) in
  if truthy date_str then PyDate.strptime_dmy date_str else None.

(** The identity an agreement row is filed under, if any, and its facet. *)
Definition agreement_identity (row : Row) : option string :=
  if negb (truthy_opt (row_get row "UserID"))
     || negb (truthy_opt (row_get row "Approved"))
  then None
  else Some (Final.normalise_username (or_empty (row_get row "UserID"))).

Definition agreement_signed (row : Row) : bool :=
  String.eqb (lower (strip (or_empty (row_get row "Approved")))) "true".

(** Filing rows under the key they have, one after the other. *)
Definition file_rows {V} (keyf : Row -> option string) (valf : Row -> V)
  (rows : list Row) (d : dict V) : dict V :=
  fold_left
    (fun d row =>
       match keyf row with
       | Some k => dict_set d k (valf row)
       | None => d
       end)
    rows d.

Definition has_key (keyf : Row -> option string) (u : string) (row : Row)
  : bool :=
  match keyf row with
  | Some k => String.eqb k u
  | None => false
  end.

(** The last row of a file that is filed under [u]. *)
Definition last_row_for (keyf : Row -> option string) (u : string)
  (rows : list Row) : option Row :=
  find (has_key keyf u) (rev rows).

(** An identifier, cleaned the way the normaliser cleans it. *)
Definition cleaned (x : string) : string := lower (strip x).

(** ** More sample data *)

(** A training file and an agreement file that spell one identifier in
    two ways; the second agreement row is the one that counts. *)
Definition sample_training_rows : list Row :=
  [[("UserID", " nop-1 "); ("LastTrained", "05/03/2024")]].

Definition sample_agreement_rows : list Row :=
  [[("UserID", "nop-1"); ("Approved", "false")];
   [("UserID", "NOP-1"); ("Approved", "True")]].

Definition sample_merged_record : Final.Record_ :=
  {| Final.username := "nop-1@ucl.ac.uk";
     Final.has_signed_agreement := true;
     Final.nhsd_training_completed_at :=
       Some {| PyDate.year := 2024; PyDate.month := 3; PyDate.day := 5 |} |}.

(** The test for a sort key of assets: the same identity and title. *)
Definition same_key (k : string * string) (k' : string * string) : bool :=
  String.eqb (fst k') (fst k) && String.eqb (snd k') (snd k).

(** Two asset rows of one study with the same identity and title, told
    apart by their format, and a third that sorts before them. *)
Definition sample_tied_asset_rows : list Row :=
  [[("CaseRef", "S1"); ("ID", "B"); ("Format", "paper")];
   [("CaseRef", "S1"); ("ID", "B"); ("Format", "disk")];
   [("CaseRef", "S1"); ("ID", "A")]].

(** An asset row whose Tier cell is nothing but a space. *)
Definition sample_space_tier_row : Row :=
  [("CaseRef", "S1"); ("ID", "A1"); ("Tier", " ")].

(** An asset row whose Tier cell is 12 and the separator character 28,
    which [str.strip] removes and [int] does not skip. *)
Definition sample_separator_tier_row : Row :=
  [("CaseRef", "S1"); ("ID", "A1");
   ("Tier", "12" ++ String (ascii_of_nat 28) EmptyString)].

(** A text of digits and nothing else. *)
Fixpoint digits_only (s : string) : bool :=
  match s with
  | EmptyString => true
  | String c r => is_digit c && digits_only r
  end.

(** A text [int] skips altogether. *)
Definition int_blank (s : string) : Prop := int_skip s = EmptyString.

(** A character that [str.strip] removes and [int] does not skip. *)
Definition separator (c : ascii) : Prop :=
  isspace c = true /\ int_space c = false.

(** A text with no whitespace around it; an optional text that is absent
    rather than empty. *)
Definition trimmed (v : string) : Prop := strip v = v.

Definition clean_opt (o : option string) : Prop :=
  match o with
  | None => True
  | Some v => v <> EmptyString /\ strip v = v
  end.

(** The text fields and the optional text fields of the three records. *)
Definition study_texts (s : Study.t) : list string :=
  [Study.caseref s; Study.owner_user_id s; Study.admin_user_id s;
   Study.title s; Study.approval_status s;
   Study.data_controller_organisation s].

Definition study_optionals (s : Study.t) : list (option string) :=
  [Study.description s; Study.cag_reference s; Study.iras_id s;
   Study.nhs_england_reference s; Study.data_protection_number s;
   Study.feedback s].

Definition asset_texts (a : Asset.t) : list string :=
  [Asset.creator_userID a; Asset.caseref a; Asset.asset_sp_id a;
   Asset.title a; Asset.description a; Asset.classification_impact a;
   Asset.protection a; Asset.legal_basis a; Asset.format a; Asset.status a].

Definition contract_texts (c : Contract.t) : list string :=
  [Contract.creator_userID c; Contract.caseref c; Contract.contract_sp_id c;
   Contract.filename c; Contract.status c].

Definition contract_optionals (c : Contract.t) : list (option string) :=
  [Contract.organisation_signatory c; Contract.third_party_name c;
   Contract.creator_username c].

(** A study row with a registration number and padded cells, and an asset
    row with a Title cell the reader does not look at. *)
Definition sample_padded_study_rows : list Row :=
  [[("CaseRef", " S1 "); ("Title", " T "); ("Description", "  ");
    ("DataProtectionNumber", " Z123 ")]].

Definition sample_titled_asset_rows : list Row :=
  [[("CaseRef", "S1"); ("ID", "A1"); ("Title", "a title");
    ("Description", " what it is ")]].

(** Merged data the validator has nothing to say about: every study has a
    CaseRef of its own, every contract an identity of its own, and no two
    assets share an identity that is not empty. *)
Definition well_formed (data : list Study.t) : Prop :=
  NoDup (map Study.caseref data)
  /\ (forall s, In s data -> Study.caseref s <> EmptyString)
  /\ (forall c, In c (flat_map Study.contracts data) ->
                Contract.contract_sp_id c <> EmptyString)
  /\ NoDup (map Contract.contract_sp_id (flat_map Study.contracts data))
  /\ NoDup (filter truthy
              (map Asset.asset_sp_id (flat_map Study.assets data))).

(** The rows the readers accept. *)
Definition date_cell_ok (raw : option string) : Prop :=
  blank raw = true \/ parse_date raw <> None.

Definition tier_text (row : Row) : string :=
  if truthy_opt (row_get row "Tier")
  then or_empty (row_get row "Tier") else "0".

Definition study_row_ok (row : Row) : Prop :=
  blank (row_get row "CaseRef") = false.

Definition asset_row_ok (row : Row) : Prop :=
  blank (row_get row "CaseRef") = false
  /\ date_cell_ok (row_get row "Next Scheduled Review")
  /\ exists tier, py_int (tier_text row) = Ok tier.

Definition contract_row_ok (row : Row) : Prop :=
  blank (row_get row "CaseRef") = false
  /\ date_cell_ok (row_get row "Agreement date")
  /\ date_cell_ok (row_get row "Contract expiry or review date").

(** A study row whose sign-off date does not parse. *)
Definition sample_bad_signoff_rows : list Row :=
  [[("CaseRef", "S1"); ("IAOSignoff", "2024-03-05")]].

(** ** The examples of the specification *)

Example normalise_external :
  Final.normalise_username " Jane.Doe@Example.org "
  = "jane.doe_example.org#EXT#@liveuclac.onmicrosoft.com".
Proof. reflexivity. Qed.

Example normalise_local :
  Final.normalise_username "nop-12345" = "nop-12345@ucl.ac.uk".
Proof. reflexivity. Qed.

Example strptime_example :
  PyDate.strptime_dmy "05/03/2024" = Some {| PyDate.year := 2024; PyDate.month := 3; PyDate.day := 5 |}
  /\ PyDate.strptime_dmy "2024-03-05" = None
  /\ PyDate.strptime_dmy "29/02/2023" = None
  /\ PyDate.strptime_dmy "5/3/2024" = Some {| PyDate.year := 2024; PyDate.month := 3; PyDate.day := 5 |}
  /\ PyDate.strptime_ymd "2024-03-05" = Some {| PyDate.year := 2024; PyDate.month := 3; PyDate.day := 5 |}
  /\ PyDate.strftime_ymd {| PyDate.year := 2024; PyDate.month := 3; PyDate.day := 5 |} = "2024-03-05".
Proof. repeat split; reflexivity. Qed.

(** Example 4: a study S1 with two asset rows has both assets, sorted by
    identity. *)
Example two_assets_of_one_study :
  map (fun s => (Study.caseref s, map Asset.asset_sp_id (Study.assets s)))
    (output_data
       (main sample_study_rows
          [[("CaseRef", "S1"); ("ID", "A2")];
           [("CaseRef", "S1"); ("ID", "A1")]] []))
  = [("S1", ["A1"; "A2"])].
Proof. vm_compute. reflexivity. Qed.

(** Example 5: a contract row with a blank CaseRef ends the run. *)
Example blank_contract_caseref :
  main sample_study_rows [] sample_contract_rows
  = Raise (MissingCaseRef "Contract" 3).
Proof. vm_compute. reflexivity. Qed.

(** ** Facts about the string primitives *)

Ltac each_char c :=
  destruct c as [[] [] [] [] [] [] [] []]; vm_compute; try reflexivity.

Lemma isspace_lower_char (c : ascii) : isspace (lower_char c) = isspace c.
Proof. each_char c. Qed.

Lemma lower_char_idem (c : ascii) : lower_char (lower_char c) = lower_char c.
Proof. each_char c. Qed.

Lemma lower_idem (s : string) : lower (lower s) = lower s.
Proof.
  induction s as [|c r IH]; simpl; [reflexivity|].
  now rewrite lower_char_idem, IH.
Qed.

Lemma lower_length (s : string) : String.length (lower s) = String.length s.
Proof. induction s; simpl; congruence. Qed.

Lemma lower_app (s t : string) : lower (s ++ t) = lower s ++ lower t.
Proof. induction s; simpl; congruence. Qed.

Lemma replace_length (a b : ascii) (s : string) :
  String.length (replace a b s) = String.length s.
Proof. induction s; simpl; congruence. Qed.

Lemma app_length (s t : string) :
  String.length (s ++ t) = String.length s + String.length t.
Proof. induction s; simpl; congruence. Qed.

Lemma contains_app (c : ascii) (s t : string) :
  contains c (s ++ t) = contains c s || contains c t.
Proof.
  induction s as [|d r IH]; simpl; [reflexivity|].
  now rewrite IH, orb_assoc.
Qed.

Lemma lstrip_lower (s : string) : lstrip (lower s) = lower (lstrip s).
Proof.
  induction s as [|c r IH]; simpl; [reflexivity|].
  rewrite isspace_lower_char. destruct (isspace c); [exact IH|reflexivity].
Qed.

Lemma rstrip_lower (s : string) : rstrip (lower s) = lower (rstrip s).
Proof.
  induction s as [|c r IH]; simpl; [reflexivity|].
  rewrite IH, isspace_lower_char.
  destruct (rstrip r); simpl; [destruct (isspace c)|]; reflexivity.
Qed.

Lemma strip_lower (s : string) : strip (lower s) = lower (strip s).
Proof. unfold strip. now rewrite lstrip_lower, rstrip_lower. Qed.

(** What is left of [lstrip] starts with a character that is not a space. *)
Lemma lstrip_head (s : string) (c : ascii) (r : string) :
  lstrip s = String c r -> isspace c = false.
Proof.
  induction s as [|d t IH]; simpl; [discriminate|].
  destruct (isspace d) eqn:E; [exact IH|].
  intros H; injection H as -> _. exact E.
Qed.

Lemma lstrip_fixed (c : ascii) (r : string) :
  isspace c = false -> lstrip (String c r) = String c r.
Proof. intros H; simpl; now rewrite H. Qed.

Lemma rstrip_head (s : string) (c : ascii) (r : string) :
  rstrip s = String c r -> exists r', s = String c r'.
Proof.
  destruct s as [|d t]; simpl; [discriminate|].
  destruct (rstrip t); [destruct (isspace d); [discriminate|]|];
    intros H; injection H as -> _; eauto.
Qed.

Lemma rstrip_idem (s : string) : rstrip (rstrip s) = rstrip s.
Proof.
  induction s as [|c r IH]; simpl; [reflexivity|].
  destruct (rstrip r) as [|d t] eqn:E.
  - destruct (isspace c) eqn:Ec; simpl; [reflexivity|now rewrite Ec].
  - simpl in *. now rewrite IH.
Qed.

Lemma rstrip_app (s t : string) :
  rstrip t <> EmptyString -> rstrip (s ++ t) = s ++ rstrip t.
Proof.
  intros Ht. induction s as [|c r IH]; simpl; [reflexivity|].
  rewrite IH. destruct (r ++ rstrip t) eqn:E; [|reflexivity].
  destruct r; simpl in E; [contradiction|discriminate].
Qed.

(** A text that neither starts nor ends with a space is its own [strip]. *)
Lemma strip_fixed (c : ascii) (r : string) :
  isspace c = false -> rstrip (String c r) = String c r ->
  strip (String c r) = String c r.
Proof. intros Hc Hr. unfold strip. now rewrite lstrip_fixed. Qed.

Lemma strip_idem (s : string) : strip (strip s) = strip s.
Proof.
  unfold strip. remember (rstrip (lstrip s)) as u eqn:E.
  destruct u as [|c r]; [reflexivity|].
  symmetry in E. destruct (rstrip_head _ _ _ E) as [r' Hr'].
  rewrite lstrip_fixed by (eapply lstrip_head; exact Hr').
  rewrite <- E. apply rstrip_idem.
Qed.

(** The cleaned identifier followed by either suffix is already stripped. *)
Lemma strip_clean_app (s t : string) :
  rstrip t = t -> t <> EmptyString ->
  (forall c r, t = String c r -> isspace c = false) ->
  strip (strip s ++ t) = strip s ++ t.
Proof.
  intros Ht Hne Hhd.
  assert (Hr : rstrip (strip s ++ t) = strip s ++ t).
  { rewrite rstrip_app; rewrite Ht; [reflexivity|exact Hne]. }
  destruct (strip s) as [|c r] eqn:E; simpl app in *.
  - destruct t as [|c r]; [contradiction|].
    apply strip_fixed; [eapply Hhd; reflexivity|exact Hr].
  - apply strip_fixed; [|exact Hr].
    unfold strip in E. destruct (rstrip_head _ _ _ E) as [r' Hr'].
    eapply lstrip_head. exact Hr'.
Qed.

Lemma lstrip_replace (a b : ascii) (s : string) :
  isspace a = false -> isspace b = false ->
  lstrip (replace a b s) = replace a b (lstrip s).
Proof.
  intros Ha Hb. induction s as [|c r IH]; simpl; [reflexivity|].
  destruct (Ascii.eqb_spec c a) as [->|Hn].
  - rewrite Hb, Ha. simpl. now rewrite Ascii.eqb_refl.
  - destruct (isspace c); simpl; [exact IH|].
    destruct (Ascii.eqb_spec c a); [contradiction|reflexivity].
Qed.

Lemma rstrip_replace (a b : ascii) (s : string) :
  isspace a = false -> isspace b = false ->
  rstrip (replace a b s) = replace a b (rstrip s).
Proof.
  intros Ha Hb. induction s as [|c r IH]; simpl; [reflexivity|].
  rewrite IH. destruct (rstrip r) as [|d t]; simpl; [|reflexivity].
  destruct (Ascii.eqb_spec c a) as [->|Hn].
  - rewrite Hb, Ha. simpl. now rewrite Ascii.eqb_refl.
  - destruct (isspace c); simpl; [reflexivity|].
    destruct (Ascii.eqb_spec c a); [contradiction|reflexivity].
Qed.

Lemma strip_replace (a b : ascii) (s : string) :
  isspace a = false -> isspace b = false ->
  strip (replace a b s) = replace a b (strip s).
Proof.
  intros Ha Hb. unfold strip. now rewrite lstrip_replace, rstrip_replace.
Qed.

(** ** The identity normaliser *)

(** A canonical identity is a stripped text followed by one of the two
    suffixes. *)
Lemma normalise_username_shape (x : string) :
  exists w t,
    Final.normalise_username x = strip w ++ t
    /\ (t = EXT_SUFFIX \/ t = LOCAL_SUFFIX).
Proof.
  unfold Final.normalise_username.
  destruct (contains "@" (lower (strip x))).
  - exists (replace "@" "_" (lower x)), EXT_SUFFIX. split; [|now left].
    now rewrite strip_replace, strip_lower by reflexivity.
  - exists (lower x), LOCAL_SUFFIX. split; [|now right].
    now rewrite strip_lower.
Qed.

Lemma suffix_stripped (t : string) :
  t = EXT_SUFFIX \/ t = LOCAL_SUFFIX ->
  rstrip t = t /\ t <> EmptyString
  /\ (forall c r, t = String c r -> isspace c = false)
  /\ contains "@" (lower t) = true.
Proof.
  intros [-> | ->]; (repeat split; [discriminate|]);
    intros c r H; injection H as <- _; reflexivity.
Qed.

(** C1, the statement as the spec has it, fails on a local account. *)
Lemma normalise_username_not_idempotent :
  Final.normalise_username (Final.normalise_username "nop-12345")
  <> Final.normalise_username "nop-12345".
Proof. vm_compute. discriminate. Qed.

(** C1 (amended).  Normalisation is total and not idempotent: a canonical
    identity [y] always contains an at sign and is already stripped, so a
    second pass takes the external branch, returns [y] lowercased with the
    at sign replaced and the external suffix appended, and never returns
    [y] itself.  What is stable is the cleaning step: an identifier that was
    stripped and lowercased beforehand gets the same identity. *)
Theorem normalise_username_second_pass (x : string) :
  let y := Final.normalise_username x in
  Final.normalise_username y = replace "@" "_" (lower y) ++ EXT_SUFFIX
  /\ Final.normalise_username y <> y
  /\ Final.normalise_username (lower (strip x)) = y.
Proof.
  intros y.
  assert (Hy : Final.normalise_username y
               = replace "@" "_" (lower y) ++ EXT_SUFFIX).
  { destruct (normalise_username_shape x) as (w & t & Hw & Ht).
    destruct (suffix_stripped t Ht) as (H1 & H2 & H3 & H4).
    unfold Final.normalise_username at 1. fold y.
    assert (Hs : strip y = y).
    { unfold y. rewrite Hw. now apply strip_clean_app. }
    rewrite Hs.
    assert (Hc : contains "@" (lower y) = true).
    { unfold y. rewrite Hw, lower_app, contains_app, H4. apply orb_true_r. }
    rewrite Hc. reflexivity. }
  split; [exact Hy|]. split.
  - intros H. apply (f_equal String.length) in H.
    rewrite Hy, app_length, replace_length, lower_length in H.
    simpl in H. lia.
  - unfold y, Final.normalise_username.
    now rewrite <- strip_lower, lower_idem, strip_lower, strip_idem.
Qed.

(** ** The order on strings and on pairs of strings *)

Lemma ascii_compare_trans (a b c : ascii) (o : comparison) :
  Ascii.compare a b = o -> Ascii.compare b c = o -> Ascii.compare a c = o.
Proof.
  destruct o; intros H1 H2.
  - apply Ascii.compare_eq_iff in H1, H2. subst.
    unfold Ascii.compare. apply N.compare_refl.
  - unfold Ascii.compare in *. rewrite N.compare_lt_iff in *. lia.
  - unfold Ascii.compare in *. rewrite N.compare_gt_iff in *. lia.
Qed.

Lemma string_compare_refl (s : string) : String.compare s s = Eq.
Proof.
  induction s as [|a s IH]; simpl; [reflexivity|].
  unfold Ascii.compare. now rewrite N.compare_refl.
Qed.

Lemma string_leb_refl (s : string) : String.leb s s = true.
Proof. unfold String.leb. now rewrite string_compare_refl. Qed.

Lemma string_compare_lt_trans (s t u : string) :
  String.compare s t = Lt -> String.compare t u = Lt ->
  String.compare s u = Lt.
Proof.
  revert t u. induction s as [|a s IH]; intros [|b t] [|c u]; simpl;
    try discriminate; try reflexivity.
  destruct (Ascii.compare a b) eqn:Eab; try discriminate;
    destruct (Ascii.compare b c) eqn:Ebc; try discriminate; intros H1 H2.
  - rewrite (ascii_compare_trans _ _ _ _ Eab Ebc). eauto.
  - apply Ascii.compare_eq_iff in Eab. subst. now rewrite Ebc.
  - apply Ascii.compare_eq_iff in Ebc. subst. now rewrite Eab.
  - now rewrite (ascii_compare_trans _ _ _ _ Eab Ebc).
Qed.

Lemma string_leb_cases (s t : string) :
  String.leb s t = true <-> String.compare s t = Lt \/ s = t.
Proof.
  unfold String.leb. split.
  - destruct (String.compare s t) eqn:E; try discriminate; intros _.
    + right. now apply String.compare_eq_iff.
    + now left.
  - intros [-> | ->]; [reflexivity|]. now rewrite string_compare_refl.
Qed.

Lemma string_leb_trans (s t u : string) :
  String.leb s t = true -> String.leb t u = true -> String.leb s u = true.
Proof.
  rewrite !string_leb_cases. intros [H1 | ->] [H2 | ->]; auto.
  left. eapply string_compare_lt_trans; eassumption.
Qed.

Lemma pair_leb_total (p q : string * string) :
  pair_leb p q = true \/ pair_leb q p = true.
Proof.
  unfold pair_leb. rewrite (String.compare_antisym (fst q) (fst p)).
  destruct (String.compare (fst p) (fst q)); simpl; auto.
  apply String.leb_total.
Qed.

Lemma pair_leb_trans (p q r : string * string) :
  pair_leb p q = true -> pair_leb q r = true -> pair_leb p r = true.
Proof.
  unfold pair_leb.
  destruct (String.compare (fst p) (fst q)) eqn:E1; try discriminate;
    destruct (String.compare (fst q) (fst r)) eqn:E2; try discriminate;
    intros H1 H2.
  - apply String.compare_eq_iff in E1, E2. rewrite E1, E2.
    rewrite string_compare_refl. eapply string_leb_trans; eassumption.
  - apply String.compare_eq_iff in E1. now rewrite E1, E2.
  - apply String.compare_eq_iff in E2. now rewrite <- E2, E1.
  - now rewrite (string_compare_lt_trans _ _ _ E1 E2).
Qed.

(** ** Stable insertion sort *)

Section SortFacts.
Context {A K : Type}.
Variable kleb : K -> K -> bool.
Variable key : A -> K.
Hypothesis kleb_total : forall a b, kleb a b = true \/ kleb b a = true.
Hypothesis kleb_trans :
  forall a b c, kleb a b = true -> kleb b c = true -> kleb a c = true.

Local Abbreviation key_le := (key_le kleb key).

Lemma insert_by_perm (x : A) (l : list A) :
  Permutation (insert_by kleb key x l) (x :: l).
Proof.
  induction l as [|y r IH]; simpl; [reflexivity|].
  destruct (kleb (key x) (key y)); [reflexivity|].
  rewrite IH. apply perm_swap.
Qed.

Lemma sort_by_perm (l : list A) : Permutation (sort_by kleb key l) l.
Proof.
  induction l as [|x r IH]; simpl; [reflexivity|].
  rewrite insert_by_perm. now constructor.
Qed.

Lemma sort_by_In (l : list A) (x : A) :
  In x (sort_by kleb key l) <-> In x l.
Proof.
  split; apply Permutation_in; [|symmetry]; apply sort_by_perm.
Qed.

Lemma insert_by_sorted (x : A) (l : list A) :
  StronglySorted key_le l -> StronglySorted key_le (insert_by kleb key x l).
Proof.
  induction 1 as [|y r Hr IH Hy]; simpl.
  - repeat constructor.
  - destruct (kleb (key x) (key y)) eqn:E.
    + constructor; [now constructor|]. constructor; [exact E|].
      rewrite Forall_forall in *. intros z Hz.
      eapply kleb_trans; [exact E|]. now apply Hy.
    + constructor; [exact IH|].
      rewrite Forall_forall in *. intros z Hz.
      apply (Permutation_in _ (insert_by_perm x r)) in Hz.
      destruct Hz as [<- | Hz]; [|now apply Hy].
      destruct (kleb_total (key x) (key y)); [congruence|assumption].
Qed.

Lemma sort_by_sorted (l : list A) :
  StronglySorted key_le (sort_by kleb key l).
Proof.
  induction l; simpl; [constructor|now apply insert_by_sorted].
Qed.

(** The sort is stable: records that a test on the key selects, which it
    cannot tell apart by the order, keep the order they came in. *)
Lemma insert_by_filter (p : K -> bool) (x : A) (l : list A) :
  (forall y, In y l -> p (key x) = true -> p (key y) = true ->
             kleb (key x) (key y) = true) ->
  filter (fun y => p (key y)) (insert_by kleb key x l)
  = filter (fun y => p (key y)) (x :: l).
Proof.
  induction l as [|y r IH]; intros H; simpl; [reflexivity|].
  destruct (kleb (key x) (key y)) eqn:E; [reflexivity|].
  simpl. rewrite IH by (intros z Hz; apply H; now right). simpl.
  destruct (p (key x)) eqn:Px; [|reflexivity].
  destruct (p (key y)) eqn:Py; [|reflexivity].
  rewrite (H y) in E; [discriminate|now left|reflexivity|exact Py].
Qed.

Lemma sort_by_stable (p : K -> bool) (l : list A) :
  (forall a b, p a = true -> p b = true -> kleb a b = true) ->
  filter (fun y => p (key y)) (sort_by kleb key l)
  = filter (fun y => p (key y)) l.
Proof.
  intros Hp. induction l as [|x r IH]; simpl; [reflexivity|].
  rewrite insert_by_filter by (intros y _; apply Hp). simpl.
  now rewrite IH.
Qed.
End SortFacts.

(** Sorted lists with the same elements are the same list, so [sorted]
    of a set does not depend on the order the set is enumerated in. *)
Lemma sorted_unique (l l' : list string) :
  StronglySorted str_le l -> StronglySorted str_le l' ->
  Permutation l l' -> l = l'.
Proof.
  intros Hl. revert l'. induction Hl as [|a l Hs IH Ha]; intros l' Hl' Hp.
  - apply Permutation_nil in Hp. now subst.
  - destruct Hl' as [|b l' Hs' Hb].
    + symmetry in Hp. apply Permutation_nil in Hp. discriminate.
    + assert (E : a = b).
      { rewrite Forall_forall in Ha, Hb.
        assert (Ia : In a (b :: l'))
          by (apply (Permutation_in _ Hp); now left).
        assert (Ib : In b (a :: l))
          by (apply (Permutation_in _ (Permutation_sym Hp)); now left).
        destruct Ia as [-> | Ia]; [reflexivity|].
        destruct Ib as [-> | Ib]; [reflexivity|].
        apply String.leb_antisym; [now apply Ha|now apply Hb]. }
      subst b. f_equal. apply IH; [exact Hs'|].
      eapply Permutation_cons_inv. exact Hp.
Qed.

Lemma sorted_str_order_free (l l' : list string) :
  Permutation l l' -> sorted_str l = sorted_str l'.
Proof.
  intros Hp. unfold sorted_str.
  apply sorted_unique.
  - apply (sort_by_sorted String.leb (fun s : string => s));
      [apply String.leb_total|apply string_leb_trans].
  - apply (sort_by_sorted String.leb (fun s : string => s));
      [apply String.leb_total|apply string_leb_trans].
  - rewrite !sort_by_perm. exact Hp.
Qed.

(** ** Dicts *)

Section DictFacts.
Context {V : Type}.
Implicit Types (d : dict V) (k : string) (v : V).

Lemma dict_get_In d k v : dict_get d k = Some v -> In (k, v) d.
Proof.
  induction d as [|[k' v'] r IH]; simpl; [discriminate|].
  destruct (String.eqb_spec k' k) as [->|Hn].
  - intros H; injection H as ->. now left.
  - intros H. right. auto.
Qed.

Lemma dict_get_None d k : dict_get d k = None <-> ~ In k (dict_keys d).
Proof.
  induction d as [|[k' v'] r IH]; simpl; [tauto|].
  destruct (String.eqb_spec k' k) as [->|Hn].
  - split; [discriminate|]. intros H. exfalso. auto.
  - rewrite IH. tauto.
Qed.

Lemma dict_get_set d k k' v :
  dict_get (dict_set d k v) k' =
  if String.eqb k k' then Some v else dict_get d k'.
Proof.
  induction d as [|[k0 v0] r IH]; simpl.
  - reflexivity.
  - destruct (String.eqb_spec k0 k) as [->|Hn]; simpl.
    + destruct (String.eqb_spec k k'); reflexivity.
    + rewrite IH. destruct (String.eqb_spec k0 k') as [->|Hn'].
      * destruct (String.eqb_spec k k'); [congruence|reflexivity].
      * reflexivity.
Qed.

Lemma dict_keys_set d k v k' :
  In k' (dict_keys (dict_set d k v)) <-> k' = k \/ In k' (dict_keys d).
Proof.
  induction d as [|[k0 v0] r IH]; simpl; [intuition congruence|].
  destruct (String.eqb_spec k0 k) as [->|Hn]; simpl;
    [intuition congruence|].
  rewrite IH. tauto.
Qed.

Lemma dict_set_NoDup d k v :
  NoDup (dict_keys d) -> NoDup (dict_keys (dict_set d k v)).
Proof.
  induction d as [|[k0 v0] r IH]; simpl; intros H.
  - repeat constructor. intros [].
  - inversion H as [|? ? Hn Hr]; subst.
    destruct (String.eqb_spec k0 k) as [->|Hne]; simpl.
    + now constructor.
    + constructor; [|now apply IH].
      change (~ In k0 (dict_keys (dict_set r k v))).
      rewrite dict_keys_set. intros [-> | ?]; [congruence|contradiction].
Qed.

Lemma dict_set_In d k v k' v' :
  In (k', v') (dict_set d k v) -> (k' = k /\ v' = v) \/ In (k', v') d.
Proof.
  induction d as [|[k0 v0] r IH]; simpl.
  - intros [H | []]. injection H as <- <-. now left.
  - destruct (String.eqb_spec k0 k) as [->|Hne]; simpl.
    + intros [H | H]; [injection H as <- <-; now left|tauto].
    + intros [H | H]; [tauto|]. destruct (IH H); tauto.
Qed.
End DictFacts.

(** ** The flat join *)

Lemma merge_usernames (training : dict (option PyDate.date))
  (agreements : dict bool) :
  map Final.username (Final.merge training agreements)
  = Final.all_users training agreements.
Proof.
  unfold Final.merge. rewrite map_map. simpl. apply map_id.
Qed.

Lemma all_users_In (training : dict (option PyDate.date))
  (agreements : dict bool) (u : string) :
  In u (Final.all_users training agreements)
  <-> In u (dict_keys training) \/ In u (dict_keys agreements).
Proof.
  unfold Final.all_users, sorted_str.
  now rewrite sort_by_In, nodup_In, in_app_iff.
Qed.

Lemma all_users_NoDup (training : dict (option PyDate.date))
  (agreements : dict bool) :
  NoDup (Final.all_users training agreements).
Proof.
  unfold Final.all_users, sorted_str.
  eapply Permutation_NoDup; [symmetry; apply sort_by_perm|apply NoDup_nodup].
Qed.

(** C3.  The merged list has one record for each identity of the union of
    the two key sets and no other; a record takes its facets from the two
    maps, [False] when the identity has no agreement entry and [None] when
    it has no training entry. *)
Theorem merge_total (training : dict (option PyDate.date))
  (agreements : dict bool) :
  let out := Final.merge training agreements in
  (forall u, In u (map Final.username out)
             <-> In u (dict_keys training) \/ In u (dict_keys agreements))
  /\ NoDup (map Final.username out)
  /\ (forall r, In r out ->
        Final.has_signed_agreement r
        = dict_get_default agreements (Final.username r) false
        /\ Final.nhsd_training_completed_at r
           = dict_get_default training (Final.username r) None)
  /\ (forall r, In r out -> ~ In (Final.username r) (dict_keys agreements) ->
        Final.has_signed_agreement r = false)
  /\ (forall r, In r out -> ~ In (Final.username r) (dict_keys training) ->
        Final.nhsd_training_completed_at r = None).
Proof.
  intros out.
  assert (Hfacets : forall r, In r out ->
        Final.has_signed_agreement r
        = dict_get_default agreements (Final.username r) false
        /\ Final.nhsd_training_completed_at r
           = dict_get_default training (Final.username r) None).
  { intros r Hr. unfold out, Final.merge in Hr. apply in_map_iff in Hr.
    destruct Hr as (u & <- & _). simpl. auto. }
  split; [|split; [|split; [exact Hfacets|split]]].
  - intros u. unfold out. rewrite merge_usernames. apply all_users_In.
  - unfold out. rewrite merge_usernames. apply all_users_NoDup.
  - intros r Hr Hn. destruct (Hfacets r Hr) as [-> _].
    unfold dict_get_default. apply dict_get_None in Hn. now rewrite Hn.
  - intros r Hr Hn. destruct (Hfacets r Hr) as [_ ->].
    unfold dict_get_default. apply dict_get_None in Hn. now rewrite Hn.
Qed.

Lemma merge_total_witness :
  In sample_record (Final.merge sample_training sample_agreements)
  /\ ~ In (Final.username sample_record) (dict_keys sample_agreements)
  /\ Final.has_signed_agreement sample_record = false.
Proof.
  assert (H1 : In sample_record
                 (Final.merge sample_training sample_agreements))
    by (simpl; left; reflexivity).
  assert (H2 : ~ In (Final.username sample_record)
                    (dict_keys sample_agreements))
    by (simpl; intros [H | []]; discriminate H).
  split; [exact H1|]. split; [exact H2|].
  exact (proj1 (proj2 (proj2 (proj2
    (merge_total sample_training sample_agreements)))) _ H1 H2).
Defined.

(** ** The readers *)

Lemma rstrip_empty (s : string) :
  rstrip s = EmptyString <-> all_space s = true.
Proof.
  induction s as [|c r IH]; simpl; [tauto|].
  destruct (rstrip r) eqn:E.
  - destruct (isspace c); simpl; [tauto|].
    split; discriminate.
  - split; [discriminate|]. intros H. apply andb_true_iff in H.
    destruct H as [_ H]. apply IH in H. discriminate.
Qed.

Lemma lstrip_all_space (s : string) :
  all_space (lstrip s) = all_space s.
Proof.
  induction s as [|c r IH]; simpl; [reflexivity|].
  destruct (isspace c) eqn:E; simpl; [exact IH|now rewrite E].
Qed.

Lemma strip_empty (s : string) :
  strip s = EmptyString <-> all_space s = true.
Proof. unfold strip. now rewrite rstrip_empty, lstrip_all_space. Qed.

(** A field is empty after trimming exactly when the cell is blank. *)
Lemma field_blank (row : Row) (k : string) :
  field row k = EmptyString <-> blank (row_get row k) = true.
Proof.
  unfold field, blank. destruct (row_get row k); simpl.
  - apply strip_empty.
  - tauto.
Qed.

Lemma truthy_false (s : string) : truthy s = false <-> s = EmptyString.
Proof. destruct s; simpl; split; congruence. Qed.

Lemma truthy_true (s : string) : truthy s = true <-> s <> EmptyString.
Proof. destruct s; simpl; split; congruence. Qed.

Lemma read_assets_from_rows (rows : list Row) (i : nat)
  (grouped : dict (list Asset.t)) :
  read_assets_from i rows grouped
  = (az <- rows_from asset_of_row i rows ;;
     Ok (group_by Asset.caseref az grouped)).
Proof.
  revert i grouped. induction rows as [|row rest IH]; intros i g; simpl.
  - reflexivity.
  - destruct (asset_of_row i row) as [a|e]; simpl; [|reflexivity].
    rewrite IH. destruct (rows_from asset_of_row (S i) rest); reflexivity.
Qed.

Lemma read_contracts_from_rows (rows : list Row) (i : nat)
  (grouped : dict (list Contract.t)) :
  read_contracts_from i rows grouped
  = (cs <- rows_from contract_of_row i rows ;;
     Ok (group_by Contract.caseref cs grouped)).
Proof.
  revert i grouped. induction rows as [|row rest IH]; intros i g; simpl.
  - reflexivity.
  - destruct (contract_of_row i row) as [a|e]; simpl; [|reflexivity].
    rewrite IH. destruct (rows_from contract_of_row (S i) rest); reflexivity.
Qed.

Section RowsFrom.
Context {A : Type}.
Variable f : nat -> Row -> result A.

(** The first row that raises ends the run with its error. *)
Lemma rows_from_raise (rows : list Row) (i k : nat) (row : Row)
  (e : ValueError) :
  nth_error rows k = Some row ->
  (forall j r, j < k -> nth_error rows j = Some r ->
               exists a, f (i + j) r = Ok a) ->
  f (i + k) row = Raise e ->
  rows_from f i rows = Raise e.
Proof.
  revert i k. induction rows as [|r0 rest IH]; intros i k Hk Hpre He.
  - destruct k; discriminate.
  - destruct k as [|k]; simpl in *.
    + injection Hk as ->. rewrite Nat.add_0_r in He. now rewrite He.
    + destruct (Hpre 0 r0) as [a Ha]; [lia|reflexivity|].
      rewrite Nat.add_0_r in Ha. rewrite Ha. simpl.
      rewrite (IH (S i) k Hk); [reflexivity| |].
      * intros j r Hj Hr. destruct (Hpre (S j) r) as [a' Ha'];
          [lia|exact Hr|]. exists a'.
        now replace (S i + j) with (i + S j) by lia.
      * now replace (S i + k) with (i + S k) by lia.
Qed.

(** A row that raises on whichever line it stands leaves no result. *)
Lemma rows_from_no_result (rows : list Row) (i : nat) (row : Row) :
  In row rows -> (forall j, exists e, f j row = Raise e) ->
  exists e, rows_from f i rows = Raise e.
Proof.
  revert i. induction rows as [|r0 rest IH]; intros i Hin Hrow;
    [destruct Hin|]. simpl. destruct Hin as [-> | Hin].
  - destruct (Hrow i) as [e ->]. simpl. eauto.
  - destruct (f i r0) as [a|e]; simpl; [|eauto].
    destruct (IH (S i) Hin Hrow) as [e ->]. simpl. eauto.
Qed.

Lemma rows_from_In (rows : list Row) (i : nat) (az : list A) (a : A) :
  rows_from f i rows = Ok az -> In a az ->
  exists j row, nth_error rows j = Some row /\ f (i + j) row = Ok a.
Proof.
  revert i az. induction rows as [|r0 rest IH]; intros i az; simpl.
  - intros H; injection H as <-. intros [].
  - destruct (f i r0) as [a0|e] eqn:E0; simpl; [|discriminate].
    destruct (rows_from f (S i) rest) as [az'|e] eqn:E1; simpl;
      [|discriminate].
    intros H; injection H as <-. intros [<- | Hin].
    + exists 0, r0. now rewrite Nat.add_0_r.
    + destruct (IH _ _ E1 Hin) as (j & row & Hj & Hf).
      exists (S j), row. split; [exact Hj|].
      now replace (i + S j) with (S i + j) by lia.
Qed.
End RowsFrom.

Section GroupBy.
Context {A : Type}.
Variable key : A -> string.

Lemma setdefault_append_get (g : dict (list A)) (k k' : string) (x : A) :
  dict_get_default (setdefault_append g k x) k' []
  = (dict_get_default g k' []
     ++ if String.eqb k k' then [x] else [])%list.
Proof.
  unfold dict_get_default.
  induction g as [|[k0 l] r IH]; simpl.
  - destruct (String.eqb k k'); reflexivity.
  - destruct (String.eqb_spec k0 k) as [->|Hn]; simpl.
    + destruct (String.eqb_spec k k'); [reflexivity|].
      now rewrite app_nil_r.
    + destruct (String.eqb_spec k0 k') as [->|Hn'].
      * destruct (String.eqb_spec k k'); [congruence|].
        now rewrite app_nil_r.
      * exact IH.
Qed.

(** A foreign key's list is the records that carry it, in row order. *)
Lemma group_by_get (xs : list A) (g : dict (list A)) (k : string) :
  dict_get_default (group_by key xs g) k []
  = (dict_get_default g k [] ++ children_of key k xs)%list.
Proof.
  revert g. induction xs as [|x r IH]; intros g; simpl.
  - now rewrite app_nil_r.
  - unfold group_by in *. simpl. rewrite IH, setdefault_append_get.
    rewrite <- app_assoc. f_equal. unfold children_of. simpl.
    destruct (String.eqb (key x) k); reflexivity.
Qed.
End GroupBy.

(** Case analysis on the guard of the conditional at the head of a run. *)
Ltac case_guard :=
  match goal with
  | |- (if ?b then _ else _) = _ -> _ => destruct b eqn:?
  | |- (if ?b then _ else _) = _ => destruct b eqn:?
  end.

Lemma asset_of_row_caseref (i : nat) (row : Row) (a : Asset.t) :
  asset_of_row i row = Ok a ->
  Asset.caseref a = field row "CaseRef" /\ field row "CaseRef" <> EmptyString.
Proof.
  unfold asset_of_row.
  destruct (truthy (field row "CaseRef")) eqn:E; simpl; [|discriminate].
  apply truthy_true in E.
  case_guard; [discriminate|].
  destruct (py_int _); [|discriminate].
  intros H; injection H as <-. simpl. auto.
Qed.

Lemma contract_of_row_caseref (i : nat) (row : Row) (c : Contract.t) :
  contract_of_row i row = Ok c ->
  Contract.caseref c = field row "CaseRef"
  /\ field row "CaseRef" <> EmptyString.
Proof.
  unfold contract_of_row.
  destruct (truthy (field row "CaseRef")) eqn:E; simpl; [|discriminate].
  apply truthy_true in E.
  do 2 (case_guard; [discriminate|]).
  intros H; injection H as <-. simpl. auto.
Qed.

Lemma asset_of_row_blank (i : nat) (row : Row) :
  field row "CaseRef" = EmptyString ->
  asset_of_row i row = Raise (MissingCaseRef "Asset" i).
Proof. intros H. unfold asset_of_row. now rewrite H. Qed.

Lemma contract_of_row_blank (i : nat) (row : Row) :
  field row "CaseRef" = EmptyString ->
  contract_of_row i row = Raise (MissingCaseRef "Contract" i).
Proof. intros H. unfold contract_of_row. now rewrite H. Qed.

Lemma read_studies_from_raise (rows : list Row) (i k : nat) (row : Row)
  (studies : dict Study.t) :
  nth_error rows k = Some row ->
  field row "CaseRef" = EmptyString ->
  (forall j r, j < k -> nth_error rows j = Some r ->
               field r "CaseRef" <> EmptyString) ->
  read_studies_from i rows studies = Raise (MissingCaseRef "Study" (i + k)).
Proof.
  revert i k studies.
  induction rows as [|r0 rest IH]; intros i k d Hk Hb Hpre.
  - destruct k; discriminate.
  - destruct k as [|k]; simpl in *.
    + injection Hk as ->. rewrite Hb. simpl. now rewrite Nat.add_0_r.
    + assert (H0 : field r0 "CaseRef" <> EmptyString)
        by (apply (Hpre 0); [lia|reflexivity]).
      apply truthy_true in H0. rewrite H0. simpl.
      rewrite (IH (S i) k _ Hk Hb).
      * now replace (S i + k) with (i + S k) by lia.
      * intros j r Hj Hr. apply (Hpre (S j)); [lia|exact Hr].
Qed.

Lemma read_studies_from_ok (rows : list Row) (i : nat)
  (studies : dict Study.t) :
  (forall r, In r rows -> field r "CaseRef" <> EmptyString) ->
  read_studies_from i rows studies = Ok (file_studies rows studies).
Proof.
  revert i studies. induction rows as [|r0 rest IH]; intros i d H; simpl.
  - reflexivity.
  - assert (H0 : field r0 "CaseRef" <> EmptyString) by (apply H; now left).
    apply truthy_true in H0. rewrite H0. simpl.
    apply IH. intros r Hr. apply H. now right.
Qed.

Lemma read_studies_from_inv (rows : list Row) (i : nat)
  (studies d : dict Study.t) :
  read_studies_from i rows studies = Ok d ->
  (forall r, In r rows -> field r "CaseRef" <> EmptyString)
  /\ d = file_studies rows studies.
Proof.
  revert i studies. induction rows as [|r0 rest IH]; intros i d0; simpl.
  - intros H; injection H as <-. split; [intros r []|reflexivity].
  - destruct (truthy (field r0 "CaseRef")) eqn:E; simpl; [|discriminate].
    intros H. destruct (IH _ _ H) as [H1 H2]. split; [|exact H2].
    intros r [<- | Hr]; [now apply truthy_true|now apply H1].
Qed.

Lemma read_studies_no_result (rows : list Row) (i : nat) (row : Row)
  (studies : dict Study.t) :
  In row rows -> field row "CaseRef" = EmptyString ->
  exists e, read_studies_from i rows studies = Raise e.
Proof.
  intros Hin Hb.
  destruct (read_studies_from i rows studies) as [d|e] eqn:E; [|eauto].
  destruct (read_studies_from_inv _ _ _ _ E) as [H _].
  exfalso. now apply (H row Hin).
Qed.

(** ** Rows without a CaseRef *)

Lemma main_studies_raise (sr ar cr : list Row) (e : ValueError) :
  read_studies sr = Raise e -> main sr ar cr = Raise e.
Proof. intros H. unfold main. now rewrite H. Qed.

Lemma main_no_result (sr ar cr : list Row) :
  (exists e, read_studies sr = Raise e)
  \/ (exists e, read_assets_by_case ar = Raise e)
  \/ (exists e, read_study_contracts cr = Raise e) ->
  exists e, main sr ar cr = Raise e.
Proof.
  unfold main. intros [[e H] | [[e H] | [e H]]].
  - rewrite H. simpl. eauto.
  - destruct (read_studies sr); simpl; [|eauto]. rewrite H. simpl. eauto.
  - destruct (read_studies sr); simpl; [|eauto].
    destruct (read_assets_by_case ar); simpl; [|eauto].
    rewrite H. simpl. eauto.
Qed.

Lemma read_assets_no_result (rows : list Row) (row : Row) :
  In row rows -> field row "CaseRef" = EmptyString ->
  exists e, read_assets_by_case rows = Raise e.
Proof.
  intros Hin Hb. unfold read_assets_by_case. rewrite read_assets_from_rows.
  destruct (rows_from_no_result asset_of_row rows 2 row Hin) as [e ->].
  - intros j. rewrite asset_of_row_blank by exact Hb. eauto.
  - simpl. eauto.
Qed.

Lemma read_contracts_no_result (rows : list Row) (row : Row) :
  In row rows -> field row "CaseRef" = EmptyString ->
  exists e, read_study_contracts rows = Raise e.
Proof.
  intros Hin Hb. unfold read_study_contracts.
  rewrite read_contracts_from_rows.
  destruct (rows_from_no_result contract_of_row rows 2 row Hin) as [e ->].
  - intros j. rewrite contract_of_row_blank by exact Hb. eauto.
  - simpl. eauto.
Qed.

(** C4.  A row whose CaseRef cell is blank (absent, empty or whitespace
    only) makes its reader raise the error that names the kind of row and
    the line it is on, the header being line 1, as soon as the reader gets
    to it, that is when the rows before it were accepted; and whichever
    file it is in and wherever it stands there, the run ends with an error
    and no output. *)
Theorem blank_caseref_aborts (rows : list Row) (k : nat) (row : Row) :
  nth_error rows k = Some row ->
  blank (row_get row "CaseRef") = true ->
  ((forall j r, j < k -> nth_error rows j = Some r ->
                blank (row_get r "CaseRef") = false) ->
   read_studies rows = Raise (MissingCaseRef "Study" (k + 2)))
  /\ ((forall j r, j < k -> nth_error rows j = Some r ->
                   exists a, asset_of_row (j + 2) r = Ok a) ->
      read_assets_by_case rows = Raise (MissingCaseRef "Asset" (k + 2)))
  /\ ((forall j r, j < k -> nth_error rows j = Some r ->
                   exists c, contract_of_row (j + 2) r = Ok c) ->
      read_study_contracts rows
      = Raise (MissingCaseRef "Contract" (k + 2)))
  /\ (forall source,
        message (MissingCaseRef source (k + 2))
        = source ++ " row missing CaseRef (line " ++ of_nat (k + 2) ++ ")")
  /\ (forall others1 others2,
        (exists e, main rows others1 others2 = Raise e)
        /\ (exists e, main others1 rows others2 = Raise e)
        /\ (exists e, main others1 others2 rows = Raise e)).
Proof.
  intros Hk Hb. apply field_blank in Hb.
  assert (Hin : In row rows) by (eapply nth_error_In; exact Hk).
  split; [|split; [|split; [|split]]].
  - intros Hpre. unfold read_studies.
    rewrite (read_studies_from_raise rows 2 k row [] Hk Hb).
    + now rewrite Nat.add_comm.
    + intros j r Hj Hr E. apply field_blank in E.
      rewrite (Hpre j r Hj Hr) in E. discriminate.
  - intros Hpre. unfold read_assets_by_case. rewrite read_assets_from_rows.
    rewrite (rows_from_raise asset_of_row rows 2 k row
               (MissingCaseRef "Asset" (k + 2)) Hk); [reflexivity| |].
    + intros j r Hj Hr. rewrite Nat.add_comm. eauto.
    + rewrite Nat.add_comm. now apply asset_of_row_blank.
  - intros Hpre. unfold read_study_contracts.
    rewrite read_contracts_from_rows.
    rewrite (rows_from_raise contract_of_row rows 2 k row
               (MissingCaseRef "Contract" (k + 2)) Hk); [reflexivity| |].
    + intros j r Hj Hr. rewrite Nat.add_comm. eauto.
    + rewrite Nat.add_comm. now apply contract_of_row_blank.
  - reflexivity.
  - intros o1 o2. repeat split; apply main_no_result.
    + left. now apply (read_studies_no_result rows 2 row).
    + right. left. now apply (read_assets_no_result rows row).
    + right. right. now apply (read_contracts_no_result rows row).
Qed.

Lemma blank_caseref_aborts_witness :
  nth_error sample_contract_rows 1 = Some sample_blank_row
  /\ blank (row_get sample_blank_row "CaseRef") = true
  /\ read_study_contracts sample_contract_rows
     = Raise (MissingCaseRef "Contract" 3)
  /\ message (MissingCaseRef "Contract" 3)
     = "Contract row missing CaseRef (line 3)".
Proof.
  split; [reflexivity|]. split; [reflexivity|]. split; [|reflexivity].
  refine (proj1 (proj2 (proj2
    (blank_caseref_aborts sample_contract_rows 1 sample_blank_row
       eq_refl eq_refl))) _).
  intros j r Hj Hr. destruct j as [|j]; [|lia].
  injection Hr as <-. eexists. vm_compute. reflexivity.
Defined.

(** ** Attaching children to studies *)

Lemma attach_caseref abc cbc (k : string) (st : Study.t) :
  Study.caseref (attach abc cbc (k, st)) = Study.caseref st.
Proof. reflexivity. Qed.

Lemma build_import_json_In (studies : dict Study.t) abc cbc (s : Study.t) :
  In s (build_import_json studies abc cbc)
  <-> exists k st, In (k, st) studies /\ s = attach abc cbc (k, st).
Proof.
  unfold build_import_json. rewrite sort_by_In, in_map_iff. split.
  - intros ([k st] & <- & Hin). eauto.
  - intros (k & st & Hin & ->). eauto.
Qed.

Lemma build_import_json_sorted (studies : dict Study.t) abc cbc :
  StronglySorted study_le (build_import_json studies abc cbc).
Proof.
  apply (sort_by_sorted String.leb Study.caseref);
    [apply String.leb_total|apply string_leb_trans].
Qed.

Lemma build_import_json_caserefs (studies : dict Study.t) abc cbc :
  Permutation (map Study.caseref (build_import_json studies abc cbc))
              (map (fun item => Study.caseref (snd item)) studies).
Proof.
  unfold build_import_json. rewrite sort_by_perm, map_map.
  erewrite map_ext; [reflexivity|]. now intros [k st].
Qed.

(** Studies filed under their CaseRef: what the dict holds. *)
Lemma file_studies_In (rows : list Row) (d0 : dict Study.t) (k : string)
  (st : Study.t) :
  In (k, st) (file_studies rows d0) ->
  In (k, st) d0
  \/ exists row, In row rows /\ field row "CaseRef" = k
                 /\ st = study_of_row k row.
Proof.
  revert d0. induction rows as [|r0 rest IH]; intros d0; simpl; [auto|].
  intros H. destruct (IH _ H) as [H1 | (row & Hr & Hk & Hs)].
  - destruct (dict_set_In _ _ _ _ _ H1) as [[-> ->] | H2]; [|auto].
    right. exists r0. auto.
  - right. exists row. auto.
Qed.

Lemma file_studies_NoDup (rows : list Row) (d0 : dict Study.t) :
  NoDup (dict_keys d0) -> NoDup (dict_keys (file_studies rows d0)).
Proof.
  revert d0. induction rows as [|r0 rest IH]; intros d0 H; simpl; [exact H|].
  apply IH. now apply dict_set_NoDup.
Qed.

Lemma find_last {A} (p : A -> bool) (l : list A) (x : A) :
  find p (l ++ [x])
  = match find p l with
    | Some y => Some y
    | None => if p x then Some x else None
    end.
Proof.
  induction l as [|y r IH]; simpl; [reflexivity|].
  destruct (p y); [reflexivity|exact IH].
Qed.

Lemma file_studies_get (rows : list Row) (d0 : dict Study.t) (c : string) :
  dict_get (file_studies rows d0) c
  = match last_row_with c rows with
    | Some row => Some (study_of_row c row)
    | None => dict_get d0 c
    end.
Proof.
  unfold last_row_with. revert d0.
  induction rows as [|r0 rest IH]; intros d0; simpl; [reflexivity|].
  rewrite IH, find_last.
  destruct (find _ (rev rest)); [reflexivity|]. simpl.
  rewrite dict_get_set.
  destruct (String.eqb_spec (field r0 "CaseRef") c) as [->|]; reflexivity.
Qed.

Lemma file_studies_keyed (rows : list Row) (k : string) (st : Study.t) :
  In (k, st) (file_studies rows []) ->
  Study.caseref st = k
  /\ exists row, In row rows /\ field row "CaseRef" = k.
Proof.
  intros H. destruct (file_studies_In _ _ _ _ H) as [[] | (r & Hr & Hk & ->)].
  split; [reflexivity|eauto].
Qed.

(** What a run that has output is made of. *)
Lemma main_output (sr ar cr : list Row) (errs : list string)
  (data : list Study.t) :
  main sr ar cr = Ok (errs, data) ->
  exists az cs,
    rows_from asset_of_row 2 ar = Ok az
    /\ rows_from contract_of_row 2 cr = Ok cs
    /\ (forall r, In r sr -> field r "CaseRef" <> EmptyString)
    /\ data = build_import_json (file_studies sr [])
                (group_by Asset.caseref az [])
                (group_by Contract.caseref cs [])
    /\ errs = validate data VALIDATE_DATES.
Proof.
  unfold main, read_studies, read_assets_by_case, read_study_contracts.
  destruct (read_studies_from 2 sr []) as [d|e] eqn:Es; simpl;
    [|discriminate].
  destruct (read_studies_from_inv _ _ _ _ Es) as [Hnb ->].
  rewrite read_assets_from_rows, read_contracts_from_rows.
  destruct (rows_from asset_of_row 2 ar) as [az|e]; simpl; [|discriminate].
  destruct (rows_from contract_of_row 2 cr) as [cs|e]; simpl;
    [|discriminate].
  intros H. injection H as <- <-. exists az, cs. auto.
Qed.

(** The children of a study of the output: the records of the rows with
    its CaseRef, contracts in row order, assets sorted. *)
Lemma main_children (sr ar cr : list Row) (errs : list string)
  (data : list Study.t) :
  main sr ar cr = Ok (errs, data) ->
  exists az cs,
    rows_from asset_of_row 2 ar = Ok az
    /\ rows_from contract_of_row 2 cr = Ok cs
    /\ forall s, In s data ->
         (exists row, In row sr /\ field row "CaseRef" = Study.caseref s)
         /\ Study.contracts s
            = children_of Contract.caseref (Study.caseref s) cs
         /\ Study.assets s
            = sort_by pair_leb asset_key
                (children_of Asset.caseref (Study.caseref s) az).
Proof.
  intros H. destruct (main_output _ _ _ _ _ H) as (az & cs & Ha & Hc & _ & -> & _).
  exists az, cs. split; [exact Ha|]. split; [exact Hc|].
  intros s Hs. apply build_import_json_In in Hs.
  destruct Hs as (k & st & Hin & ->).
  destruct (file_studies_keyed _ _ _ Hin) as [Hk Hrow].
  rewrite attach_caseref, Hk. split; [exact Hrow|].
  simpl. now rewrite !group_by_get.
Qed.

(** ** Order of the output *)

Lemma merge_sorted (training : dict (option PyDate.date))
  (agreements : dict bool) :
  StronglySorted str_le (map Final.username (Final.merge training agreements)).
Proof.
  rewrite merge_usernames. unfold Final.all_users, sorted_str.
  apply (sort_by_sorted String.leb (fun s : string => s));
    [apply String.leb_total|apply string_leb_trans].
Qed.

Lemma attach_assets_sorted abc cbc (item : string * Study.t) :
  StronglySorted asset_le (Study.assets (attach abc cbc item)).
Proof.
  destruct item as [k st]. simpl.
  apply (sort_by_sorted pair_leb asset_key);
    [apply pair_leb_total|apply pair_leb_trans].
Qed.

(** C2, the statement as the spec has it, fails on contracts: they are not
    sorted, and the same rows in another order give another output. *)
Lemma contracts_keep_row_order :
  output_contract_ids
    (main sample_study_rows [] sample_unsorted_contract_rows)
  = Some [["B"; "A"]]
  /\ output_contract_ids
       (main sample_study_rows [] (rev sample_unsorted_contract_rows))
     = Some [["A"; "B"]]
  /\ ~ StronglySorted str_le ["B"; "A"].
Proof.
  split; [vm_compute; reflexivity|]. split; [vm_compute; reflexivity|].
  intros H. inversion H as [|? ? _ Hall]; subst.
  inversion Hall as [|? ? Hle _]; subst. vm_compute in Hle. discriminate.
Qed.

(** C2 (amended).  The identities of the flat merge and the studies of the
    import are sorted ascending by ordinal comparison, and the assets of
    each study are sorted by asset identity, then title.  The contracts of
    a study are not sorted: they are the contracts of the rows with its
    CaseRef, in the order of the rows. *)
Theorem output_order (training : dict (option PyDate.date))
  (agreements : dict bool) (sr ar cr : list Row) (errs : list string)
  (data : list Study.t) :
  main sr ar cr = Ok (errs, data) ->
  StronglySorted str_le (map Final.username (Final.merge training agreements))
  /\ StronglySorted study_le data
  /\ (forall s, In s data -> StronglySorted asset_le (Study.assets s))
  /\ exists cs,
       rows_from contract_of_row 2 cr = Ok cs
       /\ forall s, In s data ->
            Study.contracts s
            = children_of Contract.caseref (Study.caseref s) cs.
Proof.
  intros H. split; [apply merge_sorted|].
  destruct (main_output _ _ _ _ _ H) as (az & cs & _ & _ & _ & Hd & _).
  split; [rewrite Hd; apply build_import_json_sorted|]. split.
  - intros s Hs. rewrite Hd in Hs. apply build_import_json_In in Hs.
    destruct Hs as (k & st & _ & ->). apply attach_assets_sorted.
  - destruct (main_children _ _ _ _ _ H) as (az' & cs' & _ & Hc & Hall).
    exists cs'. split; [exact Hc|]. intros s Hs. now apply Hall.
Qed.

Lemma output_order_witness :
  main sample_unsorted_study_rows sample_unsorted_asset_rows
    sample_unsorted_contract_rows
  = Ok (["Duplicate asset_sp_id: A"],
        output_data
          (main sample_unsorted_study_rows sample_unsorted_asset_rows
             sample_unsorted_contract_rows))
  /\ map (fun s => (Study.caseref s, map asset_key (Study.assets s),
                    contract_ids s))
       (output_data
          (main sample_unsorted_study_rows sample_unsorted_asset_rows
             sample_unsorted_contract_rows))
     = [("S1", [("A", "a"); ("A", "z"); ("B", "x")], ["B"; "A"]);
        ("S2", [("C", ""); ("D", "")], [])]
  /\ map Final.username
       (Final.merge sample_unsorted_training sample_agreements)
     = ["a@ucl.ac.uk"; "b@ucl.ac.uk"; "c@ucl.ac.uk"]
  /\ StronglySorted str_le
       (map Final.username
          (Final.merge sample_unsorted_training sample_agreements))
  /\ StronglySorted study_le
       (output_data
          (main sample_unsorted_study_rows sample_unsorted_asset_rows
             sample_unsorted_contract_rows))
  /\ forall s,
       In s (output_data
               (main sample_unsorted_study_rows sample_unsorted_asset_rows
                  sample_unsorted_contract_rows)) ->
       StronglySorted asset_le (Study.assets s).
Proof.
  assert (H : main sample_unsorted_study_rows sample_unsorted_asset_rows
                sample_unsorted_contract_rows
              = Ok (["Duplicate asset_sp_id: A"],
                    output_data
                      (main sample_unsorted_study_rows
                         sample_unsorted_asset_rows
                         sample_unsorted_contract_rows)))
    by (vm_compute; reflexivity).
  split; [exact H|]. split; [vm_compute; reflexivity|].
  split; [vm_compute; reflexivity|].
  destruct (output_order sample_unsorted_training sample_agreements
              _ _ _ _ _ H) as (H1 & H2 & H3 & _).
  split; [exact H1|]. split; [exact H2|exact H3].
Defined.

(** ** Children without a parent *)

Lemma children_of_In {A} (key : A -> string) (k : string) (xs : list A)
  (x : A) :
  In x (children_of key k xs) <-> In x xs /\ key x = k.
Proof.
  unfold children_of. rewrite filter_In.
  now destruct (String.eqb_spec (key x) k).
Qed.

Lemma children_of_none {A} (key : A -> string) (k : string) (xs : list A) :
  (forall x, In x xs -> key x <> k) -> children_of key k xs = [].
Proof.
  intros H. induction xs as [|x r IH]; simpl; [reflexivity|].
  destruct (String.eqb_spec (key x) k) as [E|_].
  - exfalso. apply (H x); [now left|exact E].
  - apply IH. intros y Hy. apply H. now right.
Qed.

(** C5.  A CaseRef that no study row carries is the CaseRef of no study of
    the output and of no asset and no contract of any of its studies, so a
    record with such a foreign key is nowhere in the output; and a study
    whose CaseRef no asset row, or no contract row, carries has an empty
    collection of that kind. *)
Theorem orphans_dropped (sr ar cr : list Row) (errs : list string)
  (data : list Study.t) :
  main sr ar cr = Ok (errs, data) ->
  (forall c, (forall row, In row sr -> field row "CaseRef" <> c) ->
     forall s, In s data ->
       Study.caseref s <> c
       /\ (forall a, In a (Study.assets s) -> Asset.caseref a <> c)
       /\ (forall k, In k (Study.contracts s) -> Contract.caseref k <> c))
  /\ (forall s, In s data ->
        (forall row, In row ar -> field row "CaseRef" <> Study.caseref s) ->
        Study.assets s = [])
  /\ (forall s, In s data ->
        (forall row, In row cr -> field row "CaseRef" <> Study.caseref s) ->
        Study.contracts s = []).
Proof.
  intros H. destruct (main_children _ _ _ _ _ H) as (az & cs & Ha & Hc & Hall).
  split; [|split].
  - intros c Hno s Hs. destruct (Hall s Hs) as ((row & Hr & Hk) & Hcs & Has).
    assert (Hne : Study.caseref s <> c)
      by (rewrite <- Hk; now apply Hno).
    split; [exact Hne|]. split.
    + intros a Hin. rewrite Has in Hin.
      apply (proj1 (sort_by_In pair_leb asset_key _ _)) in Hin.
      apply children_of_In in Hin. destruct Hin as [_ ->]. exact Hne.
    + intros k Hin. rewrite Hcs in Hin.
      apply children_of_In in Hin. destruct Hin as [_ ->]. exact Hne.
  - intros s Hs Hno. destruct (Hall s Hs) as (_ & _ & ->).
    rewrite children_of_none; [reflexivity|].
    intros a Hin. destruct (rows_from_In _ _ _ _ _ Ha Hin) as (j & row & Hj & Hf).
    destruct (asset_of_row_caseref _ _ _ Hf) as [-> _].
    apply Hno. eapply nth_error_In. exact Hj.
  - intros s Hs Hno. destruct (Hall s Hs) as (_ & -> & _).
    apply children_of_none.
    intros c Hin. destruct (rows_from_In _ _ _ _ _ Hc Hin) as (j & row & Hj & Hf).
    destruct (contract_of_row_caseref _ _ _ Hf) as [-> _].
    apply Hno. eapply nth_error_In. exact Hj.
Qed.

Lemma orphans_dropped_witness :
  main sample_study_rows sample_orphan_rows [] = Ok ([], [sample_study])
  /\ In sample_study [sample_study]
  /\ Study.assets sample_study = [].
Proof.
  assert (H : main sample_study_rows sample_orphan_rows []
              = Ok ([], [sample_study])) by (vm_compute; reflexivity).
  assert (Hin : In sample_study [sample_study]) by (left; reflexivity).
  split; [exact H|]. split; [exact Hin|].
  refine (proj1 (proj2 (orphans_dropped _ _ _ _ _ H)) sample_study Hin _).
  intros row [<- | []]. vm_compute. discriminate.
Defined.

(** ** The validator: counting issues *)

Section Effect.
Variables (m x : string) (seen : vstate -> list string).
Hypothesis seen_add_error : forall st msg, seen (add_error st msg) = seen st.

Lemma effect_refl (st : vstate) : effect m x seen 0 st st.
Proof.
  unfold effect, dups. simpl. rewrite orb_false_r.
  destruct (mem x (seen st)); simpl; auto.
Qed.

Lemma effect_trans (n1 n2 : nat) (st st1 st2 : vstate) :
  effect m x seen n1 st st1 -> effect m x seen n2 st1 st2 ->
  effect m x seen (n1 + n2) st st2.
Proof.
  unfold effect, dups. intros [H1 H1'] [H2 H2']. rewrite H2, H2', H1, H1'.
  destruct (mem x (seen st)); destruct n1, n2; simpl; split;
    try reflexivity; lia.
Qed.

Lemma effect_then (n : nat) (st st1 st2 : vstate) :
  effect m x seen n st st1 -> effect m x seen 0 st1 st2 ->
  effect m x seen n st st2.
Proof.
  intros H1 H2. rewrite <- (Nat.add_0_r n). eapply effect_trans; eassumption.
Qed.

Lemma effect_fold {A} (f : vstate -> A -> vstate) (w : A -> nat) :
  (forall st a, effect m x seen (w a) st (f st a)) ->
  forall l st, effect m x seen (list_sum (map w l)) st (fold_left f l st).
Proof.
  intros Hf. induction l as [|a r IH]; intros st; simpl.
  - apply effect_refl.
  - eapply effect_trans; [apply Hf|apply IH].
Qed.

Lemma effect_fold_none {A} (f : vstate -> A -> vstate) :
  (forall st a, effect m x seen 0 st (f st a)) ->
  forall l st, effect m x seen 0 st (fold_left f l st).
Proof.
  intros Hf. induction l as [|a r IH]; intros st; simpl.
  - apply effect_refl.
  - eapply effect_then; [apply Hf|apply IH].
Qed.

Lemma count_msg_add_error (st : vstate) (msg : string) :
  count_msg m (add_error st msg)
  = count_msg m st + if string_dec msg m then 1 else 0.
Proof.
  unfold count_msg. simpl. rewrite count_occ_app. simpl.
  destruct (string_dec msg m); reflexivity.
Qed.

(** Another issue than [m] changes nothing. *)
Lemma effect_error_other (st : vstate) (msg : string) :
  msg <> m -> effect m x seen 0 st (add_error st msg).
Proof.
  intros Hn. unfold effect. rewrite count_msg_add_error, seen_add_error.
  destruct (string_dec msg m); [contradiction|].
  unfold dups. simpl. rewrite orb_false_r.
  destruct (mem x (seen st)); simpl; auto.
Qed.

(** The issue [m], raised for an identity seen before. *)
Lemma effect_error_hit (st : vstate) :
  mem x (seen st) = true -> effect m x seen 1 st (add_error st m).
Proof.
  intros Hm. unfold effect. rewrite count_msg_add_error, seen_add_error, Hm.
  destruct (string_dec m m); [|contradiction]. simpl. auto.
Qed.

(** The identity [x], seen for the first time. *)
Lemma effect_first (st st' : vstate) :
  errors st' = errors st -> seen st' = x :: seen st ->
  mem x (seen st) = false -> effect m x seen 1 st st'.
Proof.
  intros He Hs Hm. unfold effect, count_msg, mem in *. rewrite He, Hs. simpl.
  rewrite Hm, String.eqb_refl. simpl. auto.
Qed.

(** Another identity than [x] added to the set. *)
Lemma effect_seen_other (st st' : vstate) (y : string) :
  errors st' = errors st -> seen st' = y :: seen st -> y <> x ->
  effect m x seen 0 st st'.
Proof.
  intros He Hs Hn. unfold effect, count_msg, mem in *. rewrite He, Hs. simpl.
  destruct (String.eqb_spec x y) as [E|_]; [congruence|].
  simpl. rewrite orb_false_r. unfold dups.
  destruct (existsb _ _); simpl; auto.
Qed.

(** Neither the issues nor the set changed. *)
Lemma effect_same (st st' : vstate) :
  errors st' = errors st -> seen st' = seen st -> effect m x seen 0 st st'.
Proof.
  intros He Hs. unfold effect, count_msg. rewrite He, Hs. simpl.
  rewrite orb_false_r. unfold dups. destruct (mem x (seen st)); simpl; auto.
Qed.

Lemma effect_check_date (st : vstate) (d msg : string) :
  msg <> m -> effect m x seen 0 st (check_date d msg st).
Proof.
  intros Hn. unfold check_date.
  destruct (_ && _); [now apply effect_error_other|apply effect_refl].
Qed.
End Effect.

Lemma append_inj_l (p a b : string) : p ++ a = p ++ b -> a = b.
Proof.
  induction p as [|c p IH]; simpl; [auto|].
  intros H. injection H as H. auto.
Qed.

Lemma list_sum_hit (x : string) {A} (id : A -> string) (l : list A) :
  list_sum (map (fun a => hit x (id a)) l)
  = if truthy x then count_occ string_dec (map id l) x else 0.
Proof.
  unfold hit. induction l as [|a r IH]; simpl.
  - now destruct (truthy x).
  - rewrite IH. destruct (truthy x); simpl; [|reflexivity].
    destruct (String.eqb_spec (id a) x) as [E|Hn];
      destruct (string_dec (id a) x); try contradiction; reflexivity.
Qed.

Lemma list_sum_flat_map {A B} (f : A -> list B) (w : B -> nat) (l : list A) :
  list_sum (map (fun a => list_sum (map w (f a))) l)
  = list_sum (map w (flat_map f l)).
Proof.
  induction l as [|a r IH]; simpl; [reflexivity|].
  now rewrite map_app, list_sum_app, IH.
Qed.

(** Issues of the validator are told apart by how they start. *)
Ltac other_issue :=
  let H := fresh in
  intros H; unfold duplicate_case, duplicate_contract, duplicate_asset in H;
  simpl in H; discriminate H.

Lemma hit_same (x : string) : truthy x = true -> hit x x = 1.
Proof. intros H. unfold hit. now rewrite H, String.eqb_refl. Qed.

Lemma hit_other (x y : string) : y <> x -> hit x y = 0.
Proof.
  intros H. unfold hit. destruct (String.eqb_spec y x); [contradiction|].
  now rewrite andb_false_r.
Qed.

Lemma hit_empty (x : string) : hit x EmptyString = 0.
Proof. unfold hit. destruct x; reflexivity. Qed.

(** *** Duplicate contract identities *)

Section ContractIssue.
Variable x : string.
Local Abbreviation m := (duplicate_contract x).
Local Abbreviation eff := (effect m x seen_contract).

Lemma contract_step_contract (vd : bool) (cr : string) (st : vstate)
  (c : Contract.t) :
  eff (hit x (Contract.contract_sp_id c)) st (validate_contract vd cr st c).
Proof.
  unfold validate_contract. set (cref := Contract.contract_sp_id c).
  match goal with
  | |- context [check_date _ _ (check_date _ _ ?s)] => set (st1 := s)
  end.
  assert (H1 : eff (hit x cref) st st1).
  { unfold st1. destruct (truthy cref) eqn:Et; simpl.
    - destruct (mem cref (seen_contract st)) eqn:Em.
      + destruct (string_dec cref x) as [E|Hn].
        * rewrite E in *. rewrite hit_same by exact Et.
          now apply effect_error_hit.
        * rewrite hit_other by exact Hn. apply effect_error_other; auto.
          intros H.
          apply (append_inj_l "Duplicate contract_sp_id: " cref x) in H.
          contradiction.
      + destruct (string_dec cref x) as [E|Hn].
        * rewrite E in *. rewrite hit_same by exact Et.
          now apply effect_first.
        * rewrite hit_other by exact Hn.
          now apply (effect_seen_other m x seen_contract st _ cref).
    - apply truthy_false in Et. rewrite Et, hit_empty.
      apply effect_error_other; auto. other_issue. }
  destruct vd; [|exact H1].
  eapply effect_then; [|apply effect_check_date; [reflexivity|other_issue]].
  eapply effect_then; [exact H1|].
  apply effect_check_date; [reflexivity|other_issue].
Qed.

Lemma asset_step_contract (vd : bool) (cr : string) (st : vstate)
  (a : Asset.t) :
  eff 0 st (validate_asset vd cr st a).
Proof.
  unfold validate_asset. set (aref := Asset.asset_sp_id a).
  match goal with
  | |- context [check_date _ _ ?s] => set (st1 := s)
  end.
  assert (H1 : eff 0 st st1).
  { unfold st1. destruct (truthy aref); [|apply effect_refl; auto].
    destruct (mem aref (seen_asset st)).
    - apply effect_error_other; auto. other_issue.
    - now apply effect_same. }
  destruct vd; [|exact H1].
  eapply effect_then; [exact H1|].
  apply effect_check_date; [reflexivity|other_issue].
Qed.

Lemma study_step_contract (vd : bool) (st : vstate) (s : Study.t) :
  eff (list_sum (map (fun c => hit x (Contract.contract_sp_id c))
                   (Study.contracts s)))
      st (validate_study vd st s).
Proof.
  unfold validate_study.
  eapply effect_then; [|apply effect_fold_none; apply asset_step_contract].
  rewrite <- (Nat.add_0_l (list_sum _)).
  eapply effect_trans; [|apply effect_fold; apply contract_step_contract].
  destruct (truthy (Study.caseref s)); simpl.
  - destruct (mem _ _).
    + apply effect_error_other; auto. other_issue.
    + now apply effect_same.
  - apply effect_error_other; auto. other_issue.
Qed.

Lemma validate_contract_issues (data : list Study.t) (vd : bool) :
  count_occ string_dec (validate data vd) m
  = if truthy x then pred (count_contracts x data) else 0.
Proof.
  unfold validate.
  destruct (effect_fold m x seen_contract
              (validate_study vd) _ (study_step_contract vd)
              data validate_init) as [H _].
  unfold count_msg in H. rewrite H. simpl.
  rewrite (list_sum_flat_map Study.contracts
             (fun c => hit x (Contract.contract_sp_id c))).
  rewrite list_sum_hit. unfold count_contracts.
  destruct (truthy x); reflexivity.
Qed.
End ContractIssue.

(** *** Duplicate asset identities *)

Section AssetIssue.
Variable x : string.
Local Abbreviation m := (duplicate_asset x).
Local Abbreviation eff := (effect m x seen_asset).

Lemma contract_step_asset (vd : bool) (cr : string) (st : vstate)
  (c : Contract.t) :
  eff 0 st (validate_contract vd cr st c).
Proof.
  unfold validate_contract. set (cref := Contract.contract_sp_id c).
  match goal with
  | |- context [check_date _ _ (check_date _ _ ?s)] => set (st1 := s)
  end.
  assert (H1 : eff 0 st st1).
  { unfold st1. destruct (truthy cref); simpl.
    - destruct (mem cref (seen_contract st)).
      + apply effect_error_other; auto. other_issue.
      + now apply effect_same.
    - apply effect_error_other; auto. other_issue. }
  destruct vd; [|exact H1].
  eapply effect_then; [|apply effect_check_date; [reflexivity|other_issue]].
  eapply effect_then; [exact H1|].
  apply effect_check_date; [reflexivity|other_issue].
Qed.

Lemma asset_step_asset (vd : bool) (cr : string) (st : vstate)
  (a : Asset.t) :
  eff (hit x (Asset.asset_sp_id a)) st (validate_asset vd cr st a).
Proof.
  unfold validate_asset. set (aref := Asset.asset_sp_id a).
  match goal with
  | |- context [check_date _ _ ?s] => set (st1 := s)
  end.
  assert (H1 : eff (hit x aref) st st1).
  { unfold st1. destruct (truthy aref) eqn:Et.
    - destruct (mem aref (seen_asset st)) eqn:Em.
      + destruct (string_dec aref x) as [E|Hn].
        * rewrite E in *. rewrite hit_same by exact Et.
          now apply effect_error_hit.
        * rewrite hit_other by exact Hn. apply effect_error_other; auto.
          intros H.
          apply (append_inj_l "Duplicate asset_sp_id: " aref x) in H.
          contradiction.
      + destruct (string_dec aref x) as [E|Hn].
        * rewrite E in *. rewrite hit_same by exact Et.
          now apply effect_first.
        * rewrite hit_other by exact Hn.
          now apply (effect_seen_other m x seen_asset st _ aref).
    - apply truthy_false in Et. rewrite Et, hit_empty. apply effect_refl. }
  destruct vd; [|exact H1].
  eapply effect_then; [exact H1|].
  apply effect_check_date; [reflexivity|other_issue].
Qed.

Lemma study_step_asset (vd : bool) (st : vstate) (s : Study.t) :
  eff (list_sum (map (fun a => hit x (Asset.asset_sp_id a))
                   (Study.assets s)))
      st (validate_study vd st s).
Proof.
  unfold validate_study.
  rewrite <- (Nat.add_0_l (list_sum _)).
  eapply effect_trans; [|apply effect_fold; apply asset_step_asset].
  eapply effect_then; [|apply effect_fold_none; apply contract_step_asset].
  destruct (truthy (Study.caseref s)); simpl.
  - destruct (mem _ _).
    + apply effect_error_other; auto. other_issue.
    + now apply effect_same.
  - apply effect_error_other; auto. other_issue.
Qed.

Lemma validate_asset_issues (data : list Study.t) (vd : bool) :
  count_occ string_dec (validate data vd) m
  = if truthy x then pred (count_assets x data) else 0.
Proof.
  unfold validate.
  destruct (effect_fold m x seen_asset
              (validate_study vd) _ (study_step_asset vd)
              data validate_init) as [H _].
  unfold count_msg in H. rewrite H. simpl.
  rewrite (list_sum_flat_map Study.assets
             (fun a => hit x (Asset.asset_sp_id a))).
  rewrite list_sum_hit. unfold count_assets.
  destruct (truthy x); reflexivity.
Qed.
End AssetIssue.

(** *** Duplicate CaseRefs *)

Section CaseIssue.
Variable x : string.
Local Abbreviation m := (duplicate_case x).
Local Abbreviation eff := (effect m x seen_case).

Lemma contract_step_case (vd : bool) (cr : string) (st : vstate)
  (c : Contract.t) :
  eff 0 st (validate_contract vd cr st c).
Proof.
  unfold validate_contract. set (cref := Contract.contract_sp_id c).
  match goal with
  | |- context [check_date _ _ (check_date _ _ ?s)] => set (st1 := s)
  end.
  assert (H1 : eff 0 st st1).
  { unfold st1. destruct (truthy cref); simpl.
    - destruct (mem cref (seen_contract st)).
      + apply effect_error_other; auto. other_issue.
      + now apply effect_same.
    - apply effect_error_other; auto. other_issue. }
  destruct vd; [|exact H1].
  eapply effect_then; [|apply effect_check_date; [reflexivity|other_issue]].
  eapply effect_then; [exact H1|].
  apply effect_check_date; [reflexivity|other_issue].
Qed.

Lemma asset_step_case (vd : bool) (cr : string) (st : vstate)
  (a : Asset.t) :
  eff 0 st (validate_asset vd cr st a).
Proof.
  unfold validate_asset. set (aref := Asset.asset_sp_id a).
  match goal with
  | |- context [check_date _ _ ?s] => set (st1 := s)
  end.
  assert (H1 : eff 0 st st1).
  { unfold st1. destruct (truthy aref); [|apply effect_refl; auto].
    destruct (mem aref (seen_asset st)).
    - apply effect_error_other; auto. other_issue.
    - now apply effect_same. }
  destruct vd; [|exact H1].
  eapply effect_then; [exact H1|].
  apply effect_check_date; [reflexivity|other_issue].
Qed.

Lemma study_step_case (vd : bool) (st : vstate) (s : Study.t) :
  eff (hit x (Study.caseref s)) st (validate_study vd st s).
Proof.
  unfold validate_study. set (cr := Study.caseref s).
  eapply effect_then; [|apply effect_fold_none; apply asset_step_case].
  eapply effect_then; [|apply effect_fold_none; apply contract_step_case].
  destruct (truthy cr) eqn:Et; simpl.
  - destruct (mem cr (seen_case st)) eqn:Em.
    + destruct (string_dec cr x) as [E|Hn].
      * rewrite E in *. rewrite hit_same by exact Et.
        now apply effect_error_hit.
      * rewrite hit_other by exact Hn. apply effect_error_other; auto.
        intros H.
        apply (append_inj_l "Duplicate CaseRef in merged data: " cr x) in H.
        contradiction.
    + destruct (string_dec cr x) as [E|Hn].
      * rewrite E in *. rewrite hit_same by exact Et.
        now apply effect_first.
      * rewrite hit_other by exact Hn.
        now apply (effect_seen_other m x seen_case st _ cr).
  - apply truthy_false in Et. rewrite Et, hit_empty.
    apply effect_error_other; auto. other_issue.
Qed.

Lemma validate_case_issues (data : list Study.t) (vd : bool) :
  count_occ string_dec (validate data vd) m
  = if truthy x
    then pred (count_occ string_dec (map Study.caseref data) x) else 0.
Proof.
  unfold validate.
  destruct (effect_fold m x seen_case
              (validate_study vd) _ (study_step_case vd)
              data validate_init) as [H _].
  unfold count_msg in H. rewrite H. simpl.
  rewrite (list_sum_hit x Study.caseref).
  destruct (truthy x); reflexivity.
Qed.
End CaseIssue.

(** ** Uniqueness issues *)

(** C6.  The validator is a total function to the list of issues.  For an
    identity that is not empty, the issue that names it as a duplicate
    contract is in the list once for each contract with that identity after
    the first, so exactly once when two contracts have it; the same holds
    for assets; and no issue names the empty asset identity, however many
    assets have it. *)
Theorem validate_uniqueness (data : list Study.t) (validate_dates : bool)
  (x : string) :
  x <> EmptyString ->
  count_occ string_dec (validate data validate_dates) (duplicate_contract x)
  = pred (count_contracts x data)
  /\ (count_contracts x data = 2 ->
      count_occ string_dec (validate data validate_dates)
        (duplicate_contract x) = 1)
  /\ count_occ string_dec (validate data validate_dates) (duplicate_asset x)
     = pred (count_assets x data)
  /\ (2 <= count_assets x data ->
      In (duplicate_asset x) (validate data validate_dates))
  /\ count_occ string_dec (validate data validate_dates)
       (duplicate_asset EmptyString) = 0.
Proof.
  intros Hx. apply truthy_true in Hx.
  pose proof (validate_contract_issues x data validate_dates) as Hc.
  pose proof (validate_asset_issues x data validate_dates) as Ha.
  rewrite Hx in Hc, Ha.
  split; [exact Hc|]. split; [intros H2; rewrite Hc, H2; reflexivity|].
  split; [exact Ha|]. split.
  - intros H2. apply (count_occ_In string_dec). rewrite Ha. lia.
  - apply (validate_asset_issues EmptyString).
Qed.

Lemma validate_uniqueness_witness :
  "C1" <> EmptyString
  /\ count_contracts "C1" sample_duplicate_data = 2
  /\ count_occ string_dec (validate sample_duplicate_data true)
       (duplicate_contract "C1") = 1.
Proof.
  assert (H1 : "C1" <> EmptyString) by discriminate.
  assert (H2 : count_contracts "C1" sample_duplicate_data = 2)
    by (vm_compute; reflexivity).
  split; [exact H1|]. split; [exact H2|].
  exact (proj1 (proj2
    (validate_uniqueness sample_duplicate_data true "C1" H1)) H2).
Defined.

(** ** Study rows with the same CaseRef *)

Lemma file_studies_caserefs (rows : list Row) :
  map (fun item : string * Study.t => Study.caseref (snd item))
      (file_studies rows [])
  = dict_keys (file_studies rows []).
Proof.
  unfold dict_keys. apply map_ext_in. intros [k st] Hin.
  destruct (file_studies_keyed _ _ _ Hin) as [H _]. exact H.
Qed.

Lemma last_row_with_Some (c : string) (rows : list Row) :
  (exists row, last_row_with c rows = Some row)
  <-> exists row, In row rows /\ field row "CaseRef" = c.
Proof.
  unfold last_row_with. split.
  - intros [row H]. apply find_some in H. destruct H as [Hin Heq].
    exists row. split; [now apply in_rev|now apply String.eqb_eq].
  - intros (row & Hin & Heq).
    destruct (find _ (rev rows)) as [r|] eqn:E; [eauto|].
    apply in_rev in Hin. apply (find_none _ _ E row) in Hin.
    rewrite Heq, String.eqb_refl in Hin. discriminate.
Qed.

Lemma NoDup_count_occ_le (l : list string) (x : string) :
  NoDup l -> count_occ string_dec l x <= 1.
Proof.
  intros H. now apply (proj1 (NoDup_count_occ string_dec l)).
Qed.

(** C10.  Study rows that all have a CaseRef are read without error; each
    CaseRef is filed once, with the record of the last row that carries it;
    so the studies of the import have pairwise distinct CaseRefs, one for
    each CaseRef of the file, and the validator reports no duplicate
    CaseRef for them. *)
Theorem duplicate_caseref_last_wins (rows : list Row) :
  (forall r, In r rows -> blank (row_get r "CaseRef") = false) ->
  exists studies,
    read_studies rows = Ok studies
    /\ NoDup (dict_keys studies)
    /\ (forall c, dict_get studies c
                  = option_map (study_of_row c) (last_row_with c rows))
    /\ forall abc cbc validate_dates,
         NoDup (map Study.caseref (build_import_json studies abc cbc))
         /\ (forall c, In c (map Study.caseref
                               (build_import_json studies abc cbc))
                       <-> exists row, In row rows
                                       /\ field row "CaseRef" = c)
         /\ forall c, ~ In (duplicate_case c)
                         (validate (build_import_json studies abc cbc)
                            validate_dates).
Proof.
  intros Hnb. exists (file_studies rows []).
  assert (Hget : forall c, dict_get (file_studies rows []) c
                  = option_map (study_of_row c) (last_row_with c rows)).
  { intros c. rewrite file_studies_get.
    destruct (last_row_with c rows); reflexivity. }
  assert (Hnd : NoDup (dict_keys (file_studies rows [])))
    by (apply file_studies_NoDup; constructor).
  split; [|split; [exact Hnd|split; [exact Hget|]]].
  - unfold read_studies. apply read_studies_from_ok.
    intros r Hr E. apply field_blank in E. rewrite (Hnb r Hr) in E.
    discriminate.
  - intros abc cbc vd.
    pose proof (build_import_json_caserefs (file_studies rows []) abc cbc)
      as Hperm.
    rewrite file_studies_caserefs in Hperm.
    assert (Hnd' : NoDup (map Study.caseref
                     (build_import_json (file_studies rows []) abc cbc)))
      by (eapply Permutation_NoDup; [symmetry; exact Hperm|exact Hnd]).
    split; [exact Hnd'|]. split.
    + intros c. rewrite <- last_row_with_Some. split.
      * intros Hin. apply (Permutation_in _ Hperm) in Hin.
        destruct (dict_get (file_studies rows []) c) as [st|] eqn:E.
        -- rewrite Hget in E. destruct (last_row_with c rows); [eauto|].
           discriminate.
        -- apply dict_get_None in E. contradiction.
      * intros [row Hrow].
        apply (Permutation_in _ (Permutation_sym Hperm)).
        destruct (in_dec string_dec c (dict_keys (file_studies rows [])))
          as [Hin|Hn]; [exact Hin|].
        apply dict_get_None in Hn. rewrite Hget, Hrow in Hn. discriminate.
    + intros c. apply (count_occ_not_In string_dec).
      rewrite validate_case_issues. destruct (truthy c); [|reflexivity].
      pose proof (NoDup_count_occ_le _ c Hnd'). lia.
Qed.

Lemma duplicate_caseref_last_wins_witness :
  exists studies,
    read_studies sample_duplicate_study_rows = Ok studies
    /\ option_map Study.title (dict_get studies "S1") = Some "second".
Proof.
  destruct (duplicate_caseref_last_wins sample_duplicate_study_rows)
    as (studies & Hread & _ & Hget & _).
  - intros r [<- | [<- | []]]; reflexivity.
  - exists studies. split; [exact Hread|]. rewrite Hget. reflexivity.
Defined.

(** ** Dates *)

Import PyDate.

Lemma make_date_real (y m d : Z) (dt : date) :
  make_date y m d = Some dt
  <-> real_date y m d /\ dt = {| year := y; month := m; day := d |}.
Proof.
  unfold make_date, real_date.
  destruct (_ && _) eqn:E.
  - rewrite !andb_true_iff, !Z.leb_le in E.
    split; [|intros [_ ->]; reflexivity].
    intros H; injection H as <-. split; [lia|reflexivity].
  - split; [discriminate|]. intros [(Hy & Hm & Hd) _].
    rewrite !andb_false_iff, !Z.leb_gt in E. lia.
Qed.

Lemma nat_of_digit (a : ascii) :
  is_digit a = true ->
  a = ascii_of_nat (48 + digit_val a) /\ digit_val a < 10.
Proof.
  unfold is_digit, digit_val. intros H. apply andb_true_iff in H.
  destruct H as [H1 H2]. apply Nat.leb_le in H1, H2.
  split; [|lia].
  replace (48 + (nat_of_ascii a - 48)) with (nat_of_ascii a) by lia.
  symmetry. apply ascii_nat_embedding.
Qed.

Lemma in_range_digit (lo hi : nat) (a : ascii) :
  48 <= lo -> hi <= 57 -> in_range lo hi a = true ->
  is_digit a = true /\ lo - 48 <= digit_val a <= hi - 48.
Proof.
  unfold in_range, is_digit, digit_val. intros Hlo Hhi H.
  apply andb_true_iff in H. destruct H as [H1 H2].
  apply Nat.leb_le in H1, H2. split; [|lia].
  apply andb_true_iff. split; apply Nat.leb_le; lia.
Qed.

Lemma digit_char_dval (a : ascii) :
  is_digit a = true -> digit_char (dval a) = a.
Proof.
  intros H. destruct (nat_of_digit a H) as [Ha Hlt].
  unfold digit_char, dval. rewrite Z.mod_small by lia.
  rewrite Nat2Z.id. now rewrite <- Ha.
Qed.

Lemma digit_char_mod (k k' : Z) :
  (k mod 10 = k' mod 10)%Z -> digit_char k = digit_char k'.
Proof. unfold digit_char. now intros ->. Qed.

Lemma dval_range (a : ascii) :
  is_digit a = true -> (0 <= dval a <= 9)%Z.
Proof. intros H. destruct (nat_of_digit a H). unfold dval. lia. Qed.

Lemma pad2_digits (a b : ascii) :
  is_digit a = true -> is_digit b = true ->
  pad2 (10 * dval a + dval b) = String a (String b EmptyString).
Proof.
  intros Ha Hb. pose proof (dval_range a Ha). pose proof (dval_range b Hb).
  unfold pad2. f_equal; [|f_equal].
  - etransitivity; [|exact (digit_char_dval a Ha)]. apply digit_char_mod.
    Z.div_mod_to_equations; lia.
  - etransitivity; [|exact (digit_char_dval b Hb)]. apply digit_char_mod.
    Z.div_mod_to_equations; lia.
Qed.

Lemma pad4_digits (a b c d : ascii) :
  is_digit a = true -> is_digit b = true ->
  is_digit c = true -> is_digit d = true ->
  pad4 (1000 * dval a + 100 * dval b + 10 * dval c + dval d)
  = String a (String b (String c (String d EmptyString))).
Proof.
  intros Ha Hb Hc Hd.
  pose proof (dval_range a Ha). pose proof (dval_range b Hb).
  pose proof (dval_range c Hc). pose proof (dval_range d Hd).
  unfold pad4. f_equal; [|f_equal; [|f_equal; [|f_equal]]].
  - etransitivity; [|exact (digit_char_dval a Ha)]. apply digit_char_mod.
    Z.div_mod_to_equations; lia.
  - etransitivity; [|exact (digit_char_dval b Hb)]. apply digit_char_mod.
    Z.div_mod_to_equations; lia.
  - etransitivity; [|exact (digit_char_dval c Hc)]. apply digit_char_mod.
    Z.div_mod_to_equations; lia.
  - etransitivity; [|exact (digit_char_dval d Hd)]. apply digit_char_mod.
    Z.div_mod_to_equations; lia.
Qed.

Lemma digit_of_nat (n : nat) :
  n < 10 ->
  is_digit (ascii_of_nat (48 + n)) = true
  /\ digit_val (ascii_of_nat (48 + n)) = n.
Proof.
  intros Hn. do 10 (destruct n as [|n]; [split; reflexivity|]). lia.
Qed.

Lemma digit_char_digit (k : Z) :
  is_digit (digit_char k) = true /\ dval (digit_char k) = (k mod 10)%Z.
Proof.
  unfold digit_char, dval.
  assert (H : (0 <= k mod 10 < 10)%Z) by (apply Z.mod_pos_bound; lia).
  destruct (digit_of_nat (Z.to_nat (k mod 10))) as [H1 H2]; [lia|].
  split; [exact H1|]. rewrite H2. lia.
Qed.

Lemma of_nat_digit (a : ascii) :
  in_range 49 57 a = true ->
  String a EmptyString = of_nat (Z.to_nat (dval a)) /\ (1 <= dval a <= 9)%Z.
Proof.
  intros H. destruct (in_range_digit 49 57 a) as [Hd Hr]; [lia|lia|exact H|].
  destruct (nat_of_digit a Hd) as [Ha _]. unfold dval.
  rewrite Nat2Z.id. split; [|lia]. rewrite Ha at 1.
  destruct Hr as [H1 H2]. revert H1 H2. generalize (digit_val a). intros n H1 H2.
  do 10 (destruct n as [|n]; [try reflexivity; lia|]). lia.
Qed.

(** *** What the matchers accept *)

Lemma two_sound (lo1 hi1 lo2 hi2 : nat) (s r : string) (n : Z) :
  48 <= lo1 -> hi1 <= 57 -> 48 <= lo2 -> hi2 <= 57 ->
  In (n, r) (two lo1 hi1 lo2 hi2 s) ->
  s = pad2 n ++ r
  /\ (10 * Z.of_nat (lo1 - 48) + Z.of_nat (lo2 - 48) <= n
      <= 10 * Z.of_nat (hi1 - 48) + Z.of_nat (hi2 - 48))%Z.
Proof.
  intros L1 H1 L2 H2. unfold two.
  destruct s as [|a [|b t]]; try (intros []).
  destruct (in_range lo1 hi1 a) eqn:Ea; [|intros []].
  destruct (in_range lo2 hi2 b) eqn:Eb; [|intros []].
  intros [E | []]. apply pair_equal_spec in E. destruct E as [<- <-].
  destruct (in_range_digit _ _ _ L1 H1 Ea) as [Da Ra].
  destruct (in_range_digit _ _ _ L2 H2 Eb) as [Db Rb].
  rewrite pad2_digits by assumption. split; [reflexivity|].
  unfold dval. lia.
Qed.

Lemma one_sound (s r : string) (n : Z) :
  In (n, r) (one 49 57 s) ->
  s = of_nat (Z.to_nat n) ++ r /\ (1 <= n <= 9)%Z.
Proof.
  unfold one. destruct s as [|a t]; [intros []|].
  destruct (in_range 49 57 a) eqn:Ea; [|intros []].
  intros [E | []]. apply pair_equal_spec in E. destruct E as [<- <-].
  destruct (of_nat_digit a Ea) as [<- Hr]. auto.
Qed.

Lemma space_one_sound (lo hi : nat) (s r : string) (n : Z) :
  In (n, r) (space_one lo hi s) -> exists t, s = String " " t.
Proof.
  unfold space_one. destruct s as [|a [|b t]]; try (intros []).
  destruct (Ascii.eqb_spec a " ") as [->|]; [|intros []]. eauto.
Qed.

Lemma re_d_sound (s r : string) (d : Z) :
  In (d, r) (re_d s) ->
  (exists t, numeral 31 d t /\ s = t ++ r) \/ (exists t, s = String " " t).
Proof.
  unfold re_d. rewrite !in_app_iff.
  intros [H | [H | [H | [H | H]]]].
  - apply two_sound in H; try lia. destruct H as [-> Hr].
    left. exists (pad2 d). split; [split; [simpl in Hr; lia|now left]|auto].
  - apply two_sound in H; try lia. destruct H as [-> Hr].
    left. exists (pad2 d). split; [split; [simpl in Hr; lia|now left]|auto].
  - apply two_sound in H; try lia. destruct H as [-> Hr].
    left. exists (pad2 d). split; [split; [simpl in Hr; lia|now left]|auto].
  - apply one_sound in H. destruct H as [-> Hr].
    left. exists (of_nat (Z.to_nat d)).
    split; [split; [lia|right; split; [lia|reflexivity]]|reflexivity].
  - right. eapply space_one_sound. exact H.
Qed.

Lemma re_m_sound (s r : string) (m : Z) :
  In (m, r) (re_m s) -> exists t, numeral 12 m t /\ s = t ++ r.
Proof.
  unfold re_m. rewrite !in_app_iff.
  intros [H | [H | H]].
  - apply two_sound in H; try lia. destruct H as [-> Hr].
    exists (pad2 m). split; [split; [simpl in Hr; lia|now left]|auto].
  - apply two_sound in H; try lia. destruct H as [-> Hr].
    exists (pad2 m). split; [split; [simpl in Hr; lia|now left]|auto].
  - apply one_sound in H. destruct H as [-> Hr].
    exists (of_nat (Z.to_nat m)).
    split; [split; [lia|right; split; [lia|reflexivity]]|reflexivity].
Qed.

Lemma re_Y_sound (s r : string) (y : Z) :
  In (y, r) (re_Y s) -> (0 <= y <= 9999)%Z /\ s = pad4 y ++ r.
Proof.
  unfold re_Y. destruct s as [|a [|b [|c [|d t]]]]; try (intros []).
  destruct (is_digit a) eqn:Ea; [|intros []].
  destruct (is_digit b) eqn:Eb; [|intros []].
  destruct (is_digit c) eqn:Ec; [|intros []].
  destruct (is_digit d) eqn:Ed; [|intros []].
  intros [E | []]. apply pair_equal_spec in E. destruct E as [<- <-].
  rewrite pad4_digits by assumption.
  pose proof (dval_range a Ea). pose proof (dval_range b Eb).
  pose proof (dval_range c Ec). pose proof (dval_range d Ed).
  split; [lia|reflexivity].
Qed.

Lemma lit_sound (c : ascii) (s r : string) :
  In r (lit c s) -> s = String c r.
Proof.
  unfold lit. destruct s as [|a t]; [intros []|].
  destruct (Ascii.eqb_spec a c) as [->|]; [|intros []].
  intros [-> | []]. reflexivity.
Qed.

Lemma bind_then_sep (sep : ascii) {Y} (f : Z -> string -> list Y)
  (ms : list (Z * string)) :
  bind ms (fun '(v, s1) => bind (lit sep s1) (f v))
  = bind (then_sep sep ms) (fun '(v, s2) => f v s2).
Proof.
  unfold bind, then_sep. induction ms as [|[v s1] ms IH]; simpl;
    [reflexivity|].
  rewrite flat_map_app, IH. f_equal.
  induction (lit sep s1) as [|s2 l IHl]; simpl; [reflexivity|].
  now rewrite IHl.
Qed.

(** A day, then the separator: the alternatives that stop short of the
    separator are given up. *)
Lemma re_d_then (sep : ascii) (d : Z) (t r : string) :
  (sep = "/" \/ sep = "-")%char ->
  numeral 31 d t ->
  then_sep sep (re_d (t ++ String sep r)) = [(d, r)].
Proof.
  intros Hsep [Hr Ht]. remember (Z.to_nat d) as n eqn:En.
  assert (Hd : d = Z.of_nat n) by lia. clear En. subst d.
  destruct Hsep as [-> | ->]; destruct Ht as [-> | [H9 ->]].
  - do 32 (destruct n as [|n]; [try (vm_compute; reflexivity); lia|]). lia.
  - do 10 (destruct n as [|n]; [try (vm_compute; reflexivity); lia|]). lia.
  - do 32 (destruct n as [|n]; [try (vm_compute; reflexivity); lia|]). lia.
  - do 10 (destruct n as [|n]; [try (vm_compute; reflexivity); lia|]). lia.
Qed.

Lemma re_m_then (sep : ascii) (m : Z) (t r : string) :
  (sep = "/" \/ sep = "-")%char ->
  numeral 12 m t ->
  then_sep sep (re_m (t ++ String sep r)) = [(m, r)].
Proof.
  intros Hsep [Hr Ht]. remember (Z.to_nat m) as n eqn:En.
  assert (Hd : m = Z.of_nat n) by lia. clear En. subst m.
  destruct Hsep as [-> | ->]; destruct Ht as [-> | [H9 ->]].
  - do 13 (destruct n as [|n]; [try (vm_compute; reflexivity); lia|]). lia.
  - do 10 (destruct n as [|n]; [try (vm_compute; reflexivity); lia|]). lia.
  - do 13 (destruct n as [|n]; [try (vm_compute; reflexivity); lia|]). lia.
  - do 10 (destruct n as [|n]; [try (vm_compute; reflexivity); lia|]). lia.
Qed.

Lemma re_Y_complete (y : Z) (r : string) :
  (0 <= y <= 9999)%Z -> re_Y (pad4 y ++ r) = [(y, r)].
Proof.
  intros Hy. unfold pad4. cbn [append]. unfold re_Y.
  destruct (digit_char_digit (y / 1000)) as [-> ->].
  destruct (digit_char_digit (y / 100)) as [-> ->].
  destruct (digit_char_digit (y / 10)) as [-> ->].
  destruct (digit_char_digit y) as [-> ->]. cbn [andb].
  do 2 f_equal. Z.div_mod_to_equations; lia.
Qed.

(** *** [strptime] with the day first *)

Lemma bind_single {X Y : Type} (x : X) (f : X -> list Y) :
  bind [x] f = f x.
Proof. unfold bind. simpl. apply app_nil_r. Qed.

Lemma bind_In {X Y : Type} (l : list X) (f : X -> list Y) (y : Y) :
  In y (bind l f) <-> exists x, In x l /\ In y (f x).
Proof. apply in_flat_map. Qed.

Lemma append_empty_r (s : string) : s ++ EmptyString = s.
Proof. induction s; simpl; congruence. Qed.

Lemma append_assoc (s t u : string) : (s ++ t) ++ u = s ++ t ++ u.
Proof. induction s; simpl; congruence. Qed.

Lemma strptime_dmy_sound (s : string) (dt : date) :
  strptime_dmy s = Some dt ->
  (exists y m d,
     dmy_text s y m d /\ real_date y m d
     /\ dt = {| year := y; month := m; day := d |})
  \/ exists t, s = String " " t.
Proof.
  unfold strptime_dmy.
  match goal with |- finish ?l = _ -> _ => remember l as ms eqn:E end.
  destruct ms as [|[[[y m] d] rest] ms]; [discriminate|].
  simpl. destruct rest; [|discriminate]. intros Hmk.
  apply make_date_real in Hmk. destruct Hmk as [Hreal ->].
  assert (Hin : In (y, m, d, EmptyString) ((y, m, d, EmptyString) :: ms))
    by now left.
  rewrite E in Hin. clear E.
  apply bind_In in Hin. destruct Hin as ([d' s1] & Hd & Hin).
  apply bind_In in Hin. destruct Hin as (s2 & H1 & Hin).
  apply bind_In in Hin. destruct Hin as ([m' s3] & Hm & Hin).
  apply bind_In in Hin. destruct Hin as (s4 & H2 & Hin).
  apply bind_In in Hin. destruct Hin as ([y' s5] & Hy & Hin).
  destruct Hin as [Heq | []].
  apply pair_equal_spec in Heq. destruct Heq as [Heq ->].
  apply pair_equal_spec in Heq. destruct Heq as [Heq ->].
  apply pair_equal_spec in Heq. destruct Heq as [-> ->].
  apply re_Y_sound in Hy. destruct Hy as [Hy ->].
  apply lit_sound in H2. subst s3.
  apply re_m_sound in Hm. destruct Hm as (mt & Hm & ->).
  apply lit_sound in H1. subst s1.
  apply re_d_sound in Hd. destruct Hd as [(t & Hd & ->) | Hsp]; [|now right].
  left. exists y, m, d. split; [|auto].
  exists t, mt.
  split; [exact Hd|split; [exact Hm|split; [lia|]]].
  cbn [append]. now rewrite append_empty_r.
Qed.

Lemma strptime_dmy_complete (s : string) (y m d : Z) :
  dmy_text s y m d -> strptime_dmy s = make_date y m d.
Proof.
  intros (dt & mt & Hd & Hm & Hy & ->). unfold strptime_dmy.
  cbn [append].
  rewrite (bind_then_sep "/"
    (fun d' s2 =>
       bind (re_m s2) (fun '(m', s3) =>
       bind (lit "/" s3) (fun s4 =>
       bind (re_Y s4) (fun '(y', s5) => [(y', m', d', s5)]))))).
  rewrite (re_d_then "/" d dt) by auto. rewrite bind_single.
  rewrite (bind_then_sep "/"
    (fun m' s4 => bind (re_Y s4) (fun '(y', s5) => [(y', m', d, s5)]))).
  rewrite (re_m_then "/" m mt) by auto. rewrite bind_single.
  rewrite <- (append_empty_r (pad4 y)), re_Y_complete by exact Hy.
  rewrite bind_single. reflexivity.
Qed.

Lemma strip_head (s : string) (c : ascii) (r : string) :
  strip s = String c r -> isspace c = false.
Proof.
  unfold strip. intros H. destruct (rstrip_head _ _ _ H) as [r' Hr'].
  eapply lstrip_head. exact Hr'.
Qed.

Lemma blank_strip (raw : option string) :
  blank raw = negb (truthy (strip (or_empty raw))).
Proof.
  destruct (blank raw) eqn:E.
  - destruct raw as [s|]; simpl in *; [|reflexivity].
    apply strip_empty in E. now rewrite E.
  - destruct raw as [s|]; simpl in *; [|discriminate].
    destruct (strip s) eqn:Es; [|reflexivity].
    apply strip_empty in Es. congruence.
Qed.

Lemma is_digit_not_space (c : ascii) :
  is_digit c = true -> isspace c = false.
Proof.
  intros H. destruct c as [[] [] [] [] [] [] [] []];
    vm_compute in H |- *; first [discriminate H|reflexivity].
Qed.

Lemma to_uint_nonnil (n : nat) : Nat.to_uint n <> Decimal.Nil.
Proof.
  rewrite <- (DecimalNat.Unsigned.of_to n) at 1.
  rewrite DecimalNat.Unsigned.to_of. apply DecimalFacts.unorm_nonnil.
Qed.

Lemma rstrip_last (s : string) (c : ascii) :
  isspace c = false ->
  rstrip (s ++ String c EmptyString) = s ++ String c EmptyString.
Proof.
  intros Hc.
  assert (H : rstrip (String c EmptyString) = String c EmptyString)
    by (simpl; now rewrite Hc).
  rewrite rstrip_app; rewrite H; [reflexivity|discriminate].
Qed.

(** *** The year as [strftime] writes it *)

Lemma year_text_four (y : Z) :
  (1000 <= y <= 9999)%Z -> of_nat (Z.to_nat y) = pad4 y.
Proof.
  intros H.
  assert (Hall : forallb
                   (fun n => String.eqb (of_nat n) (pad4 (Z.of_nat n)))
                   (seq 1000 (90 * 100)) = true)
    by (vm_compute; reflexivity).
  rewrite forallb_forall in Hall. specialize (Hall (Z.to_nat y)).
  rewrite in_seq, Z2Nat.id in Hall by lia. apply String.eqb_eq, Hall. lia.
Qed.

Lemma year_text_short (n : nat) :
  n < 1000 -> String.length (of_nat n) <= 3.
Proof.
  intros H.
  assert (Hall : forallb (fun k => String.length (of_nat k) <=? 3)
                   (seq 0 1000) = true) by (vm_compute; reflexivity).
  rewrite forallb_forall in Hall. apply Nat.leb_le, Hall, in_seq. lia.
Qed.

(** A hyphen among the first four characters: [%Y] does not match. *)
Lemma re_Y_short (t r : string) :
  String.length t <= 3 -> re_Y (t ++ String "-" r) = [].
Proof.
  destruct t as [|a [|b [|c [|d t]]]]; simpl String.length; intros H;
    try lia; cbn [append]; unfold re_Y;
    destruct r as [|x [|y [|z r]]]; try reflexivity;
    change (is_digit "-") with false;
    rewrite ?andb_false_r; reflexivity.
Qed.

Lemma strftime_iso (y m d : Z) :
  (1000 <= y <= 9999)%Z ->
  strftime_ymd {| year := y; month := m; day := d |} = iso y m d.
Proof.
  intros H. unfold strftime_ymd, iso. cbn [year month day].
  now rewrite year_text_four.
Qed.

Lemma strptime_strftime_short (dt : date) :
  (year dt < 1000)%Z -> strptime_ymd (strftime_ymd dt) = None.
Proof.
  intros H. unfold strptime_ymd, strftime_ymd.
  change (of_nat (Z.to_nat (year dt)) ++ "-" ++ pad2 (month dt) ++ "-"
          ++ pad2 (day dt))
    with (of_nat (Z.to_nat (year dt))
          ++ String "-" (pad2 (month dt) ++ "-" ++ pad2 (day dt))).
  rewrite re_Y_short; [reflexivity|]. apply year_text_short. lia.
Qed.

Lemma strip_strftime (dt : date) : strip (strftime_ymd dt) = strftime_ymd dt.
Proof.
  assert (Hn : forall k, isspace (digit_char k) = false)
    by (intros k; apply is_digit_not_space; apply digit_char_digit).
  assert (Hd : rstrip (pad2 (day dt)) = pad2 (day dt)).
  { change (pad2 (day dt))
      with (String (digit_char (day dt / 10)) EmptyString
            ++ String (digit_char (day dt)) EmptyString).
    apply rstrip_last, Hn. }
  assert (Hr : rstrip (strftime_ymd dt) = strftime_ymd dt).
  { unfold strftime_ymd.
    assert (E : of_nat (Z.to_nat (year dt)) ++ "-" ++ pad2 (month dt) ++ "-"
                ++ pad2 (day dt)
                = (of_nat (Z.to_nat (year dt)) ++ "-" ++ pad2 (month dt)
                   ++ "-") ++ pad2 (day dt)).
    { rewrite !append_assoc. reflexivity. }
    rewrite E. rewrite rstrip_app.
    - rewrite Hd. reflexivity.
    - rewrite Hd. unfold pad2. discriminate. }
  revert Hr. unfold strftime_ymd, of_nat.
  pose proof (to_uint_nonnil (Z.to_nat (year dt))) as Hnil.
  destruct (Nat.to_uint (Z.to_nat (year dt))); [contradiction|..].
  all: cbn [NilEmpty.string_of_uint append].
  all: intros Hr.
  all: (apply strip_fixed; [reflexivity|exact Hr]).
Qed.

Lemma validate_strftime_short (dt : date) :
  (year dt < 1000)%Z -> validate_json_date (strftime_ymd dt) = None.
Proof.
  intros H. unfold validate_json_date. rewrite strip_strftime.
  destruct (negb _); [reflexivity|]. now apply strptime_strftime_short.
Qed.

Lemma strftime_short_not_iso (y m d : Z) :
  (0 <= y < 1000)%Z ->
  strftime_ymd {| year := y; month := m; day := d |} <> iso y m d.
Proof.
  intros H E. apply (f_equal re_Y) in E. unfold strftime_ymd, iso in E.
  cbn [year month day] in E.
  change (of_nat (Z.to_nat y) ++ "-" ++ pad2 m ++ "-" ++ pad2 d)
    with (of_nat (Z.to_nat y) ++ String "-" (pad2 m ++ "-" ++ pad2 d)) in E.
  rewrite re_Y_short in E by (apply year_text_short; lia).
  rewrite re_Y_complete in E by lia. discriminate.
Qed.

(** The flexible parser accepts the day/month/year texts and no other. *)
Lemma parse_date_spec (raw : option string) (r : string) :
  parse_date raw = Some r
  <-> exists y m d,
        dmy_text (strip (or_empty raw)) y m d /\ real_date y m d
        /\ r = strftime_ymd {| year := y; month := m; day := d |}.
Proof.
  unfold parse_date. set (s := strip (or_empty raw)). split.
  - destruct (truthy s); simpl; [|discriminate].
    destruct (strptime_dmy s) as [dt|] eqn:E; [|discriminate].
    intros H. injection H as <-.
    destruct (strptime_dmy_sound s dt E)
      as [(y & m & d & Ht & Hr & ->) | [t Ht]].
    + exists y, m, d. auto.
    + apply strip_head in Ht. discriminate.
  - intros (y & m & d & Ht & Hr & ->).
    rewrite (strptime_dmy_complete s y m d Ht).
    destruct Ht as (dt & mt & _ & _ & _ & Hs).
    assert (Hne : truthy s = true).
    { rewrite Hs. destruct dt; reflexivity. }
    rewrite Hne. simpl.
    destruct (make_date y m d) as [dt'|] eqn:E.
    + apply make_date_real in E. destruct E as [_ ->]. reflexivity.
    + exfalso.
      assert (H : make_date y m d
                  = Some {| year := y; month := m; day := d |})
        by (apply make_date_real; auto).
      congruence.
Qed.

Lemma parse_date_blank (raw : option string) :
  blank raw = true -> parse_date raw = None.
Proof.
  intros H. unfold parse_date. rewrite blank_strip in H.
  apply negb_true_iff in H. now rewrite H.
Qed.

(** *** Strict mode of the readers *)

Lemma asset_of_row_strict (i : nat) (row : Row) :
  blank (row_get row "CaseRef") = false ->
  blank (row_get row "Next Scheduled Review") = false ->
  parse_date (row_get row "Next Scheduled Review") = None ->
  asset_of_row i row
  = Raise (InvalidDate "assets.csv" i
             (or_empty (row_get row "Next Scheduled Review"))).
Proof.
  intros Hc Hb Hp. rewrite blank_strip in Hc, Hb.
  apply negb_false_iff in Hc, Hb.
  unfold asset_of_row, field. now rewrite Hc, Hb, Hp.
Qed.

Lemma contract_of_row_strict_start (i : nat) (row : Row) :
  blank (row_get row "CaseRef") = false ->
  blank (row_get row "Agreement date") = false ->
  parse_date (row_get row "Agreement date") = None ->
  contract_of_row i row
  = Raise (InvalidDate "contracts.csv" i
             (or_empty (row_get row "Agreement date"))).
Proof.
  intros Hc Hb Hp. rewrite blank_strip in Hc, Hb.
  apply negb_false_iff in Hc, Hb.
  unfold contract_of_row, field. now rewrite Hc, Hb, Hp.
Qed.

Lemma contract_of_row_strict_end (i : nat) (row : Row) :
  blank (row_get row "CaseRef") = false ->
  blank (row_get row "Agreement date") = true
  \/ parse_date (row_get row "Agreement date") <> None ->
  blank (row_get row "Contract expiry or review date") = false ->
  parse_date (row_get row "Contract expiry or review date") = None ->
  contract_of_row i row
  = Raise (InvalidDate "contracts.csv" i
             (or_empty (row_get row "Contract expiry or review date"))).
Proof.
  intros Hc Hs Hb Hp. rewrite blank_strip in Hc, Hb.
  apply negb_false_iff in Hc, Hb.
  unfold contract_of_row, field. rewrite Hc, Hb, Hp. simpl.
  destruct Hs as [Hs | Hs].
  - rewrite blank_strip in Hs. apply negb_true_iff in Hs. now rewrite Hs.
  - destruct (parse_date (row_get row "Agreement date"));
      [|contradiction].
    now rewrite andb_false_r.
Qed.

(** C7.  The flexible parser turns 05/03/2024 into 2024-03-05 and gives
    nothing for 2024-03-05 and for a blank cell; it accepts exactly the
    texts that are, once trimmed, a day, a month and a four-digit year of a
    date of the calendar separated by slashes, and returns what [strftime]
    writes for that date.  That is the ISO text when the year is 1000 or
    later.  For an earlier year it is not: the year is written without its
    leading zeros, 01/01/0999 gives 999-01-01, and the strict validator of
    the same program rejects the text.  With [VALIDATE_DATES] set, a cell
    that is not blank and does not parse, in the review date of an asset
    row or in either date of a contract row, makes the row raise, and the
    reader with it once the rows before are accepted. *)
Theorem parse_date_accepts :
  parse_date (Some "05/03/2024") = Some "2024-03-05"
  /\ parse_date (Some "2024-03-05") = None
  /\ (forall raw, blank raw = true -> parse_date raw = None)
  /\ (forall raw r,
        parse_date raw = Some r
        <-> exists y m d,
              dmy_text (strip (or_empty raw)) y m d /\ real_date y m d
              /\ r = strftime_ymd {| year := y; month := m; day := d |})
  /\ (forall y m d,
        real_date y m d -> (1000 <= y)%Z ->
        strftime_ymd {| year := y; month := m; day := d |} = iso y m d)
  /\ (forall y m d,
        real_date y m d -> (y < 1000)%Z ->
        strftime_ymd {| year := y; month := m; day := d |} <> iso y m d
        /\ validate_json_date
             (strftime_ymd {| year := y; month := m; day := d |}) = None)
  /\ parse_date (Some "01/01/0999") = Some "999-01-01"
  /\ (forall i row,
        blank (row_get row "CaseRef") = false ->
        blank (row_get row "Next Scheduled Review") = false ->
        parse_date (row_get row "Next Scheduled Review") = None ->
        asset_of_row i row
        = Raise (InvalidDate "assets.csv" i
                   (or_empty (row_get row "Next Scheduled Review"))))
  /\ (forall i row,
        blank (row_get row "CaseRef") = false ->
        blank (row_get row "Agreement date") = false ->
        parse_date (row_get row "Agreement date") = None ->
        contract_of_row i row
        = Raise (InvalidDate "contracts.csv" i
                   (or_empty (row_get row "Agreement date"))))
  /\ (forall i row,
        blank (row_get row "CaseRef") = false ->
        blank (row_get row "Agreement date") = true
        \/ parse_date (row_get row "Agreement date") <> None ->
        blank (row_get row "Contract expiry or review date") = false ->
        parse_date (row_get row "Contract expiry or review date") = None ->
        contract_of_row i row
        = Raise (InvalidDate "contracts.csv" i
                   (or_empty (row_get row "Contract expiry or review date"))))
  /\ (forall rows k row e,
        nth_error rows k = Some row ->
        (forall j r, j < k -> nth_error rows j = Some r ->
                     exists a, asset_of_row (j + 2) r = Ok a) ->
        asset_of_row (k + 2) row = Raise e ->
        read_assets_by_case rows = Raise e)
  /\ (forall rows k row e,
        nth_error rows k = Some row ->
        (forall j r, j < k -> nth_error rows j = Some r ->
                     exists c, contract_of_row (j + 2) r = Ok c) ->
        contract_of_row (k + 2) row = Raise e ->
        read_study_contracts rows = Raise e).
Proof.
  split; [vm_compute; reflexivity|]. split; [vm_compute; reflexivity|].
  split; [exact parse_date_blank|]. split; [exact parse_date_spec|].
  split.
  { intros y m d Hr Hy. apply strftime_iso. unfold real_date in Hr. lia. }
  split.
  { intros y m d Hr Hy. split.
    - apply strftime_short_not_iso. unfold real_date in Hr. lia.
    - now apply validate_strftime_short. }
  split; [vm_compute; reflexivity|].
  split; [exact asset_of_row_strict|].
  split; [exact contract_of_row_strict_start|].
  split; [exact contract_of_row_strict_end|]. split.
  - intros rows k row e Hk Hpre He. unfold read_assets_by_case.
    rewrite read_assets_from_rows.
    rewrite (rows_from_raise asset_of_row rows 2 k row e Hk);
      [reflexivity| |now rewrite Nat.add_comm].
    intros j r Hj Hr. rewrite Nat.add_comm. eauto.
  - intros rows k row e Hk Hpre He. unfold read_study_contracts.
    rewrite read_contracts_from_rows.
    rewrite (rows_from_raise contract_of_row rows 2 k row e Hk);
      [reflexivity| |now rewrite Nat.add_comm].
    intros j r Hj Hr. rewrite Nat.add_comm. eauto.
Qed.

Lemma parse_date_accepts_witness :
  blank (row_get sample_asset_row "CaseRef") = false
  /\ blank (row_get sample_asset_row "Next Scheduled Review") = false
  /\ parse_date (row_get sample_asset_row "Next Scheduled Review") = None
  /\ read_assets_by_case [sample_asset_row]
     = Raise (InvalidDate "assets.csv" 2 "2024-03-05")
  /\ real_date 999 1 1
  /\ "999-01-01" <> iso 999 1 1
  /\ validate_json_date "999-01-01" = None.
Proof.
  assert (H1 : blank (row_get sample_asset_row "CaseRef") = false)
    by reflexivity.
  assert (H2 : blank (row_get sample_asset_row "Next Scheduled Review")
               = false) by reflexivity.
  assert (H3 : parse_date (row_get sample_asset_row "Next Scheduled Review")
               = None) by (vm_compute; reflexivity).
  assert (H4 : real_date 999 1 1) by (vm_compute; intuition discriminate).
  assert (H5 : (999 < 1000)%Z) by lia.
  destruct parse_date_accepts
    as (_ & _ & _ & _ & _ & Hshort & _ & Hrow & _ & _ & Hread & _).
  split; [exact H1|]. split; [exact H2|]. split; [exact H3|]. split.
  - apply (Hread [sample_asset_row] 0 sample_asset_row); [reflexivity| |].
    + intros j r Hj. lia.
    + exact (Hrow 2 sample_asset_row H1 H2 H3).
  - split; [exact H4|]. exact (Hshort 999%Z 1%Z 1%Z H4 H5).
Defined.

(** ** Boolean coercion *)

Lemma to_bool_tokens (s : option string) :
  to_bool s = true
  <-> In (lower (strip (or_empty s))) ["true"; "1"; "yes"; "y"].
Proof.
  unfold to_bool. rewrite !orb_true_iff, !String.eqb_eq. simpl.
  intuition congruence.
Qed.

(** C8, the statement as the spec has it, fails on the agreement facet:
    the token yes counts as true for [to_bool] and as false there. *)
Lemma agreement_yes_is_false :
  dict_get (Final.load_agreements [sample_yes_row]) "u1@ucl.ac.uk"
  = Some false
  /\ to_bool (row_get sample_yes_row "Approved") = true.
Proof. split; vm_compute; reflexivity. Qed.

(** C8 (amended).  [to_bool] is true exactly when the trimmed, lowercased
    text is one of true, 1, yes and y, and false for everything else, a
    blank or absent cell included; the boolean columns of studies and
    assets are read with it.  The agreement facet is not: a row with a
    UserID and an Approved cell files true exactly when the trimmed,
    lowercased Approved text is true, and false for every other text. *)
Theorem bool_coercion :
  (forall s, to_bool s = true
             <-> In (lower (strip (or_empty s))) ["true"; "1"; "yes"; "y"])
  /\ (forall s, blank s = true -> to_bool s = false)
  /\ (forall c row,
        let st := study_of_row c row in
        Study.involves_ucl_sponsorship st
        = to_bool (row_get row "InvolvesUclSponsorship")
        /\ Study.involves_cag st = to_bool (row_get row "InvolvesCag")
        /\ Study.involves_ethics_approval st
           = to_bool (row_get row "InvolvesEthicsApproval")
        /\ Study.involves_hra_approval st
           = to_bool (row_get row "InvolvesHraApproval")
        /\ Study.is_nhs_associated st
           = to_bool (row_get row "IsNhsAssociated")
        /\ Study.involves_nhs_england st
           = to_bool (row_get row "InvolvesNhsEngland")
        /\ Study.involves_mnca st = to_bool (row_get row "InvolvesMnca")
        /\ Study.requires_dspt st = to_bool (row_get row "RequiresDspt")
        /\ Study.requires_dbs st = to_bool (row_get row "RequiresDbs")
        /\ Study.involves_third_party st
           = to_bool (row_get row "InvolvesThirdParty")
        /\ Study.involves_external_users st
           = to_bool (row_get row "InvolvesExternalUsers")
        /\ Study.involves_participant_consent st
           = to_bool (row_get row "InvolvesParticipantConsent")
        /\ Study.involves_indirect_data_collection st
           = to_bool (row_get row "InvolvesIndirectDataCollection")
        /\ Study.involves_data_processing_outside_uk_eea st
           = to_bool (row_get row "InvolvesDataProcessingOutsideUkEea")
        /\ Study.dsh_active st = to_bool (row_get row "DSHActive"))
  /\ (forall i row a,
        asset_of_row i row = Ok a ->
        Asset.requires_contract a = to_bool (row_get row "RequiresContract")
        /\ Asset.has_dspt a = to_bool (row_get row "DSP Toolkit")
        /\ Asset.stored_outside_uk_eea a
           = to_bool (row_get row "Outside EEA"))
  /\ (forall agreements row,
        truthy_opt (row_get row "UserID") = true ->
        truthy_opt (row_get row "Approved") = true ->
        exists has_signed,
          Final.load_agreements_row agreements row
          = dict_set agreements
              (Final.normalise_username (or_empty (row_get row "UserID")))
              has_signed
          /\ (has_signed = true
              <-> lower (strip (or_empty (row_get row "Approved")))
                  = "true")).
Proof.
  split; [exact to_bool_tokens|]. split; [|split; [|split]].
  - intros s Hb. rewrite blank_strip in Hb. apply negb_true_iff in Hb.
    apply truthy_false in Hb. unfold to_bool. now rewrite Hb.
  - intros c row st. repeat split.
  - intros i row a. unfold asset_of_row.
    case_guard; [discriminate|]. case_guard; [discriminate|].
    destruct (py_int _); [|discriminate].
    intros H. injection H as <-. simpl. auto.
  - intros agreements row Hu Ha. unfold Final.load_agreements_row.
    rewrite Hu, Ha. simpl. eexists. split; [reflexivity|].
    apply String.eqb_eq.
Qed.

Lemma bool_coercion_witness :
  truthy_opt (row_get sample_yes_row "UserID") = true
  /\ truthy_opt (row_get sample_yes_row "Approved") = true
  /\ exists has_signed,
       Final.load_agreements_row [] sample_yes_row
       = [("u1@ucl.ac.uk", has_signed)]
       /\ (has_signed = true <-> "yes" = "true").
Proof.
  split; [reflexivity|]. split; [reflexivity|].
  exact (proj2 (proj2 (proj2 (proj2 bool_coercion)))
           [] sample_yes_row eq_refl eq_refl).
Defined.

(** ** Blank identifiers *)

Lemma normalise_username_length (x : string) :
  String.length (strip x) + 10 <= String.length (Final.normalise_username x).
Proof.
  unfold Final.normalise_username.
  destruct (contains "@" (lower (strip x)));
    rewrite app_length, ?replace_length, lower_length; simpl; lia.
Qed.

(** An identifier that is not blank never becomes the bare local suffix. *)
Lemma normalise_username_not_bare (x : string) :
  strip x <> EmptyString -> Final.normalise_username x <> LOCAL_SUFFIX.
Proof.
  intros Hx H. pose proof (normalise_username_length x) as Hl.
  rewrite H in Hl. destruct (strip x); [contradiction|]. simpl in Hl. lia.
Qed.

(** The training loader does filter blank identifiers: the bare local
    suffix is the key of no training entry. *)
Lemma load_training_filters_blank (rows : list Row) :
  ~ In LOCAL_SUFFIX (dict_keys (Final.load_training rows)).
Proof.
  unfold Final.load_training.
  assert (H : forall d : dict (option date),
             ~ In LOCAL_SUFFIX (dict_keys d) ->
             ~ In LOCAL_SUFFIX (dict_keys (fold_left Final.load_training_row rows d))).
  { induction rows as [|row rest IH]; intros d Hd; simpl; [exact Hd|].
    apply IH. unfold Final.load_training_row.
    destruct (truthy (strip (or_empty (row_get row "Other email")))) eqn:E1.
    - rewrite dict_keys_set. intros [E | E]; [|contradiction].
      symmetry in E. revert E. apply normalise_username_not_bare.
      rewrite strip_idem. now apply truthy_true.
    - destruct (truthy (strip (or_empty (row_get row "UserID")))) eqn:E2;
        [|exact Hd].
      rewrite dict_keys_set. intros [E | E]; [|contradiction].
      symmetry in E. revert E. apply normalise_username_not_bare.
      rewrite strip_idem. now apply truthy_true. }
  apply H. intros [].
Qed.

(** C9 fails on the agreements loader: a UserID of nothing but spaces is
    not filtered, and the bare local suffix is an identity of the merge. *)
Theorem blank_userid_not_filtered :
  blank (row_get sample_space_row "UserID") = true
  /\ Final.merge_records [] [sample_space_row]
     = [{| Final.username := "@ucl.ac.uk";
           Final.has_signed_agreement := true;
           Final.nhsd_training_completed_at := None |}].
Proof. split; vm_compute; reflexivity. Qed.

(** ** More of the code: ISO dates *)

Lemma space_one_digit (s r : string) (n : Z) :
  In (n, r) (space_one 49 57 s) ->
  s = String " " (of_nat (Z.to_nat n) ++ r) /\ (1 <= n <= 9)%Z.
Proof.
  unfold space_one. destruct s as [|a [|b t]]; try (intros []).
  destruct (Ascii.eqb_spec a " ") as [->|]; [|intros []].
  destruct (in_range 49 57 b) eqn:Eb; [|intros []].
  intros [E | []]. apply pair_equal_spec in E. destruct E as [<- <-].
  destruct (of_nat_digit b Eb) as [<- Hr]. auto.
Qed.

Lemma re_d_last (s r : string) (d : Z) :
  In (d, r) (re_d s) -> exists t, day_numeral d t /\ s = t ++ r.
Proof.
  unfold re_d. rewrite !in_app_iff.
  intros [H | [H | [H | [H | H]]]].
  - apply two_sound in H; try lia. destruct H as [-> Hr].
    exists (pad2 d).
    split; [left; split; [simpl in Hr; lia|now left]|reflexivity].
  - apply two_sound in H; try lia. destruct H as [-> Hr].
    exists (pad2 d).
    split; [left; split; [simpl in Hr; lia|now left]|reflexivity].
  - apply two_sound in H; try lia. destruct H as [-> Hr].
    exists (pad2 d).
    split; [left; split; [simpl in Hr; lia|now left]|reflexivity].
  - apply one_sound in H. destruct H as [-> Hr].
    exists (of_nat (Z.to_nat d)).
    split; [left; split; [lia|right; split; [lia|reflexivity]]|reflexivity].
  - apply space_one_digit in H. destruct H as [-> Hr].
    exists (String " " (of_nat (Z.to_nat d))).
    split; [right; split; [lia|reflexivity]|reflexivity].
Qed.

(** At the end of a text the first alternative that matches a day takes
    all of it. *)
Lemma re_d_end (d : Z) (t : string) :
  day_numeral d t -> exists l, re_d t = (d, EmptyString) :: l.
Proof.
  intros [[Hr Ht] | [Hr ->]].
  - remember (Z.to_nat d) as n eqn:En.
    assert (Hd : d = Z.of_nat n) by lia. clear En. subst d.
    destruct Ht as [-> | [H9 ->]].
    + do 32 (destruct n as [|n];
             [try (vm_compute; eexists; reflexivity); lia|]). lia.
    + do 10 (destruct n as [|n];
             [try (vm_compute; eexists; reflexivity); lia|]). lia.
  - remember (Z.to_nat d) as n eqn:En.
    assert (Hd : d = Z.of_nat n) by lia. clear En. subst d.
    do 10 (destruct n as [|n];
           [try (vm_compute; eexists; reflexivity); lia|]). lia.
Qed.

Lemma strptime_ymd_sound (s : string) (dt : date) :
  strptime_ymd s = Some dt ->
  exists y m d,
    ymd_text s y m d /\ real_date y m d
    /\ dt = {| year := y; month := m; day := d |}.
Proof.
  unfold strptime_ymd.
  match goal with |- finish ?l = _ -> _ => remember l as ms eqn:E end.
  destruct ms as [|[[[y m] d] rest] ms]; [discriminate|].
  simpl. destruct rest; [|discriminate]. intros Hmk.
  apply make_date_real in Hmk. destruct Hmk as [Hreal ->].
  assert (Hin : In (y, m, d, EmptyString) ((y, m, d, EmptyString) :: ms))
    by now left.
  rewrite E in Hin. clear E.
  apply bind_In in Hin. destruct Hin as ([y' s1] & Hy & Hin).
  apply bind_In in Hin. destruct Hin as (s2 & H1 & Hin).
  apply bind_In in Hin. destruct Hin as ([m' s3] & Hm & Hin).
  apply bind_In in Hin. destruct Hin as (s4 & H2 & Hin).
  apply bind_In in Hin. destruct Hin as ([d' s5] & Hd & Hin).
  destruct Hin as [Heq | []].
  apply pair_equal_spec in Heq. destruct Heq as [Heq ->].
  apply pair_equal_spec in Heq. destruct Heq as [Heq ->].
  apply pair_equal_spec in Heq. destruct Heq as [-> ->].
  apply re_d_last in Hd. destruct Hd as (t & Hd & ->).
  apply lit_sound in H2. subst s3.
  apply re_m_sound in Hm. destruct Hm as (mt & Hm & ->).
  apply lit_sound in H1. subst s1.
  apply re_Y_sound in Hy. destruct Hy as [Hy ->].
  exists y, m, d. split; [|auto]. exists mt, t.
  split; [exact Hm|split; [exact Hd|split; [lia|]]].
  cbn [append]. now rewrite append_empty_r.
Qed.

Lemma strptime_ymd_complete (s : string) (y m d : Z) :
  ymd_text s y m d -> strptime_ymd s = make_date y m d.
Proof.
  intros (mt & dt & Hm & Hd & Hy & ->). unfold strptime_ymd.
  rewrite re_Y_complete by exact Hy. rewrite bind_single.
  cbn [append lit]. rewrite Ascii.eqb_refl, bind_single.
  rewrite (bind_then_sep "-"
    (fun m' s4 => bind (re_d s4) (fun '(d', s5) => [(y, m', d', s5)]))).
  rewrite (re_m_then "-" m mt) by auto. rewrite bind_single.
  destruct (re_d_end d dt Hd) as [l ->]. reflexivity.
Qed.

(** An ISO text has no whitespace to trim. *)
Lemma strip_iso (y m d : Z) : strip (iso y m d) = iso y m d.
Proof.
  assert (Hn : forall k, isspace (digit_char k) = false)
    by (intros k; apply is_digit_not_space; apply digit_char_digit).
  unfold iso, pad4, pad2. cbn [append].
  apply strip_fixed; [apply Hn|].
  change (String (digit_char (y / 1000)) (String (digit_char (y / 100))
            (String (digit_char (y / 10)) (String (digit_char y)
              (String "-" (String (digit_char (m / 10)) (String (digit_char m)
                (String "-" (String (digit_char (d / 10))
                  (String (digit_char d) EmptyString))))))))))
    with ((String (digit_char (y / 1000)) (String (digit_char (y / 100))
            (String (digit_char (y / 10)) (String (digit_char y)
              (String "-" (String (digit_char (m / 10)) (String (digit_char m)
                (String "-" (String (digit_char (d / 10)) EmptyString)))))))))
          ++ String (digit_char d) EmptyString).
  apply rstrip_last. apply Hn.
Qed.

Lemma real_date_bounds (y m d : Z) :
  real_date y m d -> (0 <= y <= 9999 /\ 1 <= m <= 12 /\ 1 <= d <= 31)%Z.
Proof.
  unfold real_date. intros (Hy & Hm & Hd).
  split; [lia|]. split; [lia|].
  assert (Hc : (m = 1 \/ m = 2 \/ m = 3 \/ m = 4 \/ m = 5 \/ m = 6
                \/ m = 7 \/ m = 8 \/ m = 9 \/ m = 10 \/ m = 11
                \/ m = 12)%Z) by lia.
  repeat (destruct Hc as [-> | Hc]); try subst m;
    unfold days_in_month in Hd; try destruct (is_leap y); lia.
Qed.

Lemma iso_ymd_text (y m d : Z) :
  real_date y m d -> ymd_text (iso y m d) y m d.
Proof.
  intros H. destruct (real_date_bounds _ _ _ H) as (Hy & Hm & Hd).
  exists (pad2 m), (pad2 d).
  split; [split; [lia|now left]|].
  split; [left; split; [lia|now left]|]. split; [lia|reflexivity].
Qed.

Lemma validate_json_date_spec (s : string) (dt : date) :
  validate_json_date s = Some dt
  <-> exists y m d,
        ymd_text (strip s) y m d /\ real_date y m d
        /\ dt = {| year := y; month := m; day := d |}.
Proof.
  unfold validate_json_date. split.
  - destruct (truthy (strip s)); simpl; [|discriminate].
    apply strptime_ymd_sound.
  - intros (y & m & d & Ht & Hr & ->).
    assert (Hne : truthy (strip s) = true).
    { destruct Ht as (mt & t & _ & _ & _ & ->). reflexivity. }
    rewrite Hne. simpl. rewrite (strptime_ymd_complete _ y m d Ht).
    apply make_date_real. auto.
Qed.

(** X1.  [validate_json_date] accepts exactly the texts that are, once
    trimmed, a four-digit year, a month and a day of a date of the calendar
    separated by hyphens, the month and the day with two digits or with one
    below ten, the day also with a space before a single digit; so the ISO
    text of every date of the calendar is accepted, and nothing blank is. *)
Theorem validate_json_date_accepts :
  (forall s dt,
     validate_json_date s = Some dt
     <-> exists y m d,
           ymd_text (strip s) y m d /\ real_date y m d
           /\ dt = {| year := y; month := m; day := d |})
  /\ (forall y m d,
        real_date y m d ->
        validate_json_date (iso y m d)
        = Some {| year := y; month := m; day := d |})
  /\ (forall s, blank (Some s) = true -> validate_json_date s = None).
Proof.
  split; [exact validate_json_date_spec|]. split.
  - intros y m d H. apply validate_json_date_spec.
    exists y, m, d. rewrite strip_iso. split; [now apply iso_ymd_text|auto].
  - intros s Hb. unfold validate_json_date.
    simpl in Hb. apply strip_empty in Hb. now rewrite Hb.
Qed.

Lemma validate_json_date_accepts_witness :
  real_date 2024 2 29
  /\ validate_json_date "2024-02-29"
     = Some {| year := 2024; month := 2; day := 29 |}.
Proof.
  assert (H : real_date 2024 2 29) by (vm_compute; intuition discriminate).
  split; [exact H|].
  exact (proj1 (proj2 validate_json_date_accepts) 2024%Z 2%Z 29%Z H).
Defined.

Lemma parse_date_strict (raw : option string) (r : string) :
  parse_date raw = Some r ->
  exists dt,
    strptime_dmy (strip (or_empty raw)) = Some dt
    /\ real_date (year dt) (month dt) (day dt)
    /\ r = strftime_ymd dt
    /\ ((1000 <= year dt)%Z -> validate_json_date r = Some dt)
    /\ ((year dt < 1000)%Z -> validate_json_date r = None).
Proof.
  intros H. apply parse_date_spec in H.
  destruct H as (y & m & d & Ht & Hr & ->).
  exists {| year := y; month := m; day := d |}.
  split; [|split; [exact Hr|split; [reflexivity|split]]].
  - rewrite (strptime_dmy_complete _ y m d Ht). apply make_date_real. auto.
  - cbn [year]. intros Hy.
    rewrite strftime_iso by (unfold real_date in Hr; lia).
    apply validate_json_date_spec. exists y, m, d.
    rewrite strip_iso. split; [now apply iso_ymd_text|auto].
  - apply validate_strftime_short.
Qed.

(** X2.  The strict validator accepts what the flexible parser returns, as
    the date that was parsed, exactly when the year is 1000 or later.  The
    text returned for an earlier year, which has fewer than four digits
    before the first hyphen, it rejects. *)
Theorem parse_date_validates (raw : option string) (r : string) :
  parse_date raw = Some r ->
  exists dt,
    strptime_dmy (strip (or_empty raw)) = Some dt
    /\ r = strftime_ymd dt
    /\ ((1000 <= year dt)%Z -> validate_json_date r = Some dt)
    /\ ((year dt < 1000)%Z -> validate_json_date r = None).
Proof.
  intros H. destruct (parse_date_strict raw r H) as (dt & H1 & _ & H2 & H3).
  exists dt. auto.
Qed.

Lemma parse_date_validates_witness :
  parse_date (Some " 5/3/0987 ") = Some "987-03-05"
  /\ exists dt,
       strptime_dmy (strip (or_empty (Some " 5/3/0987 "))) = Some dt
       /\ "987-03-05" = strftime_ymd dt
       /\ ((1000 <= year dt)%Z -> validate_json_date "987-03-05" = Some dt)
       /\ ((year dt < 1000)%Z -> validate_json_date "987-03-05" = None).
Proof.
  assert (H : parse_date (Some " 5/3/0987 ") = Some "987-03-05")
    by (vm_compute; reflexivity).
  split; [exact H|]. exact (parse_date_validates _ _ H).
Defined.

(** ** More of the code: the validator on the output of a run *)

Lemma validate_strftime_four (dt : date) :
  real_date (year dt) (month dt) (day dt) -> (1000 <= year dt)%Z ->
  validate_json_date (strftime_ymd dt) = Some dt.
Proof.
  destruct dt as [y m d]. cbn [year month day]. intros Hr Hy.
  rewrite strftime_iso by (unfold real_date in Hr; lia).
  apply validate_json_date_spec. exists y, m, d.
  rewrite strip_iso. split; [now apply iso_ymd_text|auto].
Qed.

Lemma parse_date_ok (raw : option string) :
  four_digit_year raw -> date_ok (parse_date raw).
Proof.
  intros Hy r H. right.
  destruct (parse_date_strict raw r H) as (dt & Hp & _ & _ & E & _).
  rewrite E by now apply Hy. discriminate.
Qed.

Lemma check_date_ok (o : option string) (msg : string) (st : vstate) :
  date_ok o -> check_date (or_empty o) msg st = st.
Proof.
  intros H. unfold check_date. destruct o as [r|]; simpl; [|reflexivity].
  destruct (H r eq_refl) as [-> | Hv]; [reflexivity|].
  destruct (validate_json_date r); [|contradiction].
  now rewrite andb_false_r.
Qed.

Lemma fold_left_ext_in {A B} (f g : A -> B -> A) (l : list B) (a : A) :
  (forall x b, In b l -> f x b = g x b) ->
  fold_left f l a = fold_left g l a.
Proof.
  revert a. induction l as [|b r IH]; intros a H; simpl; [reflexivity|].
  rewrite (H a b) by now left. apply IH. intros x c Hc. apply H. now right.
Qed.

Lemma validate_study_dates_ok (st : vstate) (s : Study.t) :
  dates_ok s -> validate_study true st s = validate_study false st s.
Proof.
  intros [Hc Ha]. unfold validate_study.
  rewrite (fold_left_ext_in
             (validate_contract true (Study.caseref s))
             (validate_contract false (Study.caseref s))).
  - apply fold_left_ext_in. intros x a Hin. unfold validate_asset.
    now rewrite check_date_ok by now apply Ha.
  - intros x c Hin. unfold validate_contract.
    destruct (Hc c Hin) as [H1 H2]. now rewrite !check_date_ok.
Qed.

Lemma validate_dates_ok (data : list Study.t) :
  (forall s, In s data -> dates_ok s) ->
  validate data true = validate data false.
Proof.
  intros H. unfold validate. f_equal. apply fold_left_ext_in.
  intros x s Hs. now apply validate_study_dates_ok, H.
Qed.

Lemma asset_of_row_date (i : nat) (row : Row) (a : Asset.t) :
  asset_of_row i row = Ok a ->
  Asset.expires_at a = parse_date (row_get row "Next Scheduled Review").
Proof.
  unfold asset_of_row. case_guard; [discriminate|].
  case_guard; [discriminate|]. destruct (py_int _); [|discriminate].
  intros H. injection H as <-. reflexivity.
Qed.

Lemma contract_of_row_dates (i : nat) (row : Row) (c : Contract.t) :
  contract_of_row i row = Ok c ->
  Contract.start_date c = parse_date (row_get row "Agreement date")
  /\ Contract.expiry_date c
     = parse_date (row_get row "Contract expiry or review date").
Proof.
  unfold contract_of_row. do 3 (case_guard; [discriminate|]).
  intros H. injection H as <-. split; reflexivity.
Qed.

Lemma main_dates_ok (sr ar cr : list Row) (errs : list string)
  (data : list Study.t) :
  main sr ar cr = Ok (errs, data) -> four_digit_years ar cr ->
  forall s, In s data -> dates_ok s.
Proof.
  intros H [Hya Hyc] s Hs.
  destruct (main_children _ _ _ _ _ H) as (az & cs & Ha & Hc & Hall).
  destruct (Hall s Hs) as (_ & Ecs & Eas). unfold dates_ok.
  rewrite Ecs, Eas. split.
  - intros c Hin. apply children_of_In in Hin. destruct Hin as [Hin _].
    destruct (rows_from_In _ _ _ _ _ Hc Hin) as (j & row & Hj & Hf).
    destruct (contract_of_row_dates _ _ _ Hf) as [-> ->].
    apply nth_error_In in Hj. destruct (Hyc row Hj) as [H1 H2].
    split; now apply parse_date_ok.
  - intros a Hin. apply (proj1 (sort_by_In pair_leb asset_key _ _)) in Hin.
    apply children_of_In in Hin. destruct Hin as [Hin _].
    destruct (rows_from_In _ _ _ _ _ Ha Hin) as (j & row & Hj & Hf).
    rewrite (asset_of_row_date _ _ _ Hf). apply nth_error_In in Hj.
    now apply parse_date_ok, Hya.
Qed.

(** X3.  On the data of a run whose dates are all of the year 1000 or
    later the strict date check of the validator finds nothing: every date
    there was written by the flexible parser, so validating with and
    without [validate_dates] gives the same issues. *)
Theorem strict_dates_redundant (sr ar cr : list Row) (errs : list string)
  (data : list Study.t) :
  main sr ar cr = Ok (errs, data) ->
  four_digit_years ar cr ->
  (forall s, In s data -> dates_ok s)
  /\ validate data true = validate data false
  /\ errs = validate data false.
Proof.
  intros H Hy. pose proof (main_dates_ok _ _ _ _ _ H Hy) as Hok.
  split; [exact Hok|]. split; [now apply validate_dates_ok|].
  destruct (main_output _ _ _ _ _ H) as (az & cs & _ & _ & _ & _ & ->).
  now apply validate_dates_ok.
Qed.

Lemma strict_dates_redundant_witness :
  main sample_study_rows sample_dated_asset_rows []
  = Ok ([], output_data (main sample_study_rows sample_dated_asset_rows []))
  /\ four_digit_years sample_dated_asset_rows []
  /\ validate
       (output_data (main sample_study_rows sample_dated_asset_rows [])) true
     = validate
         (output_data (main sample_study_rows sample_dated_asset_rows []))
         false.
Proof.
  assert (H : main sample_study_rows sample_dated_asset_rows []
              = Ok ([], output_data
                     (main sample_study_rows sample_dated_asset_rows [])))
    by (vm_compute; reflexivity).
  assert (Hy : four_digit_years sample_dated_asset_rows []).
  { split.
    - intros row [<- | []] dt E. vm_compute in E. injection E as <-.
      simpl. lia.
    - intros row []. }
  split; [exact H|]. split; [exact Hy|].
  exact (proj1 (proj2 (strict_dates_redundant _ _ _ _ _ H Hy))).
Defined.

(** *** Issues are only added *)

Lemma add_error_grows (st : vstate) (msg e : string) :
  In e (errors st) -> In e (errors (add_error st msg)).
Proof. intros H. simpl. apply in_or_app. now left. Qed.

Lemma check_date_grows (d msg : string) (st : vstate) (e : string) :
  In e (errors st) -> In e (errors (check_date d msg st)).
Proof.
  unfold check_date. destruct (_ && _); [apply add_error_grows|auto].
Qed.

Lemma check_date_reports (d msg : string) (st : vstate) :
  d <> EmptyString -> validate_json_date d = None ->
  In msg (errors (check_date d msg st)).
Proof.
  intros Hd Hv. unfold check_date. apply truthy_true in Hd.
  rewrite Hd, Hv. simpl. apply in_or_app. right. now left.
Qed.

Lemma validate_contract_grows (vd : bool) (cr : string) (st : vstate)
  (c : Contract.t) (e : string) :
  In e (errors st) -> In e (errors (validate_contract vd cr st c)).
Proof.
  intros H. unfold validate_contract.
  match goal with
  | |- context [check_date _ _ (check_date _ _ ?s)] => set (st1 := s)
  end.
  assert (H1 : In e (errors st1)).
  { unfold st1. destruct (negb _); [now apply add_error_grows|].
    destruct (mem _ _); [now apply add_error_grows|exact H]. }
  destruct vd; [|exact H1]. now apply check_date_grows, check_date_grows.
Qed.

Lemma validate_asset_grows (vd : bool) (cr : string) (st : vstate)
  (a : Asset.t) (e : string) :
  In e (errors st) -> In e (errors (validate_asset vd cr st a)).
Proof.
  intros H. unfold validate_asset.
  match goal with
  | |- context [check_date _ _ ?s] => set (st1 := s)
  end.
  assert (H1 : In e (errors st1)).
  { unfold st1. destruct (truthy _); [|exact H].
    destruct (mem _ _); [now apply add_error_grows|exact H]. }
  destruct vd; [|exact H1]. now apply check_date_grows.
Qed.

Lemma fold_grows {A} (f : vstate -> A -> vstate) (e : string) :
  (forall st a, In e (errors st) -> In e (errors (f st a))) ->
  forall l st, In e (errors st) -> In e (errors (fold_left f l st)).
Proof.
  intros Hf. induction l as [|a r IH]; intros st H; simpl; [exact H|].
  apply IH, Hf, H.
Qed.

Lemma validate_study_grows (vd : bool) (st : vstate) (s : Study.t)
  (e : string) :
  In e (errors st) -> In e (errors (validate_study vd st s)).
Proof.
  intros H. unfold validate_study.
  apply fold_grows; [intros; now apply validate_asset_grows|].
  apply fold_grows; [intros; now apply validate_contract_grows|].
  destruct (negb _); [now apply add_error_grows|].
  destruct (mem _ _); [now apply add_error_grows|exact H].
Qed.

(** An issue raised at one record of a list stays to the end. *)
Lemma fold_reports {A} (f : vstate -> A -> vstate) (e : string) (a : A) :
  (forall st b, In e (errors st) -> In e (errors (f st b))) ->
  (forall st, In e (errors (f st a))) ->
  forall l st, In a l -> In e (errors (fold_left f l st)).
Proof.
  intros Hg Ha l st Hin. apply in_split in Hin.
  destruct Hin as (pre & post & ->).
  rewrite fold_left_app. simpl. apply fold_grows; [exact Hg|apply Ha].
Qed.

Lemma validate_contract_reports (cr : string) (st : vstate) (c : Contract.t) :
  (forall d, Contract.start_date c = Some d -> d <> EmptyString ->
             validate_json_date d = None ->
             In (invalid_start_date cr (Contract.contract_sp_id c) d)
                (errors (validate_contract true cr st c)))
  /\ (forall d, Contract.expiry_date c = Some d -> d <> EmptyString ->
                validate_json_date d = None ->
                In (invalid_expiry_date cr (Contract.contract_sp_id c) d)
                   (errors (validate_contract true cr st c))).
Proof.
  unfold validate_contract. split; intros d E Hd Hv; rewrite E; simpl.
  - apply check_date_grows. now apply check_date_reports.
  - now apply check_date_reports.
Qed.

Lemma validate_asset_reports (cr : string) (st : vstate) (a : Asset.t)
  (d : string) :
  Asset.expires_at a = Some d -> d <> EmptyString ->
  validate_json_date d = None ->
  In (invalid_expires_at cr (Asset.asset_sp_id a) d)
     (errors (validate_asset true cr st a)).
Proof.
  intros E Hd Hv. unfold validate_asset. rewrite E. simpl.
  now apply check_date_reports.
Qed.

(** X4.  With [validate_dates] set, every date of the merged data that is
    filled in and is not an ISO date is reported, with the CaseRef of the
    study, the identity of the contract or asset and the text found: the
    start date and the expiry date of a contract, and the expiry of an
    asset. *)
Theorem validate_reports_dates (data : list Study.t) (s : Study.t)
  (d : string) :
  In s data -> d <> EmptyString -> validate_json_date d = None ->
  (forall c, In c (Study.contracts s) -> Contract.start_date c = Some d ->
     In (invalid_start_date (Study.caseref s) (Contract.contract_sp_id c) d)
        (validate data true))
  /\ (forall c, In c (Study.contracts s) ->
        Contract.expiry_date c = Some d ->
        In (invalid_expiry_date (Study.caseref s)
              (Contract.contract_sp_id c) d)
           (validate data true))
  /\ (forall a, In a (Study.assets s) -> Asset.expires_at a = Some d ->
        In (invalid_expires_at (Study.caseref s) (Asset.asset_sp_id a) d)
           (validate data true)).
Proof.
  intros Hs Hd Hv. unfold validate.
  split; [|split]; intros x Hx E;
    apply (fold_reports (validate_study true) _ s);
    try (intros; now apply validate_study_grows); try exact Hs;
    intros st; unfold validate_study.
  - apply fold_grows; [intros; now apply validate_asset_grows|].
    apply (fold_reports _ _ x);
      [intros; now apply validate_contract_grows| |exact Hx].
    intros st'.
    exact (proj1 (validate_contract_reports _ st' x) d E Hd Hv).
  - apply fold_grows; [intros; now apply validate_asset_grows|].
    apply (fold_reports _ _ x);
      [intros; now apply validate_contract_grows| |exact Hx].
    intros st'.
    exact (proj2 (validate_contract_reports _ st' x) d E Hd Hv).
  - apply (fold_reports _ _ x);
      [intros; now apply validate_asset_grows| |exact Hx].
    intros st'. now apply validate_asset_reports.
Qed.

Lemma validate_reports_dates_witness :
  In sample_bad_date_study [sample_bad_date_study]
  /\ "05/03/2024" <> EmptyString
  /\ validate_json_date "05/03/2024" = None
  /\ In "Study S1: contract C1 invalid start_date: 05/03/2024"
        (validate [sample_bad_date_study] true).
Proof.
  assert (H1 : In sample_bad_date_study [sample_bad_date_study])
    by (left; reflexivity).
  assert (H2 : "05/03/2024" <> EmptyString) by discriminate.
  assert (H3 : validate_json_date "05/03/2024" = None)
    by (vm_compute; reflexivity).
  split; [exact H1|]. split; [exact H2|]. split; [exact H3|].
  apply (proj1 (validate_reports_dates _ _ _ H1 H2 H3)
           sample_bad_date_contract).
  - left. reflexivity.
  - reflexivity.
Defined.

(** *** The kinds of issue of a run *)

Lemma fold_left_invariant {A} (I : vstate -> Prop)
  (f : vstate -> A -> vstate) (l : list A) :
  (forall st x, In x l -> I st -> I (f st x)) ->
  forall st, I st -> I (fold_left f l st).
Proof.
  induction l as [|x r IH]; intros Hf st H; simpl; [exact H|].
  apply IH; [intros st' y Hy; apply Hf; now right|].
  apply Hf; [now left|exact H].
Qed.

Lemma seen_case_check_date (d msg : string) (st : vstate) :
  seen_case (check_date d msg st) = seen_case st.
Proof. unfold check_date. now destruct (_ && _). Qed.

Lemma seen_case_contract (vd : bool) (cr : string) (st : vstate)
  (c : Contract.t) :
  seen_case (validate_contract vd cr st c) = seen_case st.
Proof.
  unfold validate_contract.
  destruct vd; rewrite ?seen_case_check_date;
    destruct (negb _); try reflexivity; now destruct (mem _ _).
Qed.

Lemma seen_case_asset (vd : bool) (cr : string) (st : vstate)
  (a : Asset.t) :
  seen_case (validate_asset vd cr st a) = seen_case st.
Proof.
  unfold validate_asset.
  destruct vd; rewrite ?seen_case_check_date;
    destruct (truthy _); try reflexivity; now destruct (mem _ _).
Qed.

Lemma seen_case_study (vd : bool) (st : vstate) (s : Study.t) :
  truthy (Study.caseref s) = true ->
  mem (Study.caseref s) (seen_case st) = false ->
  seen_case (validate_study vd st s) = Study.caseref s :: seen_case st.
Proof.
  intros Ht Hm. unfold validate_study.
  match goal with
  | |- seen_case (fold_left _ _ (fold_left _ _ ?s0)) = _ => set (st0 := s0)
  end.
  assert (H0 : seen_case st0 = Study.caseref s :: seen_case st)
    by (unfold st0; now rewrite Ht, Hm).
  rewrite <- H0.
  transitivity (seen_case
    (fold_left (validate_contract vd (Study.caseref s))
       (Study.contracts s) st0)).
  - apply (fold_left_invariant (fun x => seen_case x = _)); [|reflexivity].
    intros x a _ Hx. now rewrite seen_case_asset.
  - apply (fold_left_invariant (fun x => seen_case x = _)); [|reflexivity].
    intros x c _ Hx. now rewrite seen_case_contract.
Qed.

Lemma parse_date_written (raw : option string) :
  date_written (parse_date raw).
Proof.
  intros r H.
  destruct (parse_date_strict raw r H) as (dt & _ & Hr & E & _).
  exists dt. auto.
Qed.

Lemma main_dates_written (sr ar cr : list Row) (errs : list string)
  (data : list Study.t) :
  main sr ar cr = Ok (errs, data) -> forall s, In s data -> dates_written s.
Proof.
  intros H s Hs.
  destruct (main_children _ _ _ _ _ H) as (az & cs & Ha & Hc & Hall).
  destruct (Hall s Hs) as (_ & Ecs & Eas). unfold dates_written.
  rewrite Ecs, Eas. split.
  - intros c Hin. apply children_of_In in Hin. destruct Hin as [Hin _].
    destruct (rows_from_In _ _ _ _ _ Hc Hin) as (j & row & _ & Hf).
    destruct (contract_of_row_dates _ _ _ Hf) as [-> ->].
    split; apply parse_date_written.
  - intros a Hin. apply (proj1 (sort_by_In pair_leb asset_key _ _)) in Hin.
    apply children_of_In in Hin. destruct Hin as [Hin _].
    destruct (rows_from_In _ _ _ _ _ Ha Hin) as (j & row & _ & Hf).
    rewrite (asset_of_row_date _ _ _ Hf). apply parse_date_written.
Qed.

Section IssueKinds.
Variable data : list Study.t.
Local Abbreviation kinds vd :=
  (Forall (fun e => issue_kind data e \/ (vd = true /\ date_issue data e))).

Lemma add_error_kind (vd : bool) (st : vstate) (msg : string) :
  issue_kind data msg \/ (vd = true /\ date_issue data msg) ->
  kinds vd (errors st) -> kinds vd (errors (add_error st msg)).
Proof. intros Hm H. simpl. apply Forall_app. split; [exact H|auto]. Qed.

(** The strict check of a date the parser wrote reports it only when its
    year is before 1000. *)
Lemma check_date_kind (o : option string) (msg : string) (st : vstate) :
  date_written o ->
  (forall d, early o d -> date_issue data msg) ->
  kinds true (errors st) ->
  kinds true (errors (check_date (or_empty o) msg st)).
Proof.
  intros Hw Hk H. unfold check_date.
  destruct (truthy (or_empty o) && _) eqn:G; [|exact H].
  apply add_error_kind; [|exact H]. right. split; [reflexivity|].
  destruct o as [r|]; [|discriminate G]. cbn [or_empty] in G.
  destruct (Hw r eq_refl) as (dt & Hr & ->).
  apply (Hk (strftime_ymd dt)).
  split; [reflexivity|]. exists dt. split; [exact Hr|]. split; [|reflexivity].
  destruct (Z.lt_ge_cases (year dt) 1000) as [Hlt | Hge]; [exact Hlt|].
  rewrite validate_strftime_four in G by assumption.
  rewrite andb_false_r in G. discriminate.
Qed.

Lemma contract_kind (vd : bool) (s : Study.t) (c : Contract.t)
  (st : vstate) :
  In s data -> In c (Study.contracts s) ->
  (vd = true -> date_written (Contract.start_date c)
                /\ date_written (Contract.expiry_date c)) ->
  kinds vd (errors st) ->
  kinds vd (errors (validate_contract vd (Study.caseref s) st c)).
Proof.
  intros Hs Hc Hw H. unfold validate_contract.
  match goal with
  | |- context [check_date _ _ (check_date _ _ ?s0)] => set (st1 := s0)
  end.
  assert (H1 : kinds vd (errors st1)).
  { unfold st1. destruct (truthy (Contract.contract_sp_id c)) eqn:Et; simpl.
    - destruct (mem _ _); [|exact H].
      apply add_error_kind; [|exact H]. left. right. left. eexists.
      reflexivity.
    - apply add_error_kind; [|exact H]. left. left. exists s, c.
      apply truthy_false in Et. auto. }
  destruct vd; [|exact H1]. destruct (Hw eq_refl) as [Hw1 Hw2].
  apply check_date_kind; [exact Hw2| |apply check_date_kind];
    [|exact Hw1| |exact H1].
  - intros d He. left. exists s, c, d.
    split; [exact Hs|]. split; [exact Hc|]. right. split; [exact He|].
    destruct He as [E _]. rewrite E. reflexivity.
  - intros d He. left. exists s, c, d.
    split; [exact Hs|]. split; [exact Hc|]. left. split; [exact He|].
    destruct He as [E _]. rewrite E. reflexivity.
Qed.

Lemma asset_kind (vd : bool) (s : Study.t) (a : Asset.t) (st : vstate) :
  In s data -> In a (Study.assets s) ->
  (vd = true -> date_written (Asset.expires_at a)) ->
  kinds vd (errors st) ->
  kinds vd (errors (validate_asset vd (Study.caseref s) st a)).
Proof.
  intros Hs Ha Hw H. unfold validate_asset.
  match goal with
  | |- context [check_date _ _ ?s0] => set (st1 := s0)
  end.
  assert (H1 : kinds vd (errors st1)).
  { unfold st1. destruct (truthy _); [|exact H].
    destruct (mem _ _); [|exact H].
    apply add_error_kind; [|exact H]. left. right. right. eexists.
    reflexivity. }
  destruct vd; [|exact H1].
  apply check_date_kind; [exact (Hw eq_refl)| |exact H1].
  intros d He. right. exists s, a, d.
  split; [exact Hs|]. split; [exact Ha|]. split; [exact He|].
  destruct He as [E _]. rewrite E. reflexivity.
Qed.

Lemma study_kind (vd : bool) (s : Study.t) (st : vstate) :
  In s data -> truthy (Study.caseref s) = true ->
  mem (Study.caseref s) (seen_case st) = false ->
  (vd = true -> dates_written s) ->
  kinds vd (errors st) -> kinds vd (errors (validate_study vd st s)).
Proof.
  intros Hs Ht Hm Hw H. unfold validate_study. rewrite Ht, Hm. simpl.
  apply (fold_left_invariant (fun x => kinds vd (errors x))).
  { intros x a Ha. apply asset_kind; [exact Hs|exact Ha|].
    intros E. now apply (proj2 (Hw E)). }
  apply (fold_left_invariant (fun x => kinds vd (errors x))); [|exact H].
  intros x c Hc. apply contract_kind; [exact Hs|exact Hc|].
  intros E. now apply (proj1 (Hw E)).
Qed.

Lemma studies_kind (vd : bool) (l : list Study.t) (st : vstate) :
  NoDup (map Study.caseref l) ->
  (forall s, In s l ->
     In s data /\ truthy (Study.caseref s) = true
     /\ mem (Study.caseref s) (seen_case st) = false
     /\ (vd = true -> dates_written s)) ->
  kinds vd (errors st) ->
  kinds vd (errors (fold_left (validate_study vd) l st)).
Proof.
  revert st. induction l as [|s r IH]; intros st Hnd Hl H; simpl;
    [exact H|].
  destruct (Hl s (or_introl eq_refl)) as (Hs & Ht & Hm & Hw).
  inversion Hnd as [|? ? Hnotin Hnd']; subst.
  apply IH; [exact Hnd'| |now apply study_kind].
  intros s' Hs'.
  destruct (Hl s' (or_intror Hs')) as (Hd & Ht' & Hm' & Hw').
  split; [exact Hd|]. split; [exact Ht'|]. split; [|exact Hw'].
  rewrite seen_case_study by assumption. simpl. rewrite Hm'.
  destruct (String.eqb_spec (Study.caseref s') (Study.caseref s)) as [E|];
    [|reflexivity].
  exfalso. apply Hnotin. rewrite <- E. now apply in_map.
Qed.
End IssueKinds.

Lemma main_caserefs (sr ar cr : list Row) (errs : list string)
  (data : list Study.t) :
  main sr ar cr = Ok (errs, data) ->
  NoDup (map Study.caseref data)
  /\ forall s, In s data -> truthy (Study.caseref s) = true.
Proof.
  intros H. split.
  - destruct (main_output _ _ _ _ _ H) as (az & cs & _ & _ & _ & -> & _).
    eapply Permutation_NoDup.
    + symmetry. apply build_import_json_caserefs.
    + rewrite file_studies_caserefs. apply file_studies_NoDup. constructor.
  - intros s Hs.
    destruct (main_children _ _ _ _ _ H) as (az & cs & _ & _ & Hall).
    destruct (Hall s Hs) as ((row & Hrow & <-) & _).
    destruct (main_output _ _ _ _ _ H) as (_ & _ & _ & _ & Hnb & _).
    apply truthy_true. now apply Hnb.
Qed.

(** X5.  The issues of a run are of five kinds only: a contract without
    identity, named by the CaseRef of its study; an identity that two or
    more contracts have; an identity that two or more assets have; a start
    or expiry date of a contract, and an expiry of an asset, that the
    flexible parser wrote for a year before 1000, which the strict check
    of the same run does not take for a date.  No other date is reported,
    and no study for its CaseRef. *)
Theorem run_issues (sr ar cr : list Row) (errs : list string)
  (data : list Study.t) :
  main sr ar cr = Ok (errs, data) ->
  forall e, In e errs ->
    (exists s c, In s data /\ In c (Study.contracts s)
                 /\ Contract.contract_sp_id c = EmptyString
                 /\ e = missing_contract_id (Study.caseref s))
    \/ (exists x, x <> EmptyString /\ e = duplicate_contract x
                  /\ 2 <= count_contracts x data)
    \/ (exists x, x <> EmptyString /\ e = duplicate_asset x
                  /\ 2 <= count_assets x data)
    \/ (exists s c d,
          In s data /\ In c (Study.contracts s)
          /\ ((early (Contract.start_date c) d
               /\ e = invalid_start_date (Study.caseref s)
                        (Contract.contract_sp_id c) d)
              \/ (early (Contract.expiry_date c) d
                  /\ e = invalid_expiry_date (Study.caseref s)
                           (Contract.contract_sp_id c) d)))
    \/ (exists s a d,
          In s data /\ In a (Study.assets s)
          /\ early (Asset.expires_at a) d
          /\ e = invalid_expires_at (Study.caseref s)
                   (Asset.asset_sp_id a) d).
Proof.
  intros H e He.
  assert (Herrs : errs = validate data VALIDATE_DATES).
  { now destruct (main_output _ _ _ _ _ H) as (az & cs & _ & _ & _ & _ & ->). }
  destruct (main_caserefs _ _ _ _ _ H) as [Hnd Ht].
  assert (Hk : Forall
                 (fun e => issue_kind data e
                           \/ (VALIDATE_DATES = true /\ date_issue data e))
                 errs).
  { rewrite Herrs. unfold validate.
    apply studies_kind; [exact Hnd| |constructor].
    intros s Hs. split; [exact Hs|]. split; [now apply Ht|].
    split; [reflexivity|]. intros _.
    now apply (main_dates_written _ _ _ _ _ H). }
  rewrite Forall_forall in Hk.
  destruct (Hk e He) as [[Hm | [[x ->] | [x ->]]] | [_ [Hc | Ha]]].
  - now left.
  - right. left. exists x. rewrite Herrs in He.
    apply (count_occ_In string_dec) in He.
    rewrite validate_contract_issues in He.
    destruct (truthy x) eqn:Ex; [|lia].
    split; [now apply truthy_true|]. split; [reflexivity|lia].
  - right. right. left. exists x. rewrite Herrs in He.
    apply (count_occ_In string_dec) in He.
    rewrite validate_asset_issues in He.
    destruct (truthy x) eqn:Ex; [|lia].
    split; [now apply truthy_true|]. split; [reflexivity|lia].
  - do 3 right. now left.
  - do 4 right. exact Ha.
Qed.

Lemma run_issues_witness :
  main sample_study_rows sample_early_asset_rows []
  = Ok (["Study S1: asset A1 invalid expires_at: 999-01-01"],
        output_data (main sample_study_rows sample_early_asset_rows []))
  /\ exists s a d,
       In s (output_data (main sample_study_rows sample_early_asset_rows []))
       /\ In a (Study.assets s)
       /\ early (Asset.expires_at a) d
       /\ "Study S1: asset A1 invalid expires_at: 999-01-01"
          = invalid_expires_at (Study.caseref s) (Asset.asset_sp_id a) d.
Proof.
  assert (H : main sample_study_rows sample_early_asset_rows []
              = Ok (["Study S1: asset A1 invalid expires_at: 999-01-01"],
                    output_data
                      (main sample_study_rows sample_early_asset_rows [])))
    by (vm_compute; reflexivity).
  split; [exact H|].
  destruct (run_issues _ _ _ _ _ H
              "Study S1: asset A1 invalid expires_at: 999-01-01"
              (or_introl eq_refl))
    as [(s & c & Hs & Hc & _)
       | [(x & _ & E & _)
         | [(x & _ & E & _) | [(s & c & d & Hs & Hc & _) | Ha]]]].
  - exfalso. vm_compute in Hs. destruct Hs as [<- | []]. destruct Hc.
  - exfalso. unfold duplicate_contract in E. simpl in E. discriminate E.
  - exfalso. unfold duplicate_asset in E. simpl in E. discriminate E.
  - exfalso. vm_compute in Hs. destruct Hs as [<- | []]. destruct Hc.
  - exact Ha.
Defined.

(** ** More of the code: identities that join *)

Lemma replace_without (a b : ascii) (s : string) :
  contains a s = false -> replace a b s = s.
Proof.
  induction s as [|c r IH]; simpl; [reflexivity|].
  intros H. apply orb_false_iff in H. destruct H as [H1 H2].
  now rewrite H1, IH.
Qed.

Lemma append_inj_r (s s' t : string) : s ++ t = s' ++ t -> s = s'.
Proof.
  intros H.
  assert (Hl : String.length s = String.length s').
  { apply (f_equal String.length) in H. rewrite !app_length in H. lia. }
  revert s' Hl H. induction s as [|c r IH]; intros [|c' r'] Hl H;
    simpl in *; try discriminate; [reflexivity|].
  injection H as -> H. f_equal. apply IH; [lia|exact H].
Qed.

Lemma list_ascii_app (s t : string) :
  list_ascii_of_string (s ++ t)
  = (list_ascii_of_string s ++ list_ascii_of_string t)%list.
Proof. induction s; simpl; congruence. Qed.

(** The two suffixes end differently, so a local identity is never an
    external one. *)
Lemma suffixes_apart (s s' : string) :
  s ++ EXT_SUFFIX <> s' ++ LOCAL_SUFFIX.
Proof.
  intros H. apply (f_equal list_ascii_of_string) in H.
  rewrite !list_ascii_app in H.
  change (list_ascii_of_string EXT_SUFFIX)
    with (list_ascii_of_string "#EXT#@liveuclac.onmicrosoft.co" ++ ["m"%char])%list
    in H.
  change (list_ascii_of_string LOCAL_SUFFIX)
    with (list_ascii_of_string "@ucl.ac.u" ++ ["k"%char])%list in H.
  rewrite !app_assoc in H. apply app_inj_tail in H.
  destruct H as [_ H]. discriminate H.
Qed.

(** X6.  Two raw identifiers get the same identity exactly when, trimmed
    and lowercased, they are both with or both without an at sign and are
    the same once every at sign is replaced by an underscore.  So local
    identifiers join exactly when they are the same cleaned text, a local
    identifier never joins an external one, and external addresses that
    differ only in where the at sign stands for an underscore do join. *)
Theorem normalise_username_joins (x y : string) :
  (Final.normalise_username x = Final.normalise_username y
   <-> contains "@" (cleaned x) = contains "@" (cleaned y)
       /\ replace "@" "_" (cleaned x) = replace "@" "_" (cleaned y))
  /\ (contains "@" (cleaned x) = false -> contains "@" (cleaned y) = false ->
      (Final.normalise_username x = Final.normalise_username y
       <-> cleaned x = cleaned y)).
Proof.
  assert (Hiff :
    Final.normalise_username x = Final.normalise_username y
    <-> contains "@" (cleaned x) = contains "@" (cleaned y)
        /\ replace "@" "_" (cleaned x) = replace "@" "_" (cleaned y)).
  { unfold Final.normalise_username, cleaned.
    destruct (contains "@" (lower (strip x))) eqn:Ex;
      destruct (contains "@" (lower (strip y))) eqn:Ey.
    - split; [intros H; split; [reflexivity|]|intros [_ ->]; reflexivity].
      exact (append_inj_r _ _ _ H).
    - split; [intros H|intros [H _]; discriminate H].
      exfalso. exact (suffixes_apart _ _ H).
    - split; [intros H|intros [H _]; discriminate H].
      exfalso. symmetry in H. exact (suffixes_apart _ _ H).
    - rewrite !replace_without by assumption.
      split; [intros H; split; [reflexivity|]|intros [_ ->]; reflexivity].
      exact (append_inj_r _ _ _ H). }
  split; [exact Hiff|].
  intros Hx Hy. rewrite Hiff, Hx, Hy.
  rewrite !replace_without by assumption. tauto.
Qed.

Lemma normalise_username_joins_witness :
  contains "@" (cleaned " NOP-1 ") = false
  /\ contains "@" (cleaned "nop-1") = false
  /\ cleaned " NOP-1 " = cleaned "nop-1"
  /\ Final.normalise_username " NOP-1 " = Final.normalise_username "nop-1".
Proof.
  assert (H1 : contains "@" (cleaned " NOP-1 ") = false) by reflexivity.
  assert (H2 : contains "@" (cleaned "nop-1") = false) by reflexivity.
  assert (H3 : cleaned " NOP-1 " = cleaned "nop-1") by reflexivity.
  split; [exact H1|]. split; [exact H2|]. split; [exact H3|].
  exact (proj2 (proj2 (normalise_username_joins " NOP-1 " "nop-1") H1 H2) H3).
Defined.

(** ** More of the code: the loaders of final.py *)

Section FileRows.
Context {V : Type}.
Variable keyf : Row -> option string.
Variable valf : Row -> V.

Lemma file_rows_get (rows : list Row) (d : dict V) (u : string) :
  dict_get (file_rows keyf valf rows d) u
  = match last_row_for keyf u rows with
    | Some row => Some (valf row)
    | None => dict_get d u
    end.
Proof.
  unfold last_row_for, file_rows. revert d.
  induction rows as [|r0 rest IH]; intros d; simpl; [reflexivity|].
  rewrite IH, find_last.
  destruct (find _ (rev rest)); [reflexivity|].
  unfold has_key. destruct (keyf r0) as [k|]; [|reflexivity].
  rewrite dict_get_set. now destruct (String.eqb k u).
Qed.

Lemma file_rows_NoDup (rows : list Row) (d : dict V) :
  NoDup (dict_keys d) -> NoDup (dict_keys (file_rows keyf valf rows d)).
Proof.
  unfold file_rows. revert d.
  induction rows as [|r0 rest IH]; intros d H; simpl; [exact H|].
  apply IH. destruct (keyf r0); [now apply dict_set_NoDup|exact H].
Qed.

Lemma last_row_for_Some (u : string) (rows : list Row) :
  (exists row, last_row_for keyf u rows = Some row)
  <-> exists row, In row rows /\ keyf row = Some u.
Proof.
  unfold last_row_for, has_key. split.
  - intros [row H]. apply find_some in H. destruct H as [Hin Heq].
    exists row. split; [now apply in_rev|].
    destruct (keyf row); [|discriminate].
    apply String.eqb_eq in Heq. now subst.
  - intros (row & Hin & Heq).
    destruct (find _ (rev rows)) as [r|] eqn:E; [eauto|].
    apply in_rev in Hin. apply (find_none _ _ E row) in Hin.
    rewrite Heq, String.eqb_refl in Hin. discriminate.
Qed.

Lemma last_row_for_key (u : string) (rows : list Row) (row : Row) :
  last_row_for keyf u rows = Some row -> In row rows /\ keyf row = Some u.
Proof.
  unfold last_row_for, has_key. intros H. apply find_some in H.
  destruct H as [Hin Heq]. split; [now apply in_rev|].
  destruct (keyf row); [|discriminate].
  apply String.eqb_eq in Heq. now subst.
Qed.

Lemma file_rows_keys (rows : list Row) (u : string) :
  In u (dict_keys (file_rows keyf valf rows []))
  <-> exists row, In row rows /\ keyf row = Some u.
Proof.
  rewrite <- last_row_for_Some. split.
  - intros Hin.
    destruct (last_row_for keyf u rows) as [row|] eqn:E; [eauto|].
    exfalso.
    apply (proj1 (dict_get_None (file_rows keyf valf rows []) u));
      [|exact Hin].
    now rewrite file_rows_get, E.
  - intros [row Hrow].
    destruct (in_dec string_dec u (dict_keys (file_rows keyf valf rows [])))
      as [Hin|Hn]; [exact Hin|].
    apply dict_get_None in Hn. rewrite file_rows_get, Hrow in Hn.
    discriminate.
Qed.
End FileRows.

Lemma load_training_file_rows (rows : list Row) :
  Final.load_training rows
  = file_rows training_identity training_date rows [].
Proof.
  unfold Final.load_training, file_rows. apply fold_left_ext_in.
  intros d row _.
  unfold Final.load_training_row, training_identity, training_date.
  destruct (truthy (strip (or_empty (row_get row "Other email"))));
    [reflexivity|].
  destruct (truthy (strip (or_empty (row_get row "UserID")))); reflexivity.
Qed.

Lemma load_agreements_file_rows (rows : list Row) :
  Final.load_agreements rows
  = file_rows agreement_identity agreement_signed rows [].
Proof.
  unfold Final.load_agreements, file_rows. apply fold_left_ext_in.
  intros d row _.
  unfold Final.load_agreements_row, agreement_identity, agreement_signed.
  destruct (_ || _); reflexivity.
Qed.

(** X7.  The training loader files a row under the identity of its Other
    email cell, or of its UserID cell when the first is blank, and skips a
    row where both are blank.  An identity is filed once; it holds the date
    of the last row filed under it, which is absent when that row's
    LastTrained cell is blank or does not parse, whatever earlier rows
    said. *)
Theorem load_training_last_wins (rows : list Row) (u : string) :
  dict_get (Final.load_training rows) u
  = option_map training_date (last_row_for training_identity u rows)
  /\ NoDup (dict_keys (Final.load_training rows))
  /\ (In u (dict_keys (Final.load_training rows))
      <-> exists row, In row rows /\ training_identity row = Some u)
  /\ (forall row,
        blank (row_get row "Other email") = false ->
        training_identity row
        = Some (Final.normalise_username
                  (strip (or_empty (row_get row "Other email")))))
  /\ (forall row,
        blank (row_get row "Other email") = true ->
        blank (row_get row "UserID") = false ->
        training_identity row
        = Some (Final.normalise_username
                  (strip (or_empty (row_get row "UserID")))))
  /\ (forall row,
        blank (row_get row "Other email") = true ->
        blank (row_get row "UserID") = true ->
        training_identity row = None).
Proof.
  rewrite load_training_file_rows.
  split; [|split; [|split; [|split; [|split]]]].
  - rewrite file_rows_get. now destruct (last_row_for _ _ _).
  - apply file_rows_NoDup. constructor.
  - apply file_rows_keys.
  - intros row H. rewrite blank_strip in H. apply negb_false_iff in H.
    unfold training_identity. now rewrite H.
  - intros row H1 H2. rewrite blank_strip in H1, H2.
    apply negb_true_iff in H1. apply negb_false_iff in H2.
    unfold training_identity. now rewrite H1, H2.
  - intros row H1 H2. rewrite blank_strip in H1, H2.
    apply negb_true_iff in H1, H2.
    unfold training_identity. now rewrite H1, H2.
Qed.

Lemma load_training_last_wins_witness :
  blank (row_get [("Other email", " "); ("UserID", "nop-1")] "Other email")
  = true
  /\ blank (row_get [("Other email", " "); ("UserID", "nop-1")] "UserID")
     = false
  /\ training_identity [("Other email", " "); ("UserID", "nop-1")]
     = Some "nop-1@ucl.ac.uk".
Proof.
  split; [reflexivity|]. split; [reflexivity|].
  exact (proj1 (proj2 (proj2 (proj2 (proj2
           (load_training_last_wins [] EmptyString)))))
           [("Other email", " "); ("UserID", "nop-1")] eq_refl eq_refl).
Defined.

(** X8.  The agreements loader skips a row whose UserID or Approved cell is
    absent or empty, and files every other row under the identity of its
    UserID.  An identity is filed once and holds the facet of the last row
    filed under it. *)
Theorem load_agreements_last_wins (rows : list Row) (u : string) :
  dict_get (Final.load_agreements rows) u
  = option_map agreement_signed (last_row_for agreement_identity u rows)
  /\ NoDup (dict_keys (Final.load_agreements rows))
  /\ (In u (dict_keys (Final.load_agreements rows))
      <-> exists row, In row rows /\ agreement_identity row = Some u)
  /\ (forall row,
        agreement_identity row = None
        <-> or_empty (row_get row "UserID") = EmptyString
            \/ or_empty (row_get row "Approved") = EmptyString)
  /\ (forall row v,
        agreement_identity row = Some v ->
        v = Final.normalise_username (or_empty (row_get row "UserID"))).
Proof.
  rewrite load_agreements_file_rows.
  split; [|split; [|split; [|split]]].
  - rewrite file_rows_get. now destruct (last_row_for _ _ _).
  - apply file_rows_NoDup. constructor.
  - apply file_rows_keys.
  - intros row. unfold agreement_identity, truthy_opt.
    rewrite <- !truthy_false.
    destruct (truthy (or_empty (row_get row "UserID")));
      destruct (truthy (or_empty (row_get row "Approved"))); simpl;
      intuition discriminate.
  - intros row v. unfold agreement_identity.
    destruct (_ || _); [discriminate|]. intros H. now injection H as <-.
Qed.

Lemma load_agreements_last_wins_witness :
  agreement_identity sample_yes_row = Some "u1@ucl.ac.uk"
  /\ "u1@ucl.ac.uk"
     = Final.normalise_username (or_empty (row_get sample_yes_row "UserID")).
Proof.
  assert (H : agreement_identity sample_yes_row = Some "u1@ucl.ac.uk")
    by reflexivity.
  split; [exact H|].
  exact (proj2 (proj2 (proj2 (proj2
           (load_agreements_last_wins [] EmptyString)))) _ _ H).
Defined.

(** X9.  The merge has a record for an identity exactly when a training
    row or an agreement row is filed under it; the record has the facet of
    the last agreement row filed under the identity, false when there is
    none, and the date of the last training row filed under it, absent when
    there is none. *)
Theorem merge_records_facets (training_rows agreement_rows : list Row) :
  (forall u,
     In u (map Final.username
             (Final.merge_records training_rows agreement_rows))
     <-> (exists row, In row training_rows
                      /\ training_identity row = Some u)
         \/ (exists row, In row agreement_rows
                         /\ agreement_identity row = Some u))
  /\ (forall r,
        In r (Final.merge_records training_rows agreement_rows) ->
        Final.has_signed_agreement r
        = match last_row_for agreement_identity (Final.username r)
                  agreement_rows with
          | Some row => agreement_signed row
          | None => false
          end
        /\ Final.nhsd_training_completed_at r
           = match last_row_for training_identity (Final.username r)
                     training_rows with
             | Some row => training_date row
             | None => None
             end).
Proof.
  unfold Final.merge_records. split.
  - intros u. rewrite merge_usernames, all_users_In.
    rewrite load_training_file_rows, load_agreements_file_rows.
    now rewrite !file_rows_keys.
  - intros r Hr. unfold Final.merge in Hr. apply in_map_iff in Hr.
    destruct Hr as (u & <- & _). simpl. unfold dict_get_default.
    rewrite load_training_file_rows, load_agreements_file_rows.
    rewrite !file_rows_get. simpl.
    split; now destruct (last_row_for _ _ _).
Qed.

Lemma merge_records_facets_witness :
  In sample_merged_record
     (Final.merge_records sample_training_rows sample_agreement_rows)
  /\ Final.has_signed_agreement sample_merged_record = true
  /\ last_row_for agreement_identity "nop-1@ucl.ac.uk" sample_agreement_rows
     = Some [("UserID", "NOP-1"); ("Approved", "True")].
Proof.
  assert (H : In sample_merged_record
                (Final.merge_records sample_training_rows
                   sample_agreement_rows))
    by (vm_compute; left; reflexivity).
  split; [exact H|]. split; [|reflexivity].
  rewrite (proj1 (proj2 (merge_records_facets sample_training_rows
                           sample_agreement_rows) _ H)).
  reflexivity.
Defined.

(** ** More of the code: the rows written by final.py *)

Lemma strptime_dmy_real (s : string) (dt : date) :
  strptime_dmy s = Some dt -> real_date (year dt) (month dt) (day dt).
Proof.
  unfold strptime_dmy.
  match goal with |- finish ?l = _ -> _ => generalize l end.
  intros [|[[[y m] d] rest] ms]; simpl; [discriminate|].
  destruct rest; [|discriminate]. intros H.
  apply make_date_real in H. destruct H as [H ->]. exact H.
Qed.

Lemma strptime_ymd_strftime (dt : date) :
  real_date (year dt) (month dt) (day dt) -> (1000 <= year dt)%Z ->
  strptime_ymd (strftime_ymd dt) = Some dt.
Proof.
  destruct dt as [y m d]. cbn [year month day]. intros H Hy.
  rewrite strftime_iso by (unfold real_date in H; lia).
  rewrite (strptime_ymd_complete _ y m d (iso_ymd_text _ _ _ H)).
  apply make_date_real. auto.
Qed.

Lemma training_date_real (row : Row) (dt : date) :
  training_date row = Some dt -> real_date (year dt) (month dt) (day dt).
Proof.
  unfold training_date. destruct (truthy _); [|discriminate].
  apply strptime_dmy_real.
Qed.

Lemma load_training_real (rows : list Row) (u : string) (dt : date) :
  dict_get (Final.load_training rows) u = Some (Some dt) ->
  real_date (year dt) (month dt) (day dt).
Proof.
  rewrite load_training_file_rows, file_rows_get.
  destruct (last_row_for training_identity u rows) as [row|];
    [|discriminate].
  intros H. injection H as H. now apply (training_date_real row).
Qed.

(** X10.  The row written for a record of the merge: its second field,
    true or false in lower case, gives the facet again under the
    comparison the agreements loader makes; its third field is empty when
    the record has no date and otherwise what [strftime] writes for the
    date, which [strptime] with the same format reads back as that date
    when the year is 1000 or later, and does not read at all when the year
    is earlier. *)
Theorem write_output_reads_back (training_rows agreement_rows : list Row)
  (r : Final.Record_) :
  In r (Final.merge_records training_rows agreement_rows) ->
  exists approved trained,
    output_row r = [Final.username r; approved; trained]
    /\ (approved = "true" \/ approved = "false")
    /\ String.eqb (lower (strip approved)) "true"
       = Final.has_signed_agreement r
    /\ match Final.nhsd_training_completed_at r with
       | Some dt =>
           ((1000 <= year dt)%Z -> strptime_ymd trained = Some dt)
           /\ ((year dt < 1000)%Z -> strptime_ymd trained = None)
       | None => trained = EmptyString
       end.
Proof.
  intros Hr. unfold output_row. do 2 eexists. split; [reflexivity|].
  split; [destruct (Final.has_signed_agreement r); auto|].
  split; [now destruct (Final.has_signed_agreement r)|].
  unfold Final.merge_records, Final.merge in Hr. apply in_map_iff in Hr.
  destruct Hr as (u & <- & _). simpl. unfold dict_get_default.
  destruct (dict_get (Final.load_training training_rows) u) as [[dt|]|] eqn:E;
    try reflexivity.
  split.
  - apply strptime_ymd_strftime. exact (load_training_real _ _ _ E).
  - apply strptime_strftime_short.
Qed.

Lemma write_output_reads_back_witness :
  In sample_merged_record
     (Final.merge_records sample_training_rows sample_agreement_rows)
  /\ output_row sample_merged_record
     = ["nop-1@ucl.ac.uk"; "true"; "2024-03-05"]
  /\ exists approved trained,
       output_row sample_merged_record
       = [Final.username sample_merged_record; approved; trained]
       /\ (approved = "true" \/ approved = "false")
       /\ String.eqb (lower (strip approved)) "true"
          = Final.has_signed_agreement sample_merged_record
       /\ match Final.nhsd_training_completed_at sample_merged_record with
          | Some dt =>
              ((1000 <= year dt)%Z -> strptime_ymd trained = Some dt)
              /\ ((year dt < 1000)%Z -> strptime_ymd trained = None)
          | None => trained = EmptyString
          end.
Proof.
  assert (H : In sample_merged_record
                (Final.merge_records sample_training_rows
                   sample_agreement_rows))
    by (vm_compute; left; reflexivity).
  split; [exact H|]. split; [reflexivity|].
  exact (write_output_reads_back _ _ _ H).
Defined.

(** ** More of the code: the indexes of the readers *)

Section GroupKeys.
Context {A : Type}.
Variable key : A -> string.

Lemma setdefault_append_keys (g : dict (list A)) (k k' : string) (x : A) :
  In k' (dict_keys (setdefault_append g k x))
  <-> k' = k \/ In k' (dict_keys g).
Proof.
  induction g as [|[k0 l] r IH]; simpl; [intuition congruence|].
  destruct (String.eqb_spec k0 k) as [->|Hn]; simpl;
    [intuition congruence|].
  rewrite IH. tauto.
Qed.

Lemma setdefault_append_NoDup (g : dict (list A)) (k : string) (x : A) :
  NoDup (dict_keys g) -> NoDup (dict_keys (setdefault_append g k x)).
Proof.
  induction g as [|[k0 l] r IH]; simpl; intros H.
  - repeat constructor. intros [].
  - inversion H as [|? ? Hn Hr]; subst.
    destruct (String.eqb_spec k0 k) as [->|Hne]; simpl.
    + now constructor.
    + constructor; [|now apply IH].
      change (~ In k0 (dict_keys (setdefault_append r k x))).
      rewrite setdefault_append_keys.
      intros [-> | ?]; [congruence|contradiction].
Qed.

Lemma setdefault_append_nonempty (g : dict (list A)) (k : string) (x : A) :
  (forall k' l, In (k', l) g -> l <> []) ->
  forall k' l, In (k', l) (setdefault_append g k x) -> l <> [].
Proof.
  induction g as [|[k0 l0] r IH]; simpl; intros H k' l.
  - intros [E | []]. injection E as <- <-. discriminate.
  - destruct (String.eqb_spec k0 k) as [->|Hne]; simpl.
    + intros [E | Hin]; [|eapply H; right; exact Hin].
      injection E as <- <-. now destruct l0.
    + intros [E | Hin]; [eapply H; left; exact E|].
      eapply IH; [|exact Hin]. intros k1 l1 H1. eapply H. right. exact H1.
Qed.

Lemma group_by_index (xs : list A) (g : dict (list A)) :
  NoDup (dict_keys g) -> (forall k l, In (k, l) g -> l <> []) ->
  NoDup (dict_keys (group_by key xs g))
  /\ (forall k l, In (k, l) (group_by key xs g) -> l <> [])
  /\ (forall k, In k (dict_keys (group_by key xs g))
                <-> In k (dict_keys g) \/ exists x, In x xs /\ key x = k).
Proof.
  unfold group_by. revert g.
  induction xs as [|x r IH]; intros g Hnd Hne; simpl.
  - split; [exact Hnd|]. split; [exact Hne|].
    intros k. split; [auto|]. intros [H | (x & [] & _)]. exact H.
  - destruct (IH (setdefault_append g (key x) x)) as (H1 & H2 & H3).
    + now apply setdefault_append_NoDup.
    + now apply setdefault_append_nonempty.
    + split; [exact H1|]. split; [exact H2|].
      intros k. rewrite H3, setdefault_append_keys. split.
      * intros [[-> | H] | (y & Hy & E)]; eauto.
      * intros [H | (y & [<- | Hy] & E)]; eauto.
Qed.
End GroupKeys.

Lemma rows_from_nth {A} (f : nat -> Row -> result A) (rows : list Row)
  (i : nat) (az : list A) (j : nat) (row : Row) :
  rows_from f i rows = Ok az -> nth_error rows j = Some row ->
  exists a, In a az /\ f (i + j) row = Ok a.
Proof.
  revert i az j. induction rows as [|r0 rest IH]; intros i az j; simpl.
  - intros _ H. destruct j; discriminate.
  - destruct (f i r0) as [a0|] eqn:E0; simpl; [|discriminate].
    destruct (rows_from f (S i) rest) as [az'|] eqn:E1; simpl;
      [|discriminate].
    intros H; injection H as <-. destruct j as [|j]; simpl.
    + intros H; injection H as <-. exists a0.
      rewrite Nat.add_0_r. split; [now left|exact E0].
    + intros Hj. destruct (IH _ _ _ E1 Hj) as (a & Ha & Hf).
      exists a. split; [now right|].
      now replace (i + S j) with (S i + j) by lia.
Qed.

Lemma rows_from_length {A} (f : nat -> Row -> result A) (rows : list Row)
  (i : nat) (az : list A) :
  rows_from f i rows = Ok az -> length az = length rows.
Proof.
  revert i az. induction rows as [|r0 rest IH]; intros i az; simpl.
  - intros H; injection H as <-. reflexivity.
  - destruct (f i r0); simpl; [|discriminate].
    destruct (rows_from f (S i) rest) eqn:E; simpl; [|discriminate].
    intros H; injection H as <-. simpl. f_equal. eapply IH. exact E.
Qed.

Lemma dict_get_default_Some {V} (d : dict V) (k : string) (v default : V) :
  dict_get d k = Some v -> dict_get_default d k default = v.
Proof. unfold dict_get_default. now intros ->. Qed.

(** X11.  The index [read_study_contracts] returns has every row's contract
    once: its keys are pairwise distinct and are the trimmed CaseRefs of
    the rows, no key has an empty list, and the list of a key is the
    contracts of the rows with that CaseRef in row order.  The index of
    [read_assets_by_case] is built the same way. *)
Theorem reader_index (rows : list Row) :
  (forall grouped,
     read_study_contracts rows = Ok grouped ->
     exists cs,
       rows_from contract_of_row 2 rows = Ok cs
       /\ length cs = length rows
       /\ NoDup (dict_keys grouped)
       /\ (forall k, In k (dict_keys grouped)
                     <-> exists row, In row rows
                                     /\ field row "CaseRef" = k)
       /\ (forall k l, dict_get grouped k = Some l ->
             l <> [] /\ l = children_of Contract.caseref k cs))
  /\ (forall grouped,
        read_assets_by_case rows = Ok grouped ->
        exists az,
          rows_from asset_of_row 2 rows = Ok az
          /\ length az = length rows
          /\ NoDup (dict_keys grouped)
          /\ (forall k, In k (dict_keys grouped)
                        <-> exists row, In row rows
                                        /\ field row "CaseRef" = k)
          /\ (forall k l, dict_get grouped k = Some l ->
                l <> [] /\ l = children_of Asset.caseref k az)).
Proof.
  split; intros g Hg.
  - unfold read_study_contracts in Hg.
    rewrite read_contracts_from_rows in Hg.
    destruct (rows_from contract_of_row 2 rows) as [cs|] eqn:E;
      simpl in Hg; [|discriminate].
    injection Hg as <-. exists cs. split; [reflexivity|].
    split; [eapply rows_from_length; exact E|].
    destruct (group_by_index Contract.caseref cs [])
      as (H1 & H2 & H3); [constructor|intros ? ? []|].
    split; [exact H1|]. split.
    + intros k. rewrite H3. split.
      * intros [[] | (c & Hc & <-)].
        destruct (rows_from_In _ _ _ _ _ E Hc) as (j & row & Hj & Hf).
        exists row. split; [eapply nth_error_In; exact Hj|].
        symmetry. now apply (contract_of_row_caseref _ _ _ Hf).
      * intros (row & Hin & <-). right.
        apply In_nth_error in Hin. destruct Hin as [j Hj].
        destruct (rows_from_nth _ _ _ _ _ _ E Hj) as (c & Hc & Hf).
        exists c. split; [exact Hc|].
        now apply (contract_of_row_caseref _ _ _ Hf).
    + intros k l Hl. split; [eapply H2, dict_get_In; exact Hl|].
      rewrite <- (dict_get_default_Some _ _ _ [] Hl).
      now rewrite group_by_get.
  - unfold read_assets_by_case in Hg. rewrite read_assets_from_rows in Hg.
    destruct (rows_from asset_of_row 2 rows) as [az|] eqn:E;
      simpl in Hg; [|discriminate].
    injection Hg as <-. exists az. split; [reflexivity|].
    split; [eapply rows_from_length; exact E|].
    destruct (group_by_index Asset.caseref az [])
      as (H1 & H2 & H3); [constructor|intros ? ? []|].
    split; [exact H1|]. split.
    + intros k. rewrite H3. split.
      * intros [[] | (c & Hc & <-)].
        destruct (rows_from_In _ _ _ _ _ E Hc) as (j & row & Hj & Hf).
        exists row. split; [eapply nth_error_In; exact Hj|].
        symmetry. now apply (asset_of_row_caseref _ _ _ Hf).
      * intros (row & Hin & <-). right.
        apply In_nth_error in Hin. destruct Hin as [j Hj].
        destruct (rows_from_nth _ _ _ _ _ _ E Hj) as (c & Hc & Hf).
        exists c. split; [exact Hc|].
        now apply (asset_of_row_caseref _ _ _ Hf).
    + intros k l Hl. split; [eapply H2, dict_get_In; exact Hl|].
      rewrite <- (dict_get_default_Some _ _ _ [] Hl).
      now rewrite group_by_get.
Qed.

Lemma reader_index_witness :
  exists grouped,
    read_study_contracts sample_unsorted_contract_rows = Ok grouped
    /\ NoDup (dict_keys grouped)
    /\ map Contract.contract_sp_id (dict_get_default grouped "S1" [])
       = ["B"; "A"].
Proof.
  destruct (read_study_contracts sample_unsorted_contract_rows)
    as [g|e] eqn:E; [|vm_compute in E; discriminate E].
  exists g. split; [reflexivity|].
  destruct (proj1 (reader_index sample_unsorted_contract_rows) g E)
    as (cs & _ & _ & Hnd & _).
  split; [exact Hnd|].
  vm_compute in E. injection E as <-. reflexivity.
Defined.

(** ** More of the code: the assets of a study *)

Lemma same_key_le (k a b : string * string) :
  same_key k a = true -> same_key k b = true -> pair_leb a b = true.
Proof.
  unfold same_key. intros Ha Hb.
  apply andb_true_iff in Ha, Hb. destruct Ha as [A1 A2], Hb as [B1 B2].
  apply String.eqb_eq in A1, A2, B1, B2.
  unfold pair_leb. rewrite A1, B1, A2, B2.
  rewrite string_compare_refl. apply string_leb_refl.
Qed.

(** X12.  A study of the output has every asset that the rows with its
    CaseRef gave, each as often as it was given, and none else; assets
    that have the same identity and the same title stay in the order of
    their rows. *)
Theorem assets_attached (sr ar cr : list Row) (errs : list string)
  (data : list Study.t) :
  main sr ar cr = Ok (errs, data) ->
  exists az,
    rows_from asset_of_row 2 ar = Ok az
    /\ length az = length ar
    /\ forall s, In s data ->
         Permutation (Study.assets s)
           (children_of Asset.caseref (Study.caseref s) az)
         /\ forall k,
              filter (fun a => same_key k (asset_key a)) (Study.assets s)
              = filter (fun a => same_key k (asset_key a))
                  (children_of Asset.caseref (Study.caseref s) az).
Proof.
  intros H. destruct (main_children _ _ _ _ _ H) as (az & cs & Ha & _ & Hall).
  exists az. split; [exact Ha|].
  split; [eapply rows_from_length; exact Ha|].
  intros s Hs. destruct (Hall s Hs) as (_ & _ & ->). split.
  - apply sort_by_perm.
  - intros k. apply (sort_by_stable pair_leb asset_key (same_key k)).
    apply same_key_le.
Qed.

Lemma assets_attached_witness :
  main sample_study_rows sample_tied_asset_rows []
  = Ok (["Duplicate asset_sp_id: B"],
        output_data (main sample_study_rows sample_tied_asset_rows []))
  /\ map (fun s => map (fun a => (Asset.asset_sp_id a, Asset.format a))
                     (Study.assets s))
       (output_data (main sample_study_rows sample_tied_asset_rows []))
     = [[("A", ""); ("B", "paper"); ("B", "disk")]]
  /\ exists az,
       rows_from asset_of_row 2 sample_tied_asset_rows = Ok az
       /\ length az = 3.
Proof.
  assert (H : main sample_study_rows sample_tied_asset_rows []
              = Ok (["Duplicate asset_sp_id: B"],
                    output_data
                      (main sample_study_rows sample_tied_asset_rows [])))
    by (vm_compute; reflexivity).
  split; [exact H|]. split; [vm_compute; reflexivity|].
  destruct (assets_attached _ _ _ _ _ H) as (az & Ha & Hl & _).
  exists az. split; [exact Ha|exact Hl].
Defined.

(** ** More of the code: the tier of an asset *)

Lemma int_skip_app (pre t : string) :
  int_blank pre -> int_skip (pre ++ t) = int_skip t.
Proof.
  unfold int_blank. induction pre as [|c r IH]; simpl; [reflexivity|].
  destruct (int_space c); [exact IH|discriminate].
Qed.

Lemma int_literal_skip (pre t : string) :
  int_blank pre -> int_literal (pre ++ t) = int_literal t.
Proof. intros H. unfold int_literal. now rewrite int_skip_app. Qed.

(** A text that starts with a digit has no whitespace and no sign to
    skip. *)
Lemma int_literal_digit (s : string) (c : ascii) (r : string) :
  s = String c r -> is_digit c = true ->
  int_literal s
  = match int_digits 0 0 false s with
    | None => IntInvalid
    | Some (v, count, rest) =>
        if MAX_STR_DIGITS <? count then IntExceeds count
        else match int_skip rest with
             | EmptyString => IntValue v
             | _ => IntInvalid
             end
    end.
Proof.
  intros -> H. destruct c as [[] [] [] [] [] [] [] []];
    vm_compute in H; first [discriminate H|reflexivity].
Qed.

Ltac digit_step IH :=
  cbn [NilEmpty.string_of_uint int_digits Nat.of_uint_acc append
       String.length];
  match goal with
  | |- context [is_digit ?c] => change (is_digit c) with true
  end;
  cbv iota;
  rewrite <- Nat.add_succ_comm, <- (IH _ _ true (fun _ => eq_refl));
  f_equal; rewrite Nat.tail_mul_spec; unfold digit_val;
  match goal with
  | |- context [nat_of_ascii ?c - 48] =>
      let v := eval vm_compute in (nat_of_ascii c - 48) in
      change (nat_of_ascii c - 48) with v
  end; lia.

(** Where the run of digits stops: at the end, or at a character that is
    neither a digit nor an underscore. *)
Lemma int_digits_uint (u : Decimal.uint) (acc count : nat)
  (after_digit : bool) (post : string) :
  (u = Decimal.Nil -> after_digit = true) ->
  (forall c r, post = String c r ->
               is_digit c = false /\ Ascii.eqb c "_" = false) ->
  int_digits (Z.of_nat acc) count after_digit
    (NilEmpty.string_of_uint u ++ post)
  = Some (Z.of_nat (Nat.of_uint_acc u acc),
          count + String.length (NilEmpty.string_of_uint u), post).
Proof.
  intros Hb Hpost. revert acc count after_digit Hb.
  induction u as [|u IH|u IH|u IH|u IH|u IH|u IH|u IH|u IH|u IH|u IH];
    intros acc count b Hb.
  - rewrite (Hb eq_refl).
    cbn [NilEmpty.string_of_uint append String.length Nat.of_uint_acc].
    rewrite Nat.add_0_r. destruct post as [|c r]; [reflexivity|].
    cbn [int_digits]. destruct (Hpost c r eq_refl) as [-> ->]. reflexivity.
  - digit_step IH.
  - digit_step IH.
  - digit_step IH.
  - digit_step IH.
  - digit_step IH.
  - digit_step IH.
  - digit_step IH.
  - digit_step IH.
  - digit_step IH.
  - digit_step IH.
Qed.

Lemma uint_head (u : Decimal.uint) :
  u <> Decimal.Nil ->
  exists c r, NilEmpty.string_of_uint u = String c r /\ is_digit c = true.
Proof.
  destruct u; [contradiction|..]; intros _; do 2 eexists;
    split; reflexivity.
Qed.

Lemma of_nat_head (n : nat) :
  exists c r, of_nat n = String c r /\ is_digit c = true.
Proof. apply uint_head, to_uint_nonnil. Qed.

(** The decimal text of a number, and after it the end or a character
    that is neither a digit nor an underscore. *)
Lemma int_literal_decimal (n : nat) (post : string) :
  (forall c r, post = String c r ->
               is_digit c = false /\ Ascii.eqb c "_" = false) ->
  int_literal (of_nat n ++ post)
  = if MAX_STR_DIGITS <? String.length (of_nat n)
    then IntExceeds (String.length (of_nat n))
    else match int_skip post with
         | EmptyString => IntValue (Z.of_nat n)
         | _ => IntInvalid
         end.
Proof.
  intros Hpost. destruct (of_nat_head n) as (c & r & E & Hc).
  rewrite (int_literal_digit _ c (r ++ post)); [|now rewrite E|exact Hc].
  unfold of_nat. change 0%Z with (Z.of_nat 0).
  rewrite int_digits_uint;
    [|intros Hn; now destruct (to_uint_nonnil n)|exact Hpost].
  change (Nat.of_uint_acc (Nat.to_uint n) 0)
    with (Nat.of_uint (Nat.to_uint n)).
  rewrite DecimalNat.Unsigned.of_to. reflexivity.
Qed.

Lemma isspace_stops (c : ascii) :
  isspace c = true -> is_digit c = false /\ Ascii.eqb c "_" = false.
Proof.
  intros H. destruct c as [[] [] [] [] [] [] [] []];
    vm_compute in H; first [discriminate H|split; reflexivity].
Qed.

Lemma int_space_isspace (c : ascii) : int_space c = true -> isspace c = true.
Proof.
  intros H. destruct c as [[] [] [] [] [] [] [] []];
    vm_compute in H; first [discriminate H|reflexivity].
Qed.

Lemma int_blank_stops (post : string) :
  int_blank post ->
  forall c r, post = String c r ->
              is_digit c = false /\ Ascii.eqb c "_" = false.
Proof.
  unfold int_blank. intros H c r ->. apply isspace_stops, int_space_isspace.
  simpl in H. destruct (int_space c); [reflexivity|discriminate].
Qed.

Lemma py_int_decimal (pre post : string) (n : nat) :
  int_blank pre -> int_blank post ->
  py_int (pre ++ of_nat n ++ post)
  = if MAX_STR_DIGITS <? String.length (of_nat n)
    then Raise (IntTooLong (String.length (of_nat n)))
    else Ok (Z.of_nat n).
Proof.
  intros Hpre Hpost. unfold py_int.
  rewrite int_literal_skip by exact Hpre.
  rewrite int_literal_decimal by now apply int_blank_stops.
  destruct (MAX_STR_DIGITS <? _); [reflexivity|]. now rewrite Hpost.
Qed.

Lemma py_int_separator (n : nat) (c : ascii) :
  separator c -> String.length (of_nat n) <= MAX_STR_DIGITS ->
  py_int (of_nat n ++ String c EmptyString)
  = Raise (InvalidInt (of_nat n ++ String c EmptyString)).
Proof.
  intros [Hs Hi] Hl. unfold py_int. rewrite int_literal_decimal.
  - apply Nat.ltb_ge in Hl. rewrite Hl. cbn [int_skip]. now rewrite Hi.
  - intros c' r E. injection E as <- _. now apply isspace_stops.
Qed.

Lemma int_literal_blank (s : string) :
  all_space s = true -> int_literal s = IntInvalid.
Proof.
  induction s as [|c r IH]; [reflexivity|]. cbn [all_space]. intros H.
  apply andb_true_iff in H. destruct H as [Hc Hr]. specialize (IH Hr).
  destruct c as [[] [] [] [] [] [] [] []];
    vm_compute in Hc; first [discriminate Hc|reflexivity|exact IH].
Qed.

Lemma py_int_blank (s : string) :
  all_space s = true -> py_int s = Raise (InvalidInt s).
Proof. intros H. unfold py_int. now rewrite int_literal_blank. Qed.

Lemma int_digits_only (s : string) (acc : Z) (count : nat)
  (after_digit : bool) :
  digits_only s = true -> (s = EmptyString -> after_digit = true) ->
  exists v,
    int_digits acc count after_digit s
    = Some (v, count + String.length s, EmptyString).
Proof.
  revert acc count after_digit.
  induction s as [|c r IH]; intros acc count b Hd Hb.
  - rewrite (Hb eq_refl). exists acc. simpl. now rewrite Nat.add_0_r.
  - cbn [digits_only] in Hd. apply andb_true_iff in Hd.
    destruct Hd as [Hc Hr]. cbn [int_digits String.length]. rewrite Hc.
    rewrite <- Nat.add_succ_comm. now apply IH.
Qed.

Lemma py_int_cap (s : string) :
  digits_only s = true -> MAX_STR_DIGITS < String.length s ->
  py_int s = Raise (IntTooLong (String.length s)).
Proof.
  intros Hd Hl. destruct s as [|c r]; [now apply Nat.nlt_0_r in Hl|].
  unfold py_int. rewrite (int_literal_digit _ c r eq_refl).
  - destruct (int_digits_only (String c r) 0 0 false Hd) as [v ->];
      [discriminate|].
    apply Nat.ltb_lt in Hl. cbn [Nat.add]. now rewrite Hl.
  - cbn [digits_only] in Hd. now apply andb_true_iff in Hd.
Qed.

Lemma decimal_nonempty (pre post : string) (n : nat) :
  pre ++ of_nat n ++ post <> EmptyString.
Proof.
  destruct (of_nat_head n) as (c & r & -> & _).
  destruct pre; discriminate.
Qed.

(** X13.  [int] on the Tier cell.  The decimal text of a number of at most
    4300 digits gives that number, also with whitespace around it; a text
    of more digits is refused.  The whitespace is what [int] skips, which
    is less than [str.strip] removes: after a separator character, 28 to
    31, the text is no integer.  An asset row without Tier cell, or with
    an empty one, gets tier 0; a Tier cell that is nothing but whitespace
    is not taken for empty: [int] raises on it, and the row with it. *)
Theorem asset_tier (i : nat) (row : Row) :
  (forall pre post n,
     int_blank pre -> int_blank post ->
     String.length (of_nat n) <= MAX_STR_DIGITS ->
     py_int (pre ++ of_nat n ++ post) = Ok (Z.of_nat n))
  /\ (forall s,
        digits_only s = true -> MAX_STR_DIGITS < String.length s ->
        py_int s = Raise (IntTooLong (String.length s)))
  /\ (forall a,
        asset_of_row i row = Ok a ->
        (or_empty (row_get row "Tier") = EmptyString -> Asset.tier a = 0%Z)
        /\ (forall pre post n,
              int_blank pre -> int_blank post ->
              or_empty (row_get row "Tier") = pre ++ of_nat n ++ post ->
              Asset.tier a = Z.of_nat n))
  /\ (forall s,
        blank (row_get row "CaseRef") = false ->
        blank (row_get row "Next Scheduled Review") = true
        \/ parse_date (row_get row "Next Scheduled Review") <> None ->
        row_get row "Tier" = Some s -> s <> EmptyString ->
        all_space s = true
        \/ (exists n c,
              s = of_nat n ++ String c EmptyString /\ separator c
              /\ String.length (of_nat n) <= MAX_STR_DIGITS) ->
        asset_of_row i row = Raise (InvalidInt s)).
Proof.
  split.
  { intros pre post n Hpre Hpost Hl. rewrite py_int_decimal by assumption.
    apply Nat.ltb_ge in Hl. now rewrite Hl. }
  split; [exact py_int_cap|]. split.
  - intros a. unfold asset_of_row.
    case_guard; [discriminate|]. case_guard; [discriminate|].
    destruct (py_int _) as [t|e] eqn:Et; [|discriminate].
    intros H. injection H as <-. simpl. split.
    + intros He. unfold truthy_opt in Et. rewrite He in Et. simpl in Et.
      vm_compute in Et. now injection Et as <-.
    + intros pre post n Hpre Hpost Hn. unfold truthy_opt in Et.
      rewrite Hn in Et.
      assert (Htr : truthy (pre ++ of_nat n ++ post) = true)
        by apply truthy_true, decimal_nonempty.
      rewrite Htr, py_int_decimal in Et by assumption.
      destruct (MAX_STR_DIGITS <? _); [discriminate|]. now injection Et as <-.
  - intros s Hc Hd Ht Hs Hsp. rewrite blank_strip in Hc.
    apply negb_false_iff in Hc. unfold asset_of_row, field.
    rewrite Hc. simpl.
    assert (Hg : truthy (strip (or_empty (row_get row "Next Scheduled Review")))
                 && match parse_date (row_get row "Next Scheduled Review") with
                    | Some _ => false
                    | None => true
                    end = false).
    { destruct Hd as [Hd | Hd].
      - rewrite blank_strip in Hd. apply negb_true_iff in Hd. now rewrite Hd.
      - destruct (parse_date _); [apply andb_false_r|contradiction]. }
    rewrite Hg. unfold truthy_opt. rewrite Ht. simpl.
    apply truthy_true in Hs. rewrite Hs.
    assert (Hpy : py_int s = Raise (InvalidInt s)).
    { destruct Hsp as [Hsp | (n & c & -> & Hsep & Hl)].
      - now apply py_int_blank.
      - now apply py_int_separator. }
    now rewrite Hpy.
Qed.

Lemma asset_tier_witness :
  blank (row_get sample_separator_tier_row "CaseRef") = false
  /\ blank (row_get sample_separator_tier_row "Next Scheduled Review") = true
  /\ row_get sample_separator_tier_row "Tier"
     = Some ("12" ++ String (ascii_of_nat 28) EmptyString)
  /\ strip ("12" ++ String (ascii_of_nat 28) EmptyString) = "12"
  /\ separator (ascii_of_nat 28)
  /\ asset_of_row 2 sample_separator_tier_row
     = Raise (InvalidInt ("12" ++ String (ascii_of_nat 28) EmptyString)).
Proof.
  assert (Hs : separator (ascii_of_nat 28)) by (split; reflexivity).
  split; [reflexivity|]. split; [reflexivity|]. split; [reflexivity|].
  split; [reflexivity|]. split; [exact Hs|].
  apply (proj2 (proj2 (proj2 (asset_tier 2 sample_separator_tier_row)))
           ("12" ++ String (ascii_of_nat 28) EmptyString)).
  - reflexivity.
  - left. reflexivity.
  - reflexivity.
  - discriminate.
  - right. exists 12, (ascii_of_nat 28). split; [reflexivity|].
    split; [exact Hs|]. unfold MAX_STR_DIGITS. simpl. lia.
Defined.

(** ** More of the code: the fields of the records *)

Lemma field_trimmed (row : Row) (k : string) : trimmed (field row k).
Proof. unfold trimmed, field. apply strip_idem. Qed.

Lemma opt_field_clean (row : Row) (k : string) : clean_opt (opt_field row k).
Proof.
  unfold opt_field, or_none, clean_opt.
  destruct (truthy (field row k)) eqn:E; [|exact I].
  split; [now apply truthy_true|apply field_trimmed].
Qed.

Lemma study_of_row_fields (row : Row) :
  let s := study_of_row (field row "CaseRef") row in
  Forall trimmed (study_texts s)
  /\ Forall clean_opt (study_optionals s)
  /\ Study.is_data_protection_office_registered s
     = match Study.data_protection_number s with
       | Some _ => Some true
       | None => None
       end.
Proof.
  simpl. split; [|split].
  - repeat constructor; apply field_trimmed.
  - repeat constructor; apply opt_field_clean.
  - unfold opt_field, or_none. now destruct (truthy _).
Qed.

Lemma asset_of_row_fields (i : nat) (row : Row) (a : Asset.t) :
  asset_of_row i row = Ok a ->
  Forall trimmed (asset_texts a)
  /\ Asset.title a = Asset.description a
  /\ Asset.description a = field row "Description"
  /\ Asset.locations a = row_get row "Current Location".
Proof.
  unfold asset_of_row. case_guard; [discriminate|].
  case_guard; [discriminate|]. destruct (py_int _); [|discriminate].
  intros H. injection H as <-. simpl.
  split; [repeat constructor; apply field_trimmed|auto].
Qed.

Lemma contract_of_row_fields (i : nat) (row : Row) (c : Contract.t) :
  contract_of_row i row = Ok c ->
  Forall trimmed (contract_texts c) /\ Forall clean_opt (contract_optionals c).
Proof.
  unfold contract_of_row. do 3 (case_guard; [discriminate|]).
  intros H. injection H as <-. simpl. split.
  - repeat constructor; apply field_trimmed.
  - repeat constructor; apply opt_field_clean.
Qed.

(** X14.  In the data of a run no text field of a study, an asset or a
    contract has whitespace around it, and an optional text is absent, not
    empty, when its cell is blank.  A study is marked as registered with
    the data protection office exactly when it has a registration number,
    and is never marked as not registered.  The title of an asset is its
    description, the trimmed Description cell: the reader takes both from
    there.  Only the locations of an asset are kept as the cell has them. *)
Theorem output_fields (sr ar cr : list Row) (errs : list string)
  (data : list Study.t) :
  main sr ar cr = Ok (errs, data) ->
  forall s, In s data ->
    Forall trimmed (study_texts s)
    /\ Forall clean_opt (study_optionals s)
    /\ Study.is_data_protection_office_registered s
       = match Study.data_protection_number s with
         | Some _ => Some true
         | None => None
         end
    /\ (forall a, In a (Study.assets s) ->
          Forall trimmed (asset_texts a)
          /\ Asset.title a = Asset.description a
          /\ exists row, In row ar
                         /\ Asset.description a = field row "Description"
                         /\ Asset.locations a
                            = row_get row "Current Location")
    /\ (forall c, In c (Study.contracts s) ->
          Forall trimmed (contract_texts c)
          /\ Forall clean_opt (contract_optionals c)).
Proof.
  intros H s Hs.
  destruct (main_children _ _ _ _ _ H) as (az & cs & Ha & Hc & Hall).
  destruct (Hall s Hs) as (_ & Ecs & Eas).
  destruct (main_output _ _ _ _ _ H) as (az' & cs' & _ & _ & _ & Hd & _).
  rewrite Hd in Hs. apply build_import_json_In in Hs.
  destruct Hs as (k & st & Hin & Est).
  destruct (file_studies_In _ _ _ _ Hin) as [[] | (row & _ & Hk & Hst)].
  assert (Hf : Forall trimmed (study_texts s)
               /\ Forall clean_opt (study_optionals s)
               /\ Study.is_data_protection_office_registered s
                  = match Study.data_protection_number s with
                    | Some _ => Some true
                    | None => None
                    end).
  { rewrite Est, Hst, <- Hk. exact (study_of_row_fields row). }
  destruct Hf as (F1 & F2 & F3).
  split; [exact F1|]. split; [exact F2|]. split; [exact F3|]. split.
  - intros a Hin'. rewrite Eas in Hin'.
    apply (proj1 (sort_by_In pair_leb asset_key _ _)) in Hin'.
    apply children_of_In in Hin'. destruct Hin' as [Hin' _].
    destruct (rows_from_In _ _ _ _ _ Ha Hin') as (j & r & Hj & Hr).
    destruct (asset_of_row_fields _ _ _ Hr) as (G1 & G2 & G3 & G4).
    split; [exact G1|]. split; [exact G2|].
    exists r. split; [eapply nth_error_In; exact Hj|auto].
  - intros c Hin'. rewrite Ecs in Hin'.
    apply children_of_In in Hin'. destruct Hin' as [Hin' _].
    destruct (rows_from_In _ _ _ _ _ Hc Hin') as (j & r & _ & Hr).
    exact (contract_of_row_fields _ _ _ Hr).
Qed.

Lemma output_fields_witness :
  main sample_padded_study_rows sample_titled_asset_rows []
  = Ok ([], output_data
              (main sample_padded_study_rows sample_titled_asset_rows []))
  /\ map (fun s => (Study.caseref s, Study.description s,
                    Study.is_data_protection_office_registered s,
                    map Asset.title (Study.assets s)))
       (output_data
          (main sample_padded_study_rows sample_titled_asset_rows []))
     = [("S1", None, Some true, ["what it is"])]
  /\ forall s,
       In s (output_data
               (main sample_padded_study_rows sample_titled_asset_rows [])) ->
       Forall trimmed (study_texts s).
Proof.
  assert (H : main sample_padded_study_rows sample_titled_asset_rows []
              = Ok ([], output_data
                     (main sample_padded_study_rows
                        sample_titled_asset_rows [])))
    by (vm_compute; reflexivity).
  split; [exact H|]. split; [vm_compute; reflexivity|].
  intros s Hs. exact (proj1 (output_fields _ _ _ _ _ H s Hs)).
Defined.

(** ** More of the code: when the validator finds nothing *)

Lemma header_reports (vd : bool) (st : vstate) (s : Study.t) :
  Study.caseref s = EmptyString ->
  In "Study missing CaseRef" (errors (validate_study vd st s)).
Proof.
  intros E. unfold validate_study.
  apply fold_grows; [intros; now apply validate_asset_grows|].
  apply fold_grows; [intros; now apply validate_contract_grows|].
  rewrite E. simpl. apply in_or_app. right. now left.
Qed.

Lemma contract_missing_reports (vd : bool) (cr : string) (st : vstate)
  (c : Contract.t) :
  Contract.contract_sp_id c = EmptyString ->
  In (missing_contract_id cr) (errors (validate_contract vd cr st c)).
Proof.
  intros E. unfold validate_contract.
  match goal with
  | |- context [check_date _ _ (check_date _ _ ?s)] => set (st1 := s)
  end.
  assert (H1 : In (missing_contract_id cr) (errors st1)).
  { unfold st1. rewrite E. simpl. apply in_or_app. right. now left. }
  destruct vd; [|exact H1]. now apply check_date_grows, check_date_grows.
Qed.

Lemma count_occ_filter (p : string -> bool) (l : list string) (x : string) :
  count_occ string_dec (filter p l) x
  = if p x then count_occ string_dec l x else 0.
Proof.
  induction l as [|y r IH]; simpl; [now destruct (p x)|].
  destruct (p y) eqn:Py; simpl; rewrite IH;
    destruct (string_dec y x) as [->|]; try reflexivity.
  - now rewrite Py.
  - now rewrite Py.
Qed.

Lemma no_element_nil {A} (l : list A) : (forall x, ~ In x l) -> l = [].
Proof.
  destruct l as [|a r]; [reflexivity|]. intros H. exfalso.
  apply (H a). now left.
Qed.

Lemma date_ok_dec (o : option string) :
  date_ok o
  \/ exists r, o = Some r /\ r <> EmptyString /\ validate_json_date r = None.
Proof.
  destruct o as [r|]; [|left; intros r H; discriminate].
  destruct (string_dec r EmptyString) as [->|Hn];
    [left; intros r H; injection H as <-; now left|].
  destruct (validate_json_date r) eqn:E.
  - left. intros r' H. injection H as <-. right. rewrite E. discriminate.
  - right. exists r. auto.
Qed.

Lemma well_formed_no_issue (data : list Study.t) :
  well_formed data -> validate data false = [].
Proof.
  intros (Hnd & Hcr & Hid & Hnc & Hna). apply no_element_nil. intros e He.
  assert (Hk : Forall
                 (fun e => issue_kind data e
                           \/ (false = true /\ date_issue data e))
                 (validate data false)).
  { unfold validate. apply studies_kind; [exact Hnd| |constructor].
    intros s Hs. split; [exact Hs|].
    split; [apply truthy_true; now apply Hcr|].
    split; [reflexivity|discriminate]. }
  rewrite Forall_forall in Hk.
  destruct (Hk e He)
    as [[(s & c & Hs & Hc & E & _) | [[x ->] | [x ->]]] | [Hf _]];
    [| | |discriminate Hf].
  - apply (Hid c); [|exact E]. apply in_flat_map. eauto.
  - apply (count_occ_In string_dec) in He.
    rewrite validate_contract_issues in He.
    destruct (truthy x); [|lia].
    pose proof (NoDup_count_occ_le _ x Hnc). unfold count_contracts in He.
    lia.
  - apply (count_occ_In string_dec) in He.
    rewrite validate_asset_issues in He.
    destruct (truthy x) eqn:Ex; [|lia].
    pose proof (NoDup_count_occ_le _ x Hna) as Hle.
    rewrite count_occ_filter, Ex in Hle. unfold count_assets in He. lia.
Qed.

Lemma no_issue_well_formed (data : list Study.t) (vd : bool) :
  validate data vd = [] -> well_formed data.
Proof.
  intros Hv.
  assert (Hcr : forall s, In s data -> Study.caseref s <> EmptyString).
  { intros s Hs E.
    assert (Hin : In "Study missing CaseRef" (validate data vd)).
    { unfold validate.
      apply (fold_reports (validate_study vd) _ s);
        [intros; now apply validate_study_grows| |exact Hs].
      intros st. now apply header_reports. }
    rewrite Hv in Hin. destruct Hin. }
  assert (Hid : forall c, In c (flat_map Study.contracts data) ->
                          Contract.contract_sp_id c <> EmptyString).
  { intros c Hc E. apply in_flat_map in Hc. destruct Hc as (s & Hs & Hc).
    assert (Hin : In (missing_contract_id (Study.caseref s))
                     (validate data vd)).
    { unfold validate.
      apply (fold_reports (validate_study vd) _ s);
        [intros; now apply validate_study_grows| |exact Hs].
      intros st. unfold validate_study.
      apply fold_grows; [intros; now apply validate_asset_grows|].
      apply (fold_reports _ _ c);
        [intros; now apply validate_contract_grows| |exact Hc].
      intros st'. now apply contract_missing_reports. }
    rewrite Hv in Hin. destruct Hin. }
  split; [|split; [exact Hcr|split; [exact Hid|split]]].
  - apply (NoDup_count_occ string_dec). intros x.
    pose proof (validate_case_issues x data vd) as H. rewrite Hv in H.
    simpl in H. destruct (truthy x) eqn:Ex; [lia|].
    apply truthy_false in Ex. subst x.
    rewrite (proj1 (count_occ_not_In string_dec _ _)); [lia|].
    intros Hin. apply in_map_iff in Hin. destruct Hin as (s & E & Hs).
    exact (Hcr s Hs E).
  - apply (NoDup_count_occ string_dec). intros x.
    pose proof (validate_contract_issues x data vd) as H. rewrite Hv in H.
    simpl in H. unfold count_contracts in H.
    destruct (truthy x) eqn:Ex; [lia|].
    apply truthy_false in Ex. subst x.
    rewrite (proj1 (count_occ_not_In string_dec _ _)); [lia|].
    intros Hin. apply in_map_iff in Hin. destruct Hin as (c & E & Hc).
    exact (Hid c Hc E).
  - apply (NoDup_count_occ string_dec). intros x.
    rewrite count_occ_filter.
    pose proof (validate_asset_issues x data vd) as H. rewrite Hv in H.
    simpl in H. unfold count_assets in H.
    destruct (truthy x); lia.
Qed.

Lemma no_issue_dates_ok (data : list Study.t) :
  validate data true = [] -> forall s, In s data -> dates_ok s.
Proof.
  intros Hv s Hs.
  assert (Hrep : forall e,
    (forall st, In e (errors (validate_study true st s))) -> False).
  { intros e He.
    assert (Hin : In e (validate data true)).
    { unfold validate.
      apply (fold_reports (validate_study true) _ s);
        [intros; now apply validate_study_grows|exact He|exact Hs]. }
    rewrite Hv in Hin. destruct Hin. }
  split.
  - intros c Hc. split.
    + destruct (date_ok_dec (Contract.start_date c))
        as [H | (r & E & Hr & Hn)]; [exact H|]. exfalso.
      apply (Hrep (invalid_start_date (Study.caseref s)
                     (Contract.contract_sp_id c) r)).
      intros st. unfold validate_study.
      apply fold_grows; [intros; now apply validate_asset_grows|].
      apply (fold_reports _ _ c);
        [intros; now apply validate_contract_grows| |exact Hc].
      intros st'.
      exact (proj1 (validate_contract_reports _ st' c) r E Hr Hn).
    + destruct (date_ok_dec (Contract.expiry_date c))
        as [H | (r & E & Hr & Hn)]; [exact H|]. exfalso.
      apply (Hrep (invalid_expiry_date (Study.caseref s)
                     (Contract.contract_sp_id c) r)).
      intros st. unfold validate_study.
      apply fold_grows; [intros; now apply validate_asset_grows|].
      apply (fold_reports _ _ c);
        [intros; now apply validate_contract_grows| |exact Hc].
      intros st'.
      exact (proj2 (validate_contract_reports _ st' c) r E Hr Hn).
  - intros a Ha.
    destruct (date_ok_dec (Asset.expires_at a))
      as [H | (r & E & Hr & Hn)]; [exact H|]. exfalso.
    apply (Hrep (invalid_expires_at (Study.caseref s)
                   (Asset.asset_sp_id a) r)).
    intros st. unfold validate_study.
    apply (fold_reports _ _ a);
      [intros; now apply validate_asset_grows| |exact Ha].
    intros st'. now apply validate_asset_reports.
Qed.

(** X15.  The validator returns no issue exactly when the data is well
    formed: every study has a CaseRef, the CaseRefs are pairwise distinct,
    every contract has an identity, the contract identities are pairwise
    distinct over all studies, and so are the asset identities that are not
    empty; and, with [validate_dates] set, when moreover every date that is
    filled in is an ISO date. *)
Theorem validate_nothing_found (data : list Study.t) :
  (validate data false = [] <-> well_formed data)
  /\ (validate data true = []
      <-> well_formed data /\ forall s, In s data -> dates_ok s).
Proof.
  split.
  - split; [apply no_issue_well_formed|apply well_formed_no_issue].
  - split.
    + intros H. split; [now apply (no_issue_well_formed data true)|].
      now apply no_issue_dates_ok.
    + intros [Hw Hd]. rewrite validate_dates_ok by exact Hd.
      now apply well_formed_no_issue.
Qed.

Lemma validate_nothing_found_witness :
  well_formed [sample_study] /\ validate [sample_study] false = [].
Proof.
  assert (H : well_formed [sample_study]).
  { unfold well_formed. simpl. repeat split; try constructor.
    - intros [].
    - constructor.
    - intros s [<- | []]. discriminate.
    - intros c []. }
  split; [exact H|].
  exact (proj2 (proj1 (validate_nothing_found [sample_study])) H).
Defined.

(** ** More of the code: the rows a run accepts *)

Lemma date_guard (raw : option string) :
  truthy (strip (or_empty raw))
  && match parse_date raw with Some _ => false | None => true end = false
  <-> date_cell_ok raw.
Proof.
  unfold date_cell_ok. rewrite blank_strip.
  destruct (truthy (strip (or_empty raw))); simpl;
    destruct (parse_date raw) as [d|]; simpl; split.
  - intros _. right. discriminate.
  - reflexivity.
  - discriminate.
  - intros [H | H]; [discriminate|congruence].
  - intros _. now left.
  - reflexivity.
  - intros _. now left.
  - reflexivity.
Qed.

Lemma asset_of_row_accepts (i : nat) (row : Row) :
  (exists a, asset_of_row i row = Ok a) <-> asset_row_ok row.
Proof.
  unfold asset_row_ok, asset_of_row, field. rewrite blank_strip.
  rewrite <- (date_guard (row_get row "Next Scheduled Review")).
  fold (tier_text row). unfold VALIDATE_DATES. cbn [andb].
  destruct (truthy (strip (or_empty (row_get row "CaseRef")))); simpl.
  - destruct (truthy (strip (or_empty
                (row_get row "Next Scheduled Review")))
              && match parse_date (row_get row "Next Scheduled Review") with
                 | Some _ => false | None => true end).
    + split; [intros [a H]; discriminate|].
      intros (_ & H & _). discriminate.
    + destruct (py_int (tier_text row)) as [t|e]; split.
      * intros _. split; [reflexivity|]. split; [reflexivity|]. eauto.
      * intros _. eauto.
      * intros [a H]. discriminate.
      * intros (_ & _ & [t H]). discriminate.
  - split; [intros [a H]; discriminate|intros [H _]; discriminate].
Qed.

Lemma contract_of_row_accepts (i : nat) (row : Row) :
  (exists c, contract_of_row i row = Ok c) <-> contract_row_ok row.
Proof.
  unfold contract_row_ok, contract_of_row, field. rewrite blank_strip.
  rewrite <- (date_guard (row_get row "Agreement date")).
  rewrite <- (date_guard (row_get row "Contract expiry or review date")).
  unfold VALIDATE_DATES. cbn [andb].
  destruct (truthy (strip (or_empty (row_get row "CaseRef")))); simpl.
  - destruct (truthy (strip (or_empty (row_get row "Agreement date")))
              && match parse_date (row_get row "Agreement date") with
                 | Some _ => false | None => true end).
    + split; [intros [a H]; discriminate|].
      intros (_ & H & _). discriminate.
    + destruct (truthy (strip (or_empty
                  (row_get row "Contract expiry or review date")))
                && match parse_date
                           (row_get row "Contract expiry or review date") with
                   | Some _ => false | None => true end).
      * split; [intros [a H]; discriminate|].
        intros (_ & _ & H). discriminate.
      * split; [intros _; repeat split|eauto].
  - split; [intros [a H]; discriminate|intros [H _]; discriminate].
Qed.

Lemma rows_from_accepts {A} (f : nat -> Row -> result A) (P : Row -> Prop)
  (rows : list Row) (i : nat) :
  (forall j row, (exists a, f j row = Ok a) <-> P row) ->
  (exists az, rows_from f i rows = Ok az) <-> Forall P rows.
Proof.
  intros Hf. revert i. induction rows as [|r0 rest IH]; intros i; simpl.
  - split; [constructor|eauto].
  - split.
    + intros [az H]. destruct (f i r0) as [a|] eqn:E; simpl in H;
        [|discriminate].
      destruct (rows_from f (S i) rest) as [az'|] eqn:E1; simpl in H;
        [|discriminate].
      constructor; [apply (Hf i); eauto|apply (IH (S i)); eauto].
    + intros H. inversion H as [|? ? H0 Hr]; subst.
      apply (Hf i) in H0. destruct H0 as [a ->].
      apply (IH (S i)) in Hr. destruct Hr as [az ->]. simpl. eauto.
Qed.

Lemma read_studies_accepts (rows : list Row) :
  (exists d, read_studies rows = Ok d) <-> Forall study_row_ok rows.
Proof.
  unfold read_studies, study_row_ok. rewrite Forall_forall. split.
  - intros [d H] row Hin.
    destruct (read_studies_from_inv _ _ _ _ H) as [Hnb _].
    destruct (blank (row_get row "CaseRef")) eqn:E; [|reflexivity].
    apply field_blank in E. exfalso. now apply (Hnb row Hin).
  - intros H. eexists. apply read_studies_from_ok. intros r Hr E.
    apply field_blank in E. rewrite (H r Hr) in E. discriminate.
Qed.

(** X16.  A run has output exactly when every row is acceptable: a study
    row needs no more than a CaseRef, whatever its sign-off date looks
    like; an asset row needs a CaseRef, a review date that is blank or
    parses, and a Tier that is absent, empty or a text [int] converts:
    whitespace that [int] skips, a sign, at most 4300 digits with single
    underscores between them, whitespace; a contract row needs a CaseRef
    and two dates that are blank or parse.  Nothing else in a row can stop
    a run. *)
Theorem run_succeeds (sr ar cr : list Row) :
  (exists out, main sr ar cr = Ok out)
  <-> Forall study_row_ok sr /\ Forall asset_row_ok ar
      /\ Forall contract_row_ok cr.
Proof.
  rewrite <- read_studies_accepts.
  rewrite <- (rows_from_accepts asset_of_row asset_row_ok ar 2
                asset_of_row_accepts).
  rewrite <- (rows_from_accepts contract_of_row contract_row_ok cr 2
                contract_of_row_accepts).
  unfold main, read_assets_by_case, read_study_contracts.
  rewrite read_assets_from_rows, read_contracts_from_rows.
  destruct (read_studies sr) as [d|e]; simpl.
  - destruct (rows_from asset_of_row 2 ar) as [az|e]; simpl.
    + destruct (rows_from contract_of_row 2 cr) as [cs|e]; simpl.
      * split; [intros _; eauto 6|intros _; eauto].
      * split; [intros [o H]; discriminate|].
        intros (_ & _ & [x H]). discriminate.
    + split; [intros [o H]; discriminate|].
      intros (_ & [x H] & _). discriminate.
  - split; [intros [o H]; discriminate|].
    intros ([x H] & _). discriminate.
Qed.

Lemma run_succeeds_witness :
  Forall study_row_ok sample_bad_signoff_rows
  /\ map Study.last_signoff
       (output_data (main sample_bad_signoff_rows [] []))
     = [None]
  /\ (exists out, main sample_bad_signoff_rows [] [] = Ok out)
  /\ main sample_study_rows [sample_separator_tier_row] []
     = Raise (InvalidInt ("12" ++ String (ascii_of_nat 28) EmptyString))
  /\ ~ Forall asset_row_ok [sample_separator_tier_row].
Proof.
  assert (H : Forall study_row_ok sample_bad_signoff_rows)
    by (repeat constructor).
  assert (Hr : main sample_study_rows [sample_separator_tier_row] []
               = Raise (InvalidInt
                          ("12" ++ String (ascii_of_nat 28) EmptyString)))
    by (vm_compute; reflexivity).
  split; [exact H|]. split; [vm_compute; reflexivity|]. split.
  - apply (proj2 (run_succeeds sample_bad_signoff_rows [] [])).
    split; [exact H|]. split; constructor.
  - split; [exact Hr|]. intros Ha.
    destruct (proj2 (run_succeeds sample_study_rows
                       [sample_separator_tier_row] []))
      as [out Hout].
    + split; [repeat constructor|]. split; [exact Ha|constructor].
    + rewrite Hr in Hout. discriminate Hout.
Defined.
